(** * SixerZone booking front end: slot selection, wizard and validators

    A shallow embedding of the client-side logic of the booking UI:
    - [Helpers]: utils/helpers.js ([isValidEmail], [isValidPhone],
      [formatTime], [formatTimeRange]);
    - [TimeSlotSelection]: components/TimeSlotSelection.jsx
      ([handleSlotClick], [areSlotConsecutive], [handleConfirmSelection]);
    - [CustomerBooking]: components/CustomerBooking.jsx (the step wizard);
    - [BookingForm]: components/BookingForm.jsx (the form, its validation
      and submission, and the callbacks of the payment widget);
    - [DateSelection], [GroundSelection]: the click handlers of the date and
      ground pages; [BookingFlow]: the wizard together with its pages;
    - [AdminApi]: utils/adminApi.js (the admin token) and ProtectedRoute;
    - [AdminDashboard]: the pricing rows of components/AdminDashboard.jsx.

    React state is modelled by explicit state passing: a component is a record
    of its [useState] cells, an event handler is a function from the state of
    the render it closes over to the next state, and the calls a handler makes
    on its props (callbacks) or on the API are returned as a list of effects. *)

From Equations Require Import Equations.
From Stdlib Require Import ZArith NArith List Bool Lia String Ascii.
From Stdlib Require Import Sorting.Sorted Sorting.Permutation DecimalString.
From stdpp Require Import base decidable list sorting gmap sets.
Import ListNotations.
Local Open Scope Z_scope.

(** ** JavaScript strings

    A JavaScript string is a sequence of UTF-16 code units; regular
    expressions without the [u] flag see one code unit at a time. *)

Definition jsstring := list N.

(** An ASCII literal of the source, as code units. *)
Definition js (s : string) : jsstring :=
  List.map N_of_ascii (list_ascii_of_string s).

(** [String.prototype.startsWith] and [String.prototype.includes]. *)
Fixpoint is_prefix (p s : jsstring) : bool :=
  match p, s with
  | [], _ => true
  | _ :: _, [] => false
  | a :: p', b :: s' => N.eqb a b && is_prefix p' s'
  end.

Fixpoint includes (s needle : jsstring) : bool :=
  is_prefix needle s ||
  match s with
  | [] => false
  | _ :: s' => includes s' needle
  end.

(** ** [Array.prototype.sort] with a comparator

    [sort] is stable and, for a consistent comparator, returns the elements in
    an order where no element compares greater than a later one.  Any stable
    sort computes the same array; the model inserts from the right, placing an
    element before the first one it does not compare greater than. *)

Section Sort.
Context {A : Type} (cmp : A -> A -> Z).

Fixpoint sort_insert (x : A) (l : list A) : list A :=
  match l with
  | [] => [x]
  | y :: l' => if cmp x y <=? 0 then x :: y :: l' else y :: sort_insert x l'
  end.

Fixpoint sort (l : list A) : list A :=
  match l with
  | [] => []
  | x :: l' => sort_insert x (sort l')
  end.
End Sort.

(** The comparator [(a, b) => a - b]. *)
Definition cmp_num (a b : Z) : Z := a - b.

(** * components/TimeSlotSelection.jsx *)

Module TimeSlotSelection.

(** An element of the array returned by [getAvailableSlots]. *)
Record slotObj := SlotObj { slot : jsstring; enabled : bool }.

(** An element of [selectedSlots]: [{ slot, index }]. *)
Record chosen := Chosen { c_slot : jsstring; index : Z }.

(** The [useState] cells of the component. *)
Record state := State {
  slots : list slotObj;
  selectedSlots : list chosen;
  loading : bool;
  error : option jsstring
}.

(** Calls on the props. *)
Inductive call :=
| OnSlotSelect (slot : jsstring) (hour : Z) (hours : list Z)
| OnBack.

(** What running a handler does: it returns, leaving a state and the calls
    it made, or a property read on [undefined] throws. *)
Inductive outcome :=
| Returns (st : state) (calls : list call)
| ThrowsTypeError.

Definition setSelectedSlots (f : list chosen -> list chosen) (st : state) : state :=
  {| slots := slots st; selectedSlots := f (selectedSlots st);
     loading := loading st; error := error st |}.

Definition setError (e : option jsstring) (st : state) : state :=
  {| slots := slots st; selectedSlots := selectedSlots st;
     loading := loading st; error := e |}.

(** [handleSlotClick(slotObj, index)] *)
Definition handleSlotClick (st : state) (slotObj : slotObj) (index0 : Z) : state :=
  if negb (enabled slotObj) then st
  else
    let isSelected := existsb (fun s => index s =? index0) (selectedSlots st) in
    if isSelected then
      setSelectedSlots (fun prev => List.filter (fun s => negb (index s =? index0)) prev) st
    else
      setSelectedSlots (fun prev => prev ++ [Chosen (slot slotObj) index0]) st.

(** The click handler of the card rendered for [slots[i]]:
    [onClick={() => handleSlotClick(slotObj, index)}]. *)
Definition click (st : state) (i : nat) : state :=
  match slots st !! i with
  | Some slotObj => handleSlotClick st slotObj (Z.of_nat i)
  | None => st
  end.

(** [indices[i]] of an array of numbers; [None] is [undefined]. *)
Definition at_index (indices : list Z) (i : nat) : option Z := indices !! i.

(** [a !== b + 1] on two array reads. *)
Definition differs_from_succ (a b : option Z) : bool :=
  match a, b with
  | Some x, Some y => negb (x =? y + 1)
  | _, _ => true
  end.

(** The loop [for (let i = 1; i < indices.length; i++)] of
    [areSlotConsecutive], from the value of [i] on. *)
Equations? consecutive_from (indices : list Z) (i : nat) : bool
  by wf (length indices - i)%nat lt :=
  consecutive_from indices i with lt_dec i (length indices) => {
    | left _ =>
        if differs_from_succ (at_index indices i) (at_index indices (i - 1))
        then false
        else consecutive_from indices (S i);
    | right _ => true }.
Proof. lia. Qed.

(** [areSlotConsecutive()] *)
Definition areSlotConsecutive (st : state) : bool :=
  if (length (selectedSlots st) <=? 1)%nat then true
  else
    let indices := sort cmp_num (List.map index (selectedSlots st)) in
    consecutive_from indices 1.

(** [handleConfirmSelection()] *)
Definition handleConfirmSelection (st : state) : outcome :=
  if (length (selectedSlots st) =? 0)%nat then
    Returns (setError (Some (js "Please select at least one time slot")) st) []
  else if negb (areSlotConsecutive st) then
    Returns (setError (Some (js "Please select consecutive time slots only")) st) []
  else
    let sortedSlots := sort (fun a b => index a - index b) (selectedSlots st) in
    let hours := List.map index sortedSlots in
    match sortedSlots with
    | first :: _ => Returns st [OnSlotSelect (c_slot first) (index first) hours]
    | [] => ThrowsTypeError
    end.

(** *** Fetching, rendering and the controls of the page *)

Definition setSlots (data : list slotObj) (st : state) : state :=
  {| slots := data; selectedSlots := selectedSlots st;
     loading := loading st; error := error st |}.

Definition setLoading (b : bool) (st : state) : state :=
  {| slots := slots st; selectedSlots := selectedSlots st;
     loading := b; error := error st |}.

Definition fetch_error : jsstring :=
  js "Failed to load available slots. Please try again.".

(** [fetchAvailableSlots()], up to the [await]. *)
Definition fetchAvailableSlots_start (st : state) : state :=
  setError None (setLoading true st).

(** [fetchAvailableSlots()], from the [await] on: [response] is the array
    [getAvailableSlots] resolved to, or [None] when it threw. *)
Definition fetchAvailableSlots_settle (response : option (list slotObj))
    (st : state) : state :=
  setLoading false
    match response with
    | Some data => setSlots data st
    | None => setError (Some fetch_error) st
    end.

Definition fetchAvailableSlots (response : option (list slotObj))
    (st : state) : state :=
  fetchAvailableSlots_settle response (fetchAvailableSlots_start st).

(** The component after its first effect: [useState] initial values, then
    [if (selectedDate) fetchAvailableSlots()]. *)
Definition mounted : state := State [] [] true None.

Definition mount (selectedDate : jsstring) (response : option (list slotObj)) : state :=
  match selectedDate with
  | [] => mounted
  | _ :: _ => fetchAvailableSlots response mounted
  end.

(** One card of the grid. *)
Record card := Card {
  card_slot : jsstring;
  card_enabled : bool;
  card_selected : bool
}.

(** The footer with the confirm button. *)
Record footer := Footer {
  footer_count : nat;
  footer_warning : bool;
  confirm_disabled : bool
}.

(** What the component returns. *)
Inductive view :=
| LoadingView
| ErrorView (message : jsstring)
| SelectionView (cards : list card) (foot : option footer).

Definition render (st : state) : view :=
  if loading st then LoadingView
  else
    match error st with
    | Some (c :: m) => ErrorView (c :: m)
    | Some [] | None =>
        SelectionView
          (imap (fun i slotObj =>
                   Card (slot slotObj) (enabled slotObj)
                     (existsb (fun s => index s =? Z.of_nat i) (selectedSlots st)))
             (slots st))
          (if (0 <? length (selectedSlots st))%nat then
             Some (Footer (length (selectedSlots st))
                     (negb (areSlotConsecutive st))
                     (negb (areSlotConsecutive st)))
           else None)
    end.

(** The controls: a card, the confirm button, the retry button (with what
    the refetch settles to) and the back button. *)
Inductive event :=
| ClickSlot (i : nat)
| ClickConfirm
| ClickRetry (response : option (list slotObj))
| ClickBack.

(** A click on a control; a control that is not on the page, or a disabled
    button, does nothing. *)
Definition handle (e : event) (st : state) : outcome :=
  match render st with
  | LoadingView => Returns st []
  | ErrorView _ =>
      match e with
      | ClickRetry response => Returns (fetchAvailableSlots response st) []
      | _ => Returns st []
      end
  | SelectionView _ foot =>
      match e with
      | ClickSlot i => Returns (click st i) []
      | ClickConfirm =>
          match foot with
          | Some f => if confirm_disabled f then Returns st [] else handleConfirmSelection st
          | None => Returns st []
          end
      | ClickBack => Returns st [OnBack]
      | ClickRetry _ => Returns st []
      end
  end.

(** A series of clicks, with the calls made on the way. *)
Fixpoint run (events : list event) (st : state) : option (state * list call) :=
  match events with
  | [] => Some (st, [])
  | e :: events' =>
      match handle e st with
      | Returns st' calls =>
          match run events' st' with
          | Some (st'', calls') => Some (st'', calls ++ calls')
          | None => None
          end
      | ThrowsTypeError => None
      end
  end.

End TimeSlotSelection.

(** * utils/helpers.js *)

Module Helpers.

(** ** The regular expressions of the validators

    Both validators are of the shape [/^t1 t2 ... tn$/] where every [ti] is
    a character class under a quantifier.  There is no [m] flag, so [^] and
    [$] are the two ends of the input. *)

(** Code units matched by [\s]: the WhiteSpace and LineTerminator
    productions of ECMAScript. *)
Definition is_whitespace (c : N) : bool :=
  (existsb (N.eqb c)
     [0x09; 0x0A; 0x0B; 0x0C; 0x0D; 0x20; 0xA0; 0x1680; 0x2028; 0x2029;
      0x202F; 0x205F; 0x3000; 0xFEFF]
   || (0x2000 <=? c) && (c <=? 0x200A))%N.

(** Code units matched by [\d]. *)
Definition is_digit (c : N) : bool := ((48 <=? c) && (c <=? 57))%N.

Inductive class_atom :=
| Whitespace            (* \s *)
| Char (c : N).

Inductive charclass :=
| Digit                           (* \d *)
| Literal (c : N)                 (* @ or \. *)
| NoneOf (atoms : list class_atom) (* [^...] *).

Definition atom_matches (a : class_atom) (c : N) : bool :=
  match a with
  | Whitespace => is_whitespace c
  | Char x => N.eqb x c
  end.

Definition class_matches (cl : charclass) (c : N) : bool :=
  match cl with
  | Digit => is_digit c
  | Literal x => N.eqb x c
  | NoneOf atoms => negb (existsb (fun a => atom_matches a c) atoms)
  end.

Inductive quantifier :=
| Once
| OneOrMore               (* + *)
| Exactly (n : nat)       (* {n} *).

Record term := Term { cls : charclass; quant : quantifier }.

(** The terms between [^] and [$]. *)
Definition regex := list term.

(** Backtracking matcher in continuation style: [k] is what the rest of
    the pattern does with the rest of the input. *)
Fixpoint match_exactly (p : N -> bool) (n : nat) (k : jsstring -> bool)
    (s : jsstring) : bool :=
  match n with
  | O => k s
  | S n' =>
      match s with
      | [] => false
      | c :: s' => p c && match_exactly p n' k s'
      end
  end.

(** [+] is greedy: take more first, give back on failure. *)
Fixpoint match_plus (p : N -> bool) (k : jsstring -> bool)
    (s : jsstring) : bool :=
  match s with
  | [] => false
  | c :: s' => p c && (match_plus p k s' || k s')
  end.

Definition match_term (t : term) (k : jsstring -> bool) : jsstring -> bool :=
  match quant t with
  | Once => match_exactly (class_matches (cls t)) 1 k
  | OneOrMore => match_plus (class_matches (cls t)) k
  | Exactly n => match_exactly (class_matches (cls t)) n k
  end.

Fixpoint match_terms (r : regex) (k : jsstring -> bool) : jsstring -> bool :=
  match r with
  | [] => k
  | t :: r' => match_term t (match_terms r' k)
  end.

Definition at_end (s : jsstring) : bool :=
  match s with [] => true | _ :: _ => false end.

(** [RegExp.prototype.test] for [/^r$/]. *)
Definition test (r : regex) (s : jsstring) : bool := match_terms r at_end s.

Definition code (a : ascii) : N := N_of_ascii a.

(** [/^[^\s@]+@[^\s@]+\.[^\s@]+$/] *)
Definition emailRegex : regex :=
  [ Term (NoneOf [Whitespace; Char (code "@")]) OneOrMore;
    Term (Literal (code "@")) Once;
    Term (NoneOf [Whitespace; Char (code "@")]) OneOrMore;
    Term (Literal (code ".")) Once;
    Term (NoneOf [Whitespace; Char (code "@")]) OneOrMore ].

(** [isValidEmail(email)] *)
Definition isValidEmail (email : jsstring) : bool := test emailRegex email.

(** [/^\d{10}$/] *)
Definition phoneRegex : regex := [ Term Digit (Exactly 10) ].

(** [isValidPhone(phone)] *)
Definition isValidPhone (phone : jsstring) : bool := test phoneRegex phone.

(** ** Time display *)

(** A number in a template literal, for an integer. *)
Definition number_to_string (n : Z) : jsstring :=
  js (NilZero.string_of_int (Z.to_int n)).

(** [formatTime(hour)]; [%] takes the sign of the dividend. *)
Definition formatTime (hour : Z) : jsstring :=
  let displayHour := if Z.rem hour 12 =? 0 then 12 else Z.rem hour 12 in
  let amPm := if hour <? 12 then js "AM" else js "PM" in
  number_to_string displayHour ++ js ":00 " ++ amPm.

(** [formatTime] at [undefined] or [NaN]: [NaN % 12 === 0] and [NaN < 12]
    are both false. *)
Definition formatTime_NaN : jsstring := js "NaN:00 PM".

(** A number read from an array, where [None] is [undefined] (and [NaN]
    once arithmetic has been done on it). *)
Definition formatTime_read (h : option Z) : jsstring :=
  match h with
  | Some h => formatTime h
  | None => formatTime_NaN
  end.

Definition plus_one (h : option Z) : option Z := (fun x => x + 1) <$> h.

(** [formatTimeRange(hours)] for an array [hours]; the guard [!hours] is for
    a missing argument, which the callers never leave out. *)
Definition formatTimeRange (hours : list Z) : jsstring :=
  if (length hours =? 0)%nat then []
  else if (length hours =? 1)%nat then
    formatTime_read (hours !! 0%nat) ++ js " to "
      ++ formatTime_read (plus_one (hours !! 0%nat))
  else
    let sortedHours := sort cmp_num hours in
    let startTime := formatTime_read (sortedHours !! 0%nat) in
    let endTime :=
      formatTime_read (plus_one (sortedHours !! (length sortedHours - 1)%nat)) in
    startTime ++ js " to " ++ endTime.

End Helpers.

(** ** [String.prototype.trim]

    [trim] strips the WhiteSpace and LineTerminator code units, the ones
    [\s] matches. *)

Fixpoint trimStart (s : jsstring) : jsstring :=
  match s with
  | [] => []
  | c :: s' => if Helpers.is_whitespace c then trimStart s' else s
  end.

Definition trimEnd (s : jsstring) : jsstring := rev (trimStart (rev s)).

Definition trim (s : jsstring) : jsstring := trimEnd (trimStart s).

(** * components/CustomerBooking.jsx *)

Module CustomerBooking.

(** [{ slot, hour, hours }] *)
Record slotSelection := SlotSelection {
  slot : jsstring;
  hour : Z;
  hours : list Z
}.

(** A ground of [getAvailableGrounds]. *)
Record ground := Ground {
  ground_id : Z;
  ground_name : jsstring;
  available : bool;
  price : Z
}.

(** The booking record of [verifyPayment]. *)
Record booking := Booking {
  booking_id : Z;
  booking_name : jsstring;
  groundName : jsstring;
  totalAmount : Z
}.

(** The [useState] cells; [None] is [null]. *)
Record state := State {
  currentStep : Z;
  selectedDate : option jsstring;
  selectedSlot : option slotSelection;
  selectedGround : option ground;
  bookingConfirmation : option booking
}.

Definition initial : state := State 1 None None None None.

Definition setCurrentStep (n : Z) (st : state) : state :=
  {| currentStep := n; selectedDate := selectedDate st;
     selectedSlot := selectedSlot st; selectedGround := selectedGround st;
     bookingConfirmation := bookingConfirmation st |}.

Definition setSelectedDate (d : option jsstring) (st : state) : state :=
  {| currentStep := currentStep st; selectedDate := d;
     selectedSlot := selectedSlot st; selectedGround := selectedGround st;
     bookingConfirmation := bookingConfirmation st |}.

Definition setSelectedSlot (s : option slotSelection) (st : state) : state :=
  {| currentStep := currentStep st; selectedDate := selectedDate st;
     selectedSlot := s; selectedGround := selectedGround st;
     bookingConfirmation := bookingConfirmation st |}.

Definition setSelectedGround (g : option ground) (st : state) : state :=
  {| currentStep := currentStep st; selectedDate := selectedDate st;
     selectedSlot := selectedSlot st; selectedGround := g;
     bookingConfirmation := bookingConfirmation st |}.

Definition setBookingConfirmation (b : option booking) (st : state) : state :=
  {| currentStep := currentStep st; selectedDate := selectedDate st;
     selectedSlot := selectedSlot st; selectedGround := selectedGround st;
     bookingConfirmation := b |}.

Definition handleDateSelect (date : jsstring) (st : state) : state :=
  setCurrentStep 2 (setSelectedDate (Some date) st).

(** [hours] is [None] when the caller leaves the argument out; an array is
    truthy, so [hours || [hour]] keeps it. *)
Definition handleSlotSelect (slot0 : jsstring) (hour0 : Z)
    (hours0 : option (list Z)) (st : state) : state :=
  let hours1 := match hours0 with Some h => h | None => [hour0] end in
  setCurrentStep 3 (setSelectedSlot (Some (SlotSelection slot0 hour0 hours1)) st).

Definition handleGroundSelect (g : ground) (st : state) : state :=
  setCurrentStep 4 (setSelectedGround (Some g) st).

(** [confirmation] is [None] for [undefined] or [null]. *)
Definition handleBookingComplete (confirmation : option booking) (st : state) : state :=
  setBookingConfirmation confirmation st.

Definition handleStartOver (st : state) : state :=
  setBookingConfirmation None
    (setSelectedGround None
       (setSelectedSlot None (setSelectedDate None (setCurrentStep 1 st)))).

(** The [onBack] props: [() => setCurrentStep(1)] for TimeSlotSelection,
    [() => setCurrentStep(2)] for GroundSelection and
    [() => setCurrentStep(3)] for BookingForm. *)
Definition onBack_TimeSlotSelection : state -> state := setCurrentStep 1.
Definition onBack_GroundSelection : state -> state := setCurrentStep 2.
Definition onBack_BookingForm : state -> state := setCurrentStep 3.

(** What the component renders below the progress bar. *)
Inductive view :=
| DateSelectionView
| TimeSlotSelectionView
| GroundSelectionView
| BookingFormView
| ConfirmationView.

Definition when (b : bool) (v : view) : list view := if b then [v] else [].

Definition render (st : state) : list view :=
  when (currentStep st =? 1) DateSelectionView
  ++ when (currentStep st =? 2) TimeSlotSelectionView
  ++ when (currentStep st =? 3) GroundSelectionView
  ++ when ((currentStep st =? 4) && negb (bool_decide (is_Some (bookingConfirmation st))))
       BookingFormView
  ++ when (bool_decide (is_Some (bookingConfirmation st))) ConfirmationView.

(** The wiring of TimeSlotSelection's props:
    [onSlotSelect={handleSlotSelect}] and [onBack={() => setCurrentStep(1)}]. *)
Definition on_slot_call (c : TimeSlotSelection.call) (st : state) : state :=
  match c with
  | TimeSlotSelection.OnSlotSelect s h hs => handleSlotSelect s h (Some hs) st
  | TimeSlotSelection.OnBack => onBack_TimeSlotSelection st
  end.

(** What the user does on the rendered child component. *)
Inductive action :=
| ChooseDate (date : jsstring)
| ConfirmSlots (sel : TimeSlotSelection.state)
| ChooseGround (g : ground)
| Back
| BookAnother.

(** One user action on the wizard; an action that no rendered component
    offers leaves the state as it is. *)
Definition act (a : action) (st : state) : state :=
  match a with
  | ChooseDate date =>
      if currentStep st =? 1 then handleDateSelect date st else st
  | ConfirmSlots sel =>
      if currentStep st =? 2 then
        match TimeSlotSelection.handleConfirmSelection sel with
        | TimeSlotSelection.Returns _ calls =>
            fold_left (fun w c => on_slot_call c w) calls st
        | TimeSlotSelection.ThrowsTypeError => st
        end
      else st
  | ChooseGround g =>
      if currentStep st =? 3 then handleGroundSelect g st else st
  | Back =>
      if currentStep st =? 2 then onBack_TimeSlotSelection st
      else if currentStep st =? 3 then onBack_GroundSelection st
      else if (currentStep st =? 4) && negb (bool_decide (is_Some (bookingConfirmation st)))
      then onBack_BookingForm st
      else st
  | BookAnother =>
      if bool_decide (is_Some (bookingConfirmation st)) then handleStartOver st else st
  end.

Definition run (actions : list action) (st : state) : state :=
  fold_left (fun w a => act a w) actions st.

End CustomerBooking.

(** * components/BookingForm.jsx *)

Module BookingForm.

(** A JSON value as far as a condition looks at it. *)
Inductive jsval :=
| JUndefined
| JNull
| JBool (b : bool)
| JNumber (n : Z)
| JString (s : jsstring)
| JObject.

(** ToBoolean. *)
Definition truthy (v : jsval) : bool :=
  match v with
  | JUndefined | JNull => false
  | JBool b => b
  | JNumber n => negb (n =? 0)
  | JString s => negb (bool_decide (s = []))
  | JObject => true
  end.

Inductive paymentStepT := Form | Processing | Verifying.

Record formDataT := FormData {
  name : jsstring;
  phone : jsstring;
  email : jsstring
}.

(** The [useState] cells of the component. *)
Record state := State {
  formData : formDataT;
  loading : bool;
  error : option jsstring;
  validationErrors : list (jsstring * option jsstring);
  paymentStep : paymentStepT;
  backendTotalAmount : option Z
}.

Definition setLoading (b : bool) (st : state) : state :=
  {| formData := formData st; loading := b; error := error st;
     validationErrors := validationErrors st; paymentStep := paymentStep st;
     backendTotalAmount := backendTotalAmount st |}.

Definition setError (e : option jsstring) (st : state) : state :=
  {| formData := formData st; loading := loading st; error := e;
     validationErrors := validationErrors st; paymentStep := paymentStep st;
     backendTotalAmount := backendTotalAmount st |}.

Definition setPaymentStep (p : paymentStepT) (st : state) : state :=
  {| formData := formData st; loading := loading st; error := error st;
     validationErrors := validationErrors st; paymentStep := p;
     backendTotalAmount := backendTotalAmount st |}.

(** The success payload of the payment widget. *)
Record razorpayResponse := RazorpayResponse {
  razorpay_order_id : jsstring;
  razorpay_payment_id : jsstring;
  razorpay_signature : jsstring
}.

Record verificationDataT := VerificationData {
  v_order_id : jsstring;
  v_payment_id : jsstring;
  v_signature : jsstring;
  bookingId : Z
}.

(** What [verifyPayment] resolves to. *)
Record verifyResultT := VerifyResult {
  success : jsval;
  booking : option CustomerBooking.booking
}.

(** A thrown value; [message] is [None] when it has none. *)
Record jserror := JsError { message : option jsstring }.

(** The result of [await]. *)
Inductive awaited (A : Type) :=
| Resolved (a : A)
| Rejected (e : jserror).
Arguments Resolved {A} a.
Arguments Rejected {A} e.

(** What the handler does to the outside. *)
Inductive effect :=
| VerifyPayment (d : verificationDataT)
| OnBookingComplete (confirmation : option CustomerBooking.booking)
| ConsoleError.

Definition contact_support : jsstring :=
  js "Payment verification failed. Please contact support.".

(** [a || b] on an optional string and a string. *)
Definition or_else (a : option jsstring) (b : jsstring) : jsstring :=
  match a with
  | Some (c :: s) => c :: s
  | Some [] | None => b
  end.

(** The [handler] option of [initializePayment(orderData)]: the callback of
    the payment widget on a successful payment.  [verified] is what the
    awaited [verifyPayment(verificationData)] settles to. *)
Definition handler (orderBookingId : Z) (response : razorpayResponse)
    (verified : awaited verifyResultT) (st : state) : state * list effect :=
  let st := setPaymentStep Verifying st in
  let verificationData :=
    VerificationData (razorpay_order_id response) (razorpay_payment_id response)
      (razorpay_signature response) orderBookingId in
  match verified with
  | Resolved verifyResult =>
      if truthy (success verifyResult) then
        (st, [VerifyPayment verificationData;
              OnBookingComplete (booking verifyResult)])
      else
        (setPaymentStep Form (setLoading false (setError (Some contact_support) st)),
         [VerifyPayment verificationData])
  | Rejected err =>
      (setPaymentStep Form
         (setLoading false (setError (Some (or_else (message err) contact_support)) st)),
       [VerifyPayment verificationData; ConsoleError])
  end.

(** The wiring of the [onBookingComplete] prop in CustomerBooking:
    [onBookingComplete={handleBookingComplete}]. *)
Definition on_effect (e : effect) (w : CustomerBooking.state) : CustomerBooking.state :=
  match e with
  | OnBookingComplete c => CustomerBooking.handleBookingComplete c w
  | VerifyPayment _ | ConsoleError => w
  end.

(** The wizard and the form after the widget reported a successful payment. *)
Definition payment_succeeded (orderBookingId : Z) (response : razorpayResponse)
    (verified : awaited verifyResultT)
    (w : CustomerBooking.state) (st : state) : CustomerBooking.state * state :=
  let '(st', effects) := handler orderBookingId response verified st in
  (fold_left (fun w e => on_effect e w) effects w, st').

(** *** Input, validation, submission and the other callbacks of the widget *)

(** The [name] attributes of the three inputs. *)
Inductive field := FName | FPhone | FEmail.

Definition field_name (f : field) : jsstring :=
  match f with
  | FName => js "name"
  | FPhone => js "phone"
  | FEmail => js "email"
  end.

Definition get_field (f : field) (d : formDataT) : jsstring :=
  match f with
  | FName => name d
  | FPhone => phone d
  | FEmail => email d
  end.

(** [{ ...prev, [name]: value }] *)
Definition set_field (f : field) (value : jsstring) (d : formDataT) : formDataT :=
  match f with
  | FName => {| name := value; phone := phone d; email := email d |}
  | FPhone => {| name := name d; phone := value; email := email d |}
  | FEmail => {| name := name d; phone := phone d; email := value |}
  end.

Definition setFormData (d : formDataT) (st : state) : state :=
  {| formData := d; loading := loading st; error := error st;
     validationErrors := validationErrors st; paymentStep := paymentStep st;
     backendTotalAmount := backendTotalAmount st |}.

Definition setValidationErrors (e : list (jsstring * option jsstring))
    (st : state) : state :=
  {| formData := formData st; loading := loading st; error := error st;
     validationErrors := e; paymentStep := paymentStep st;
     backendTotalAmount := backendTotalAmount st |}.

Definition setBackendTotalAmount (a : option Z) (st : state) : state :=
  {| formData := formData st; loading := loading st; error := error st;
     validationErrors := validationErrors st; paymentStep := paymentStep st;
     backendTotalAmount := a |}.

(** An object of messages is the list of its properties in insertion order;
    a value [None] is [null].  [o[key]], where the result [None] is
    [undefined]: *)
Fixpoint prop_get (key : jsstring) (o : list (jsstring * option jsstring))
    : option (option jsstring) :=
  match o with
  | [] => None
  | (k, v) :: o' => if bool_decide (k = key) then Some v else prop_get key o'
  end.

(** [{ ...o, [key]: v }], which is also what [o[key] = v] leaves. *)
Fixpoint prop_set (key : jsstring) (v : option jsstring)
    (o : list (jsstring * option jsstring)) : list (jsstring * option jsstring) :=
  match o with
  | [] => [(key, v)]
  | (k, v') :: o' =>
      if bool_decide (k = key) then (k, v) :: o' else (k, v') :: prop_set key v o'
  end.

(** ToBoolean of [o[key]]. *)
Definition truthy_prop (p : option (option jsstring)) : bool :=
  match p with
  | Some (Some (_ :: _)) => true
  | _ => false
  end.

(** [!s] for a string. *)
Definition is_empty_string (s : jsstring) : bool :=
  match s with [] => true | _ :: _ => false end.

(** [handleInputChange(e)] for the input named [f] holding [value]. *)
Definition handleInputChange (f : field) (value : jsstring) (st : state) : state :=
  let st' := setFormData (set_field f value (formData st)) st in
  if truthy_prop (prop_get (field_name f) (validationErrors st)) then
    setValidationErrors (prop_set (field_name f) None (validationErrors st')) st'
  else st'.

(** [validateForm()] *)
Definition validateForm (st : state) : state * bool :=
  let errors := [] in
  let errors :=
    if is_empty_string (trim (name (formData st))) then
      prop_set (js "name") (Some (js "Name is required")) errors
    else if (length (trim (name (formData st))) <? 2)%nat then
      prop_set (js "name") (Some (js "Name must be at least 2 characters")) errors
    else errors in
  let errors :=
    if is_empty_string (trim (phone (formData st))) then
      prop_set (js "phone") (Some (js "Phone number is required")) errors
    else if negb (Helpers.isValidPhone (trim (phone (formData st)))) then
      prop_set (js "phone") (Some (js "Phone number must be 10 digits")) errors
    else errors in
  let errors :=
    if is_empty_string (trim (email (formData st))) then
      prop_set (js "email") (Some (js "Email is required")) errors
    else if negb (Helpers.isValidEmail (trim (email (formData st)))) then
      prop_set (js "email") (Some (js "Please enter a valid email address")) errors
    else errors in
  (setValidationErrors errors st, (length errors =? 0)%nat).

(** The props the wizard passes down. *)
Record props := Props {
  selectedDate : jsstring;
  selectedSlot : CustomerBooking.slotSelection;
  selectedGround : CustomerBooking.ground
}.

(** The body of [createPaymentOrder]; [selectedSlot.hours] is an array, so
    [selectedSlot.hours || [selectedSlot.hour]] is that array. *)
Record bookingDataT := BookingData {
  b_name : jsstring;
  b_phone : jsstring;
  b_email : jsstring;
  groundId : Z;
  date : jsstring;
  startHour : Z;
  startHours : list Z
}.

(** What [createPaymentOrder] resolves to, as far as the form reads it:
    [success], [order] (absent when [None]) and [booking] with its [id] and
    [totalAmount]. *)
Record orderT := Order { amount : Z; currency : jsstring; order_id : jsstring }.

Record orderBookingT := OrderBooking { ob_id : Z; ob_totalAmount : option Z }.

Record orderDataT := OrderData {
  o_success : jsval;
  o_order : option orderT;
  o_booking : option orderBookingT
}.

(** The [error] of a failed payment of the widget. *)
Record razorpayError := RazorpayError {
  description : option jsstring;
  reason : option jsstring
}.

(** What the form asks of the API, the widget, the console ([Console] is a
    [console.error] or [console.log]) and its parent. *)
Inductive request :=
| CreatePaymentOrder (d : bookingDataT)
| OpenCheckout (order : orderT) (bookingId : Z)
| HandlePaymentFailure (bookingId : Z) (err : razorpayError)
| CancelBooking (bookingId : Z)
| Console
| FromHandler (e : effect).

(** The [details] and [error] properties of a parsed error body, when they
    are strings. *)
Record errorDataT := ErrorData {
  details : option jsstring;
  error_text : option jsstring
}.

Section Submit.

(** [JSON.parse] on the message of an exception, as far as the [catch] of
    [handleSubmit] reads the result: [None] when parsing, or reading a
    property of the result, throws.  The TypeError an engine throws for a
    property read on [undefined] has a message of the engine's own. *)
Variable JSON_parse : jsstring -> option errorDataT.
Variable engine_type_error : jserror.

(** The [catch] of [handleSubmit]. *)
Definition submit_error_message (err : jserror) : jsstring :=
  match message err with
  | Some (c :: m) =>
      match JSON_parse (c :: m) with
      | Some errorData =>
          or_else (details errorData) (or_else (error_text errorData) (c :: m))
      | None => c :: m
      end
  | Some [] | None => js "Failed to initiate payment. Please try again."
  end.

Definition submit_failed (err : jserror) (st : state) : state :=
  setPaymentStep Form
    (setLoading false (setError (Some (submit_error_message err)) st)).

(** [handleSubmit(e)]; [order] is what the awaited [createPaymentOrder]
    settles to.  [initializePayment] throws a TypeError when it reads a
    property of a missing [order] or [booking]; the script of the widget is
    taken to be loaded. *)
Definition handleSubmit (p : props) (order : awaited orderDataT)
    (st : state) : state * list request :=
  let '(st1, valid) := validateForm st in
  if negb valid then (st1, [])
  else
    let st2 := setPaymentStep Processing (setError None (setLoading true st1)) in
    let bookingData :=
      BookingData (trim (name (formData st))) (trim (phone (formData st)))
        (trim (email (formData st)))
        (CustomerBooking.ground_id (selectedGround p)) (selectedDate p)
        (CustomerBooking.hour (selectedSlot p))
        (CustomerBooking.hours (selectedSlot p)) in
    match order with
    | Rejected err =>
        (submit_failed err st2, [CreatePaymentOrder bookingData; Console])
    | Resolved orderData =>
        if negb (truthy (o_success orderData)) then
          (submit_failed (JsError (Some (js "Failed to create payment order"))) st2,
           [CreatePaymentOrder bookingData; Console])
        else
          let '(st3, logged) :=
            match o_booking orderData with
            | Some b =>
                match ob_totalAmount b with
                | Some total => (setBackendTotalAmount (Some total) st2, [Console])
                | None => (st2, [])
                end
            | None => (st2, [])
            end in
          match o_order orderData, o_booking orderData with
          | Some o, Some b =>
              (st3, [CreatePaymentOrder bookingData] ++ logged
                    ++ [OpenCheckout o (ob_id b)])
          | _, _ =>
              (submit_failed engine_type_error st3,
               [CreatePaymentOrder bookingData] ++ logged ++ [Console])
          end
    end.

End Submit.

(** [modal.ondismiss()]: the two acknowledgements are what the awaited
    [handlePaymentFailure] and [cancelBooking] settle to. *)
Definition ondismiss (orderBookingId : Z)
    (failureAck cancelAck : awaited unit) (st : state) : state * list request :=
  let st1 := setLoading false (setPaymentStep Form st) in
  let record :=
    HandlePaymentFailure orderBookingId
      (RazorpayError (Some (js "Payment cancelled by user")) None) in
  match failureAck with
  | Rejected _ => (st1, [record; Console])
  | Resolved _ =>
      match cancelAck with
      | Rejected _ => (st1, [record; CancelBooking orderBookingId; Console])
      | Resolved _ =>
          (setError
             (Some (js "Payment was cancelled. The slot is still available for booking."))
             st1,
           [record; CancelBooking orderBookingId])
      end
  end.

(** The listener of [payment.failed]. *)
Definition payment_failed (orderBookingId : Z) (err : razorpayError)
    (failureAck : awaited unit) (st : state) : state * list request :=
  let st1 := setLoading false (setPaymentStep Form st) in
  let failureReason :=
    or_else (description err) (or_else (reason err) (js "Payment failed")) in
  let st2 := setError (Some (js "Payment failed: " ++ failureReason)) st1 in
  (st2,
   HandlePaymentFailure orderBookingId err
   :: match failureAck with
      | Rejected _ => [Console]
      | Resolved _ => []
      end).

End BookingForm.

(** * components/DateSelection.jsx and components/GroundSelection.jsx *)

Module DateSelection.

(** An element of the arrays of [getAvailableDates]. *)
Record dateObj := DateObj { date : jsstring; enabled : bool }.

Inductive call := OnDateSelect (date : jsstring).

(** [handleDateClick(dateObj)] *)
Definition handleDateClick (d : dateObj) : list call :=
  if enabled d then [OnDateSelect (date d)] else [].

End DateSelection.

Module GroundSelection.

Inductive call :=
| OnGroundSelect (g : CustomerBooking.ground)
| OnBack.

(** [handleGroundClick(ground)] *)
Definition handleGroundClick (g : CustomerBooking.ground) : list call :=
  if CustomerBooking.available g then [OnGroundSelect g] else [].

End GroundSelection.

(** * The booking flow: the wizard with its pages *)

Module BookingFlow.

(** What happens on the pages of the wizard: a click on a date card; a
    click on a control of the slot page, which is in some state [sel]; a
    click on a ground card or on the back button of the ground page; the
    back button of the form; the button of the confirmation.

    [PaymentSucceeded] is the [handler] of the payment widget running to its
    end: it awaits [verifyPayment] and then calls [onBookingComplete], and
    neither it nor [handleBookingComplete] looks at the step or at what is
    rendered. The form may be gone by then: after [payment.failed] the form
    is idle again and its back button works while the widget retries. So
    this event is applied in whatever state the wizard is in. *)
Inductive event :=
| ClickDate (d : DateSelection.dateObj)
| SlotPage (sel : TimeSlotSelection.state) (e : TimeSlotSelection.event)
| ClickGround (g : CustomerBooking.ground)
| GroundBack
| FormBack
| PaymentSucceeded (orderBookingId : Z) (response : BookingForm.razorpayResponse)
    (verified : BookingForm.awaited BookingForm.verifyResultT)
    (form : BookingForm.state)
| BookAnother.

(** The wiring of the props of DateSelection and GroundSelection:
    [onDateSelect={handleDateSelect}], [onGroundSelect={handleGroundSelect}]
    and [onBack={() => setCurrentStep(2)}]. *)
Definition on_date_call (c : DateSelection.call) (w : CustomerBooking.state)
    : CustomerBooking.state :=
  match c with
  | DateSelection.OnDateSelect d => CustomerBooking.handleDateSelect d w
  end.

Definition on_ground_call (c : GroundSelection.call) (w : CustomerBooking.state)
    : CustomerBooking.state :=
  match c with
  | GroundSelection.OnGroundSelect g => CustomerBooking.handleGroundSelect g w
  | GroundSelection.OnBack => CustomerBooking.onBack_GroundSelection w
  end.

(** The conditions under which the wizard renders each page. *)
Definition shows_form (w : CustomerBooking.state) : bool :=
  (CustomerBooking.currentStep w =? 4)
  && negb (bool_decide (is_Some (CustomerBooking.bookingConfirmation w))).

Definition shows_confirmation (w : CustomerBooking.state) : bool :=
  bool_decide (is_Some (CustomerBooking.bookingConfirmation w)).

(** One event. A click on a page that is not rendered changes nothing; the
    callback of the payment widget is not a click and has no such
    condition. *)
Definition step (e : event) (w : CustomerBooking.state) : CustomerBooking.state :=
  match e with
  | ClickDate d =>
      if CustomerBooking.currentStep w =? 1 then
        fold_left (fun w c => on_date_call c w) (DateSelection.handleDateClick d) w
      else w
  | SlotPage sel e =>
      if CustomerBooking.currentStep w =? 2 then
        match TimeSlotSelection.handle e sel with
        | TimeSlotSelection.Returns _ calls =>
            fold_left (fun w c => CustomerBooking.on_slot_call c w) calls w
        | TimeSlotSelection.ThrowsTypeError => w
        end
      else w
  | ClickGround g =>
      if CustomerBooking.currentStep w =? 3 then
        fold_left (fun w c => on_ground_call c w) (GroundSelection.handleGroundClick g) w
      else w
  | GroundBack =>
      if CustomerBooking.currentStep w =? 3 then
        on_ground_call GroundSelection.OnBack w
      else w
  | FormBack =>
      if shows_form w then CustomerBooking.onBack_BookingForm w else w
  | PaymentSucceeded orderBookingId response verified form =>
      (BookingForm.payment_succeeded orderBookingId response verified w form).1
  | BookAnother =>
      if shows_confirmation w then CustomerBooking.handleStartOver w else w
  end.

Definition run (events : list event) (w : CustomerBooking.state)
    : CustomerBooking.state :=
  fold_left (fun w e => step e w) events w.

End BookingFlow.

(** * utils/adminApi.js and components/ProtectedRoute.jsx *)

Module AdminApi.

(** [localStorage]: string keys to string values. *)
Definition storage := gmap jsstring jsstring.

Definition adminToken : jsstring := js "adminToken".

(** [getAdminToken()]; [None] is [null]. *)
Definition getAdminToken (s : storage) : option jsstring := s !! adminToken.

Definition setAdminToken (token : jsstring) (s : storage) : storage :=
  <[adminToken := token]> s.

Definition removeAdminToken (s : storage) : storage := delete adminToken s.

(** A value of the body that [response.json()] gives: [Undefined] for a
    property that is absent; a number is an integer here; an object or an
    array carries the string that [String(v)] makes of it, which is empty
    for the empty array. *)
Inductive value :=
| Undefined
| Null
| Boolean (b : bool)
| Number (n : Z)
| Str (s : jsstring)
| Object (text : jsstring).

(** ToBoolean *)
Definition truthy_value (v : value) : bool :=
  match v with
  | Undefined | Null => false
  | Boolean b => b
  | Number n => negb (n =? 0)
  | Str s => negb (bool_decide (s = []))
  | Object _ => true
  end.

(** [String(v)], which is what [localStorage.setItem] stores of a value and
    what [new Error(v)] has as message. *)
Definition to_string (v : value) : jsstring :=
  match v with
  | Undefined => js "undefined"
  | Null => js "null"
  | Boolean true => js "true"
  | Boolean false => js "false"
  | Number n => Helpers.number_to_string n
  | Str s => s
  | Object text => text
  end.

(** The body of the login response when it is an object: [message],
    [success], and [data] with its [token]; [login_data] is [None] when
    [data.data] is [undefined] or [null], and [Some Undefined] when it has no
    token. *)
Record loginData := LoginData {
  login_message : value;
  login_success : value;
  login_data : option value
}.

(** What [fetch] and [response.json()] give: the [ok] flag and the body
    ([None] for the body [null]), or a rejection. *)
Inductive loginResponse :=
| Responded (ok : bool) (body : option loginData)
| NetworkError (e : BookingForm.jserror).

Inductive loginResult :=
| LoginReturns (body : option loginData)
| LoginThrows (message : jsstring)
| LoginThrowsTypeError
| LoginRejects (e : BookingForm.jserror).

(** ToBoolean of a token read from the storage. *)
Definition truthy_token (t : option jsstring) : bool :=
  match t with
  | Some (_ :: _) => true
  | _ => false
  end.

(** [adminLogin(username, password)], given what the request comes back
    with. *)
Definition adminLogin (r : loginResponse) (s : storage) : storage * loginResult :=
  match r with
  | NetworkError e => (s, LoginRejects e)
  | Responded ok None => (s, LoginThrowsTypeError)
  | Responded ok (Some data) =>
      if negb ok then
        (s, LoginThrows
              (if truthy_value (login_message data) then to_string (login_message data)
               else js "Login failed"))
      else if truthy_value (login_success data) then
        match login_data data with
        | None => (s, LoginThrowsTypeError)
        | Some token =>
            if truthy_value token then
              (setAdminToken (to_string token) s, LoginReturns (Some data))
            else (s, LoginReturns (Some data))
        end
      else (s, LoginReturns (Some data))
  end.

(** [adminLogout()] *)
Definition adminLogout (s : storage) : storage := removeAdminToken s.

(** [isAdminLoggedIn()] *)
Definition isAdminLoggedIn (s : storage) : bool := truthy_token (getAdminToken s).

(** The [Authorization] header of [getAuthHeaders()]: a template literal
    prints [null] for a missing token. *)
Definition authorization (s : storage) : jsstring :=
  js "Bearer " ++ match getAdminToken s with Some t => t | None => js "null" end.

(** [ProtectedRoute]: the children, or a redirect to the login page. *)
Inductive routed := Children | NavigateTo (path : jsstring).

Definition ProtectedRoute (s : storage) : routed :=
  if negb (isAdminLoggedIn s) then NavigateTo (js "/admin/login") else Children.

End AdminApi.

(** * components/AdminDashboard.jsx: editing the pricing of a ground *)

Module AdminDashboard.

(** The four keys of a pricing object. *)
Inductive priceKey :=
| Weekday_first_half
| Weekday_second_half
| Weekend_first_half
| Weekend_second_half.

(** A pricing object; a key that is absent holds [JUndefined]. *)
Record pricingT := Pricing {
  weekday_first : BookingForm.jsval;
  weekday_second : BookingForm.jsval;
  weekend_first : BookingForm.jsval;
  weekend_second : BookingForm.jsval
}.

Definition get_price (k : priceKey) (p : pricingT) : BookingForm.jsval :=
  match k with
  | Weekday_first_half => weekday_first p
  | Weekday_second_half => weekday_second p
  | Weekend_first_half => weekend_first p
  | Weekend_second_half => weekend_second p
  end.

(** [{ ...p, [key]: value }] *)
Definition set_price (k : priceKey) (value : BookingForm.jsval) (p : pricingT) : pricingT :=
  match k with
  | Weekday_first_half =>
      Pricing value (weekday_second p) (weekend_first p) (weekend_second p)
  | Weekday_second_half =>
      Pricing (weekday_first p) value (weekend_first p) (weekend_second p)
  | Weekend_first_half =>
      Pricing (weekday_first p) (weekday_second p) value (weekend_second p)
  | Weekend_second_half =>
      Pricing (weekday_first p) (weekday_second p) (weekend_first p) value
  end.

(** The object with no key, [{ ...undefined }]. *)
Definition no_pricing : pricingT :=
  Pricing BookingForm.JUndefined BookingForm.JUndefined
    BookingForm.JUndefined BookingForm.JUndefined.

(** [v ?? ''] *)
Definition or_empty (v : BookingForm.jsval) : BookingForm.jsval :=
  match v with
  | BookingForm.JUndefined | BookingForm.JNull => BookingForm.JString []
  | _ => v
  end.

(** A ground of [getGrounds]; [pricing] may be missing. *)
Record ground := Ground { id : Z; pricing : option pricingT }.

(** [ground.pricing?.key] *)
Definition ground_price (k : priceKey) (g : ground) : BookingForm.jsval :=
  match pricing g with
  | Some p => get_price k p
  | None => BookingForm.JUndefined
  end.

Inductive status := Saving | Success | Error.

(** The [useState] cells of the pricing table; objects keyed by ground id. *)
Record state := State {
  grounds : list ground;
  pricingEdit : gmap Z pricingT;
  pricingStatus : gmap Z status;
  editingRow : gmap Z bool
}.

Definition setPricingEdit (f : gmap Z pricingT -> gmap Z pricingT) (st : state) : state :=
  {| grounds := grounds st; pricingEdit := f (pricingEdit st);
     pricingStatus := pricingStatus st; editingRow := editingRow st |}.

Definition setEditingRow (f : gmap Z bool -> gmap Z bool) (st : state) : state :=
  {| grounds := grounds st; pricingEdit := pricingEdit st;
     pricingStatus := pricingStatus st; editingRow := f (editingRow st) |}.

(** [handlePricingChange(groundId, key, value)] *)
Definition handlePricingChange (groundId : Z) (k : priceKey)
    (value : BookingForm.jsval) (st : state) : state :=
  setPricingEdit
    (fun prev =>
       <[groundId := set_price k value
                       (match prev !! groundId with Some p => p | None => no_pricing end)]>
         prev) st.

(** [handleEditRow(ground)] *)
Definition handleEditRow (g : ground) (st : state) : state :=
  setPricingEdit
    (fun prev =>
       <[id g := Pricing (or_empty (ground_price Weekday_first_half g))
                   (or_empty (ground_price Weekday_second_half g))
                   (or_empty (ground_price Weekend_first_half g))
                   (or_empty (ground_price Weekend_second_half g))]> prev)
    (setEditingRow (fun prev => <[id g := true]> prev) st).

(** [handleCancelEdit(groundId)] *)
Definition handleCancelEdit (groundId : Z) (st : state) : state :=
  setPricingEdit (fun prev => delete groundId prev)
    (setEditingRow (fun prev => <[groundId := false]> prev) st).

(** [!!editingRow[ground.id]] *)
Definition isEditing (groundId : Z) (st : state) : bool :=
  match editingRow st !! groundId with
  | Some b => b
  | None => false
  end.

(** The value of an input of a row: [pricingEdit[ground.id]?.key ?? '']. *)
Definition input_value (groundId : Z) (k : priceKey) (st : state) : BookingForm.jsval :=
  or_empty
    match pricingEdit st !! groundId with
    | Some p => get_price k p
    | None => BookingForm.JUndefined
    end.

(** What is typed into the inputs of one row. *)
Definition type_all (groundId : Z) (typed : list (priceKey * BookingForm.jsval))
    (st : state) : state :=
  fold_left (fun st kv => handlePricingChange groundId kv.1 kv.2 st) typed st.

End AdminDashboard.

(** * Vocabulary of the properties *)

(** The hours of a selection, in the order they were chosen. *)
Definition chosenHours (st : TimeSlotSelection.state) : list Z :=
  List.map TimeSlotSelection.index (TimeSlotSelection.selectedSlots st).

(** [hs] is [l] sorted ascending. *)
Definition ascending_of (l hs : list Z) : Prop :=
  StronglySorted Z.le hs ∧ hs ≡ₚ l.

(** A run: step 1 between consecutive elements. *)
Definition is_run (hs : list Z) : Prop :=
  ∀ (i : nat) a b, hs !! i = Some a → hs !! S i = Some b → b = a + 1.

(** [m] is the least element of [l]. *)
Definition is_minimum (m : Z) (l : list Z) : Prop :=
  m ∈ l ∧ ∀ h, h ∈ l → m <= h.

(** [m] is the greatest element of [l]. *)
Definition is_maximum (m : Z) (l : list Z) : Prop :=
  m ∈ l ∧ ∀ h, h ∈ l → h <= m.

(** A selection of the given hours, chosen in that order, all with the same
    label. *)
Definition selection_of (hs : list Z) : TimeSlotSelection.state :=
  TimeSlotSelection.State []
    (List.map (TimeSlotSelection.Chosen (js "slot")) hs) false None.

(** The wizard walk date, slots, back from the ground step, back from the
    slot step. *)
Definition there_and_back (date : jsstring) (sel : TimeSlotSelection.state)
    : list CustomerBooking.action :=
  [CustomerBooking.ChooseDate date; CustomerBooking.ConfirmSlots sel;
   CustomerBooking.Back; CustomerBooking.Back].

(** The shape the specification gives for a valid e-mail address: one or
    more non-whitespace characters, [@], one or more non-whitespace
    characters, [.], one or more non-whitespace characters. *)
Definition spec_email_part (p : jsstring) : Prop :=
  p ≠ [] ∧ ∀ c, c ∈ p → Helpers.is_whitespace c = false.

Definition spec_email_shape (s : jsstring) : Prop :=
  ∃ l d t, s = l ++ [Helpers.code "@"] ++ d ++ [Helpers.code "."] ++ t
           ∧ spec_email_part l ∧ spec_email_part d ∧ spec_email_part t.

(** The parts the regular expression of the source asks for: neither
    whitespace nor [@]. *)
Definition email_part (p : jsstring) : Prop :=
  p ≠ [] ∧ ∀ c, c ∈ p → Helpers.is_whitespace c = false ∧ c ≠ Helpers.code "@".

Definition email_shape (s : jsstring) : Prop :=
  ∃ l d t, s = l ++ [Helpers.code "@"] ++ d ++ [Helpers.code "."] ++ t
           ∧ email_part l ∧ email_part d ∧ email_part t.

Definition is_verify (e : BookingForm.effect) : bool :=
  match e with BookingForm.VerifyPayment _ => true | _ => false end.

(** Sample inputs of the payment handler. *)
Definition sample_response : BookingForm.razorpayResponse :=
  BookingForm.RazorpayResponse (js "order_1") (js "pay_1") (js "sig_1").

Definition sample_form : BookingForm.state :=
  BookingForm.State
    (BookingForm.FormData (js "Asha") (js "9876543210") (js "a@b.co"))
    true None [] BookingForm.Processing (Some 1200).

Definition sample_booking : CustomerBooking.booking :=
  CustomerBooking.Booking 7 (js "Asha") (js "Ground A") 1200.

Definition sample_wizard : CustomerBooking.state :=
  CustomerBooking.State 4 (Some (js "2026-02-10"))
    (Some (CustomerBooking.SlotSelection (js "slot") 12 [12; 13]))
    (Some (CustomerBooking.Ground 1 (js "Ground A") true 1200)) None.

(** The selections the click handler builds: no hour twice, and every entry
    carries the label of its slot in the current list. *)
Definition well_formed (st : TimeSlotSelection.state) : Prop :=
  NoDup (chosenHours st)
  ∧ ∀ c, c ∈ TimeSlotSelection.selectedSlots st →
      ∃ (i : nat) slotObj,
        TimeSlotSelection.index c = Z.of_nat i
        ∧ TimeSlotSelection.slots st !! i = Some slotObj
        ∧ TimeSlotSelection.c_slot c = TimeSlotSelection.slot slotObj.

(** [start], [start + 1], ...: [n] hours in a row. *)
Fixpoint run_from (start : Z) (n : nat) : list Z :=
  match n with
  | O => []
  | S n' => start :: run_from (start + 1) n'
  end.

(** Every chosen entry is an enabled slot of the current list, under the
    label of that slot. *)
Definition all_enabled (st : TimeSlotSelection.state) : Prop :=
  ∀ c, c ∈ TimeSlotSelection.selectedSlots st →
    ∃ (i : nat) slotObj,
      TimeSlotSelection.index c = Z.of_nat i
      ∧ TimeSlotSelection.slots st !! i = Some slotObj
      ∧ TimeSlotSelection.enabled slotObj = true
      ∧ TimeSlotSelection.c_slot c = TimeSlotSelection.slot slotObj.

(** What holds of the slot page whatever is clicked: no hour is chosen
    twice, only enabled slots of the list are chosen, and the only error
    ever shown is the one of a failed fetch, with nothing chosen. *)
Definition page_invariant (st : TimeSlotSelection.state) : Prop :=
  NoDup (chosenHours st)
  ∧ all_enabled st
  ∧ (TimeSlotSelection.error st = None
     ∨ (TimeSlotSelection.error st = Some TimeSlotSelection.fetch_error
        ∧ TimeSlotSelection.selectedSlots st = [])).

(** A call on the props of the slot page that is either the back call or
    reports a start hour that is not negative and, as hours, that hour and
    the ones right after it. *)
Definition reports_run (c : TimeSlotSelection.call) : Prop :=
  match c with
  | TimeSlotSelection.OnBack => True
  | TimeSlotSelection.OnSlotSelect _ hour hours =>
      0 <= hour ∧ ∃ n, hours = run_from hour (S n)
  end.

(** The hours of a day, 0 to 23. *)
Definition day_hours : list Z := List.map Z.of_nat (seq 0 24).

(** No two of the given hours are displayed alike. *)
Definition displayed_apart (hs : list Z) : bool :=
  forallb (λ a, forallb (λ b,
    implb (bool_decide (Helpers.formatTime a = Helpers.formatTime b)) (a =? b)) hs) hs.

(** The number of [@] in a string. *)
Definition count_at (s : jsstring) : nat :=
  length (List.filter (N.eqb (Helpers.code "@")) s).

(** What the form asks of each field, after trimming. *)
Definition field_valid (f : BookingForm.field) (value : jsstring) : Prop :=
  match f with
  | BookingForm.FName => (2 ≤ length (trim value))%nat
  | BookingForm.FPhone =>
      length (trim value) = 10%nat
      ∧ ∀ c, c ∈ trim value → (Helpers.code "0" ≤ c ≤ Helpers.code "9")%N
  | BookingForm.FEmail => email_shape (trim value)
  end.

(** The message [validateForm] leaves under the key of a field. *)
Definition field_error (f : BookingForm.field) (st : BookingForm.state)
    : option (option jsstring) :=
  BookingForm.prop_get (BookingForm.field_name f)
    (BookingForm.validationErrors (BookingForm.validateForm st).1).

(** The message for a field that is empty after trimming. *)
Definition required_message (f : BookingForm.field) : jsstring :=
  match f with
  | BookingForm.FName => js "Name is required"
  | BookingForm.FPhone => js "Phone number is required"
  | BookingForm.FEmail => js "Email is required"
  end.

Definition is_create (r : BookingForm.request) : bool :=
  match r with BookingForm.CreatePaymentOrder _ => true | _ => false end.

Definition is_checkout (r : BookingForm.request) : bool :=
  match r with BookingForm.OpenCheckout _ _ => true | _ => false end.

Definition is_cancel (r : BookingForm.request) : bool :=
  match r with BookingForm.CancelBooking _ => true | _ => false end.

Definition is_from_handler (r : BookingForm.request) : bool :=
  match r with BookingForm.FromHandler _ => true | _ => false end.

Definition is_record_failure (r : BookingForm.request) : bool :=
  match r with BookingForm.HandlePaymentFailure _ _ => true | _ => false end.

(** The form is back on its form step, not loading. *)
Definition form_idle (st : BookingForm.state) : Prop :=
  BookingForm.paymentStep st = BookingForm.Form ∧ BookingForm.loading st = false.

(** The form shows an error. *)
Definition shows_error (st : BookingForm.state) : Prop :=
  ∃ c m, BookingForm.error st = Some (c :: m).

(** [o[key]] is truthy. *)
Definition truthy_prop_present (key : jsstring)
    (o : list (jsstring * option jsstring)) : Prop :=
  BookingForm.truthy_prop (BookingForm.prop_get key o) = true.



(** The payment widget reported a payment that [verifyPayment] confirmed
    with the booking [b]. *)
Definition verified_payment (b : CustomerBooking.booking) (e : BookingFlow.event) : Prop :=
  ∃ orderBookingId response r form,
    e = BookingFlow.PaymentSucceeded orderBookingId response (BookingForm.Resolved r) form
    ∧ BookingForm.truthy (BookingForm.success r) = true
    ∧ BookingForm.booking r = Some b.

(** A string of whitespace only. *)
Definition blank (s : jsstring) : Prop := ∀ c, c ∈ s → Helpers.is_whitespace c = true.

(** The form with whitespace put before and after the value of one field. *)
Definition padded (f : BookingForm.field) (before after : jsstring)
    (st : BookingForm.state) : BookingForm.state :=
  BookingForm.setFormData
    (BookingForm.set_field f
       (before ++ BookingForm.get_field f (BookingForm.formData st) ++ after)
       (BookingForm.formData st)) st.

(** * Properties *)

(** ** Sorting *)

Section SortFacts.
Context {A : Type} (cmp : A -> A -> Z).

Lemma sort_insert_perm x l : sort_insert cmp x l ≡ₚ x :: l.
Proof.
  induction l as [|y l IH]; simpl; [done|].
  destruct (cmp x y <=? 0); [done|].
  rewrite IH. apply Permutation_swap.
Qed.

Lemma sort_perm l : sort cmp l ≡ₚ l.
Proof.
  induction l as [|x l IH]; simpl; [done|].
  by rewrite sort_insert_perm, IH.
Qed.

Lemma sort_length l : length (sort cmp l) = length l.
Proof. by rewrite sort_perm. Qed.

(** Sorting by a numeric key commutes with reading the key. *)
Lemma sort_insert_key (key : A -> Z) x l :
  (∀ a b, cmp a b = cmp_num (key a) (key b)) →
  List.map key (sort_insert cmp x l)
  = sort_insert cmp_num (key x) (List.map key l).
Proof.
  intros Hcmp. induction l as [|y l IH]; simpl; [done|].
  rewrite Hcmp. destruct (cmp_num (key x) (key y) <=? 0); simpl; [done|].
  by rewrite IH.
Qed.

Lemma sort_key (key : A -> Z) l :
  (∀ a b, cmp a b = cmp_num (key a) (key b)) →
  List.map key (sort cmp l) = sort cmp_num (List.map key l).
Proof.
  intros Hcmp. induction l as [|x l IH]; simpl; [done|].
  by rewrite sort_insert_key, IH.
Qed.
End SortFacts.

Lemma sort_insert_sorted x l :
  StronglySorted Z.le l → StronglySorted Z.le (sort_insert cmp_num x l).
Proof.
  unfold cmp_num. induction 1 as [|y l Hl IH Hy]; simpl.
  - repeat constructor.
  - destruct (Z.leb_spec (x - y) 0).
    + constructor; [by constructor|].
      constructor; [lia|]. eapply Forall_impl; [exact Hy|]. simpl. lia.
    + constructor; [done|].
      rewrite sort_insert_perm. constructor; [lia|done].
Qed.

Lemma sort_sorted l : StronglySorted Z.le (sort cmp_num l).
Proof.
  induction l; simpl; [constructor|]. by apply sort_insert_sorted.
Qed.

(** The sorted array is the only ascending arrangement of the elements. *)
Lemma sort_unique l hs :
  StronglySorted Z.le hs → hs ≡ₚ l → hs = sort cmp_num l.
Proof.
  intros Hs Hp. apply (StronglySorted_unique Z.le); [done|apply sort_sorted|].
  by rewrite sort_perm.
Qed.

(** ** The contiguity check *)

Lemma consecutive_from_true indices i :
  (1 ≤ i)%nat →
  TimeSlotSelection.consecutive_from indices i = true ↔
  ∀ j, (i ≤ j < length indices)%nat →
       ∃ a, indices !! (j - 1)%nat = Some a ∧ indices !! j = Some (a + 1).
Proof.
  funelim (TimeSlotSelection.consecutive_from indices i); intros Hi.
  - unfold TimeSlotSelection.at_index.
    destruct (lookup_lt_is_Some_2 indices i) as [b Hb]; [done|].
    destruct (lookup_lt_is_Some_2 indices (i - 1)) as [a Ha]; [lia|].
    rewrite Hb, Ha. simpl.
    destruct (Z.eqb_spec b (a + 1)) as [->|Hne]; simpl.
    + rewrite H by lia. split.
      * intros Hrest j Hj. destruct (decide (j = i)) as [->|]; [eauto|].
        apply Hrest. lia.
      * intros Hall j Hj. apply Hall. lia.
    + split; [done|]. intros Hall.
      destruct (Hall i) as (a' & Ha' & Hb'); [lia|]. congruence.
  - split; [|done]. intros _ j Hj. lia.
Qed.

Lemma is_run_lookup hs :
  is_run hs ↔
  ∀ j, (1 ≤ j < length hs)%nat →
       ∃ a, hs !! (j - 1)%nat = Some a ∧ hs !! j = Some (a + 1).
Proof.
  unfold is_run. split.
  - intros Hrun j Hj.
    destruct (lookup_lt_is_Some_2 hs j) as [b Hb]; [lia|].
    destruct (lookup_lt_is_Some_2 hs (j - 1)) as [a Ha]; [lia|].
    exists a. split; [done|]. rewrite Hb. f_equal.
    apply (Hrun (j - 1)%nat); [done|]. by replace (S (j - 1)) with j by lia.
  - intros Hall i a b Ha Hb.
    destruct (Hall (S i)) as (a' & Ha' & Hb').
    { apply lookup_lt_Some in Hb. lia. }
    replace (S i - 1)%nat with i in Ha' by lia. congruence.
Qed.

Lemma is_run_short hs : (length hs ≤ 1)%nat → is_run hs.
Proof.
  intros Hlen i a b _ Hb. apply lookup_lt_Some in Hb. lia.
Qed.

Lemma chosenHours_length st :
  length (chosenHours st) = length (TimeSlotSelection.selectedSlots st).
Proof. unfold chosenHours. by rewrite length_map. Qed.

(** C1: for every selection, [areSlotConsecutive] returns true exactly when
    the selection is empty, has one element, or its hours sorted ascending
    form a run with step 1 between consecutive elements. *)
Theorem areSlotConsecutive_iff_run (st : TimeSlotSelection.state) :
  TimeSlotSelection.areSlotConsecutive st = true ↔
  TimeSlotSelection.selectedSlots st = []
  ∨ (∃ c, TimeSlotSelection.selectedSlots st = [c])
  ∨ (∃ hs, ascending_of (chosenHours st) hs ∧ is_run hs).
Proof.
  unfold TimeSlotSelection.areSlotConsecutive.
  destruct (Nat.leb_spec (length (TimeSlotSelection.selectedSlots st)) 1) as [Hle|Hgt].
  - split; [|done]. intros _.
    destruct (TimeSlotSelection.selectedSlots st) as [|c [|c' l]]; simpl in Hle;
      [by left|right; left; eauto|lia].
  - cbv zeta. rewrite consecutive_from_true by done. rewrite <- is_run_lookup.
    fold (chosenHours st). split.
    + intros Hrun. right; right. exists (sort cmp_num (chosenHours st)).
      split; [|done]. split; [apply sort_sorted|apply sort_perm].
    + intros [Hnil|[[c Hc]|(hs & [Hs Hp] & Hrun)]].
      * rewrite Hnil in Hgt. simpl in Hgt. lia.
      * rewrite Hc in Hgt. simpl in Hgt. lia.
      * by rewrite <- (sort_unique _ _ Hs Hp).
Qed.

(** The examples of the specification: {5,6,7}, {5,7} and {5}. *)
Example areSlotConsecutive_examples :
  TimeSlotSelection.areSlotConsecutive (selection_of [6; 5; 7]) = true
  ∧ TimeSlotSelection.areSlotConsecutive (selection_of [5; 7]) = false
  ∧ TimeSlotSelection.areSlotConsecutive (selection_of [5]) = true
  ∧ TimeSlotSelection.areSlotConsecutive (selection_of []) = true.
Proof. by vm_compute. Qed.

(** ** Ends of a sorted array *)

Lemma sorted_head_minimum x hs l :
  StronglySorted Z.le (x :: hs) → x :: hs ≡ₚ l → is_minimum x l.
Proof.
  intros Hs Hp. apply StronglySorted_inv in Hs as [_ Hx]. split.
  - rewrite <- Hp. left.
  - intros h Hh. rewrite <- Hp in Hh.
    apply elem_of_cons in Hh as [->|Hh]; [lia|].
    by apply (proj1 (Forall_forall _ _) Hx).
Qed.

Lemma sorted_last_maximum x hs l :
  StronglySorted Z.le (hs ++ [x]) → hs ++ [x] ≡ₚ l → is_maximum x l.
Proof.
  intros Hs Hp. split.
  - rewrite <- Hp. set_solver.
  - intros h Hh. rewrite <- Hp in Hh.
    apply elem_of_app in Hh as [Hh|Hh].
    + apply (StronglySorted_app_1_elem_of Z.le hs [x]); [done..|set_solver].
    + apply list_elem_of_singleton in Hh as ->. lia.
Qed.

Lemma minimum_unique m m' l : is_minimum m l → is_minimum m' l → m = m'.
Proof. intros [Hm Hle] [Hm' Hle']. specialize (Hle _ Hm'). specialize (Hle' _ Hm). lia. Qed.

Lemma maximum_unique m m' l : is_maximum m l → is_maximum m' l → m = m'.
Proof. intros [Hm Hle] [Hm' Hle']. specialize (Hle _ Hm'). specialize (Hle' _ Hm). lia. Qed.

(** ** Confirming a selection *)

Lemma sort_by_index_hours st :
  List.map TimeSlotSelection.index
    (sort (λ a b, TimeSlotSelection.index a - TimeSlotSelection.index b)
       (TimeSlotSelection.selectedSlots st))
  = sort cmp_num (chosenHours st).
Proof. by apply sort_key. Qed.

(** What confirming a valid selection does, in terms of the sorted array. *)
Lemma confirm_valid_selection (st : TimeSlotSelection.state) :
  TimeSlotSelection.selectedSlots st ≠ [] →
  TimeSlotSelection.areSlotConsecutive st = true →
  ∃ first rest,
    sort (λ a b, TimeSlotSelection.index a - TimeSlotSelection.index b)
      (TimeSlotSelection.selectedSlots st) = first :: rest
    ∧ TimeSlotSelection.handleConfirmSelection st
      = TimeSlotSelection.Returns st
          [TimeSlotSelection.OnSlotSelect (TimeSlotSelection.c_slot first)
             (TimeSlotSelection.index first) (sort cmp_num (chosenHours st))].
Proof.
  intros Hne Hcons.
  destruct (sort (λ a b, TimeSlotSelection.index a - TimeSlotSelection.index b)
              (TimeSlotSelection.selectedSlots st)) as [|first rest] eqn:Hsort.
  { apply (f_equal length) in Hsort. rewrite sort_length in Hsort.
    destruct (TimeSlotSelection.selectedSlots st); [done|discriminate]. }
  exists first, rest. split; [done|].
  pose proof (sort_by_index_hours st) as Hhours. rewrite Hsort in Hhours.
  unfold TimeSlotSelection.handleConfirmSelection.
  assert (length (TimeSlotSelection.selectedSlots st) ≠ 0%nat) as Hlen.
  { by destruct (TimeSlotSelection.selectedSlots st). }
  apply Nat.eqb_neq in Hlen. rewrite Hlen, Hcons. cbn [negb]. cbv zeta.
  rewrite Hsort, <- Hhours. done.
Qed.

(** C2: confirming a non-empty contiguous selection leaves the selection as
    it is and calls [onSlotSelect] once, with the least chosen hour as start
    hour and the chosen hours sorted ascending; the wizard stores exactly that
    and moves to the ground step. *)
Theorem handleConfirmSelection_success (st : TimeSlotSelection.state) :
  TimeSlotSelection.selectedSlots st ≠ [] →
  TimeSlotSelection.areSlotConsecutive st = true →
  ∃ first hs,
    TimeSlotSelection.handleConfirmSelection st
    = TimeSlotSelection.Returns st
        [TimeSlotSelection.OnSlotSelect (TimeSlotSelection.c_slot first)
           (TimeSlotSelection.index first) hs]
    ∧ first ∈ TimeSlotSelection.selectedSlots st
    ∧ is_minimum (TimeSlotSelection.index first) (chosenHours st)
    ∧ ascending_of (chosenHours st) hs
    ∧ ∀ w, CustomerBooking.currentStep w = 2 →
        CustomerBooking.act (CustomerBooking.ConfirmSlots st) w
        = CustomerBooking.setCurrentStep 3
            (CustomerBooking.setSelectedSlot
               (Some (CustomerBooking.SlotSelection (TimeSlotSelection.c_slot first)
                        (TimeSlotSelection.index first) hs)) w).
Proof.
  intros Hne Hcons.
  destruct (confirm_valid_selection st Hne Hcons) as (first & rest & Hsort & Hrun).
  pose proof (sort_by_index_hours st) as Hhours. rewrite Hsort in Hhours.
  exists first, (sort cmp_num (chosenHours st)). split_and!.
  - done.
  - rewrite <- (sort_perm (λ a b, TimeSlotSelection.index a - TimeSlotSelection.index b)).
    rewrite Hsort. left.
  - apply (sorted_head_minimum _ (List.map TimeSlotSelection.index rest)).
    + change (StronglySorted Z.le (List.map TimeSlotSelection.index (first :: rest))).
      rewrite Hhours. apply sort_sorted.
    + change (List.map TimeSlotSelection.index (first :: rest) ≡ₚ chosenHours st).
      rewrite Hhours. apply sort_perm.
  - split; [apply sort_sorted|apply sort_perm].
  - intros w Hw. unfold CustomerBooking.act. rewrite Hw, Hrun. done.
Qed.

Lemma handleConfirmSelection_success_witness :
  ∃ first hs,
    TimeSlotSelection.handleConfirmSelection (selection_of [15; 14; 16])
    = TimeSlotSelection.Returns (selection_of [15; 14; 16])
        [TimeSlotSelection.OnSlotSelect (TimeSlotSelection.c_slot first)
           (TimeSlotSelection.index first) hs]
    ∧ first ∈ TimeSlotSelection.selectedSlots (selection_of [15; 14; 16])
    ∧ is_minimum (TimeSlotSelection.index first) (chosenHours (selection_of [15; 14; 16]))
    ∧ ascending_of (chosenHours (selection_of [15; 14; 16])) hs
    ∧ ∀ w, CustomerBooking.currentStep w = 2 →
        CustomerBooking.act (CustomerBooking.ConfirmSlots (selection_of [15; 14; 16])) w
        = CustomerBooking.setCurrentStep 3
            (CustomerBooking.setSelectedSlot
               (Some (CustomerBooking.SlotSelection (TimeSlotSelection.c_slot first)
                        (TimeSlotSelection.index first) hs)) w).
Proof.
  apply (handleConfirmSelection_success (selection_of [15; 14; 16])).
  - discriminate.
  - vm_compute. reflexivity.
Defined.

(** The examples of the specification: {14,15,16} and {9}. *)
Example handleConfirmSelection_examples :
  TimeSlotSelection.handleConfirmSelection (selection_of [15; 14; 16])
  = TimeSlotSelection.Returns (selection_of [15; 14; 16])
      [TimeSlotSelection.OnSlotSelect (js "slot") 14 [14; 15; 16]]
  ∧ TimeSlotSelection.handleConfirmSelection (selection_of [9])
    = TimeSlotSelection.Returns (selection_of [9])
        [TimeSlotSelection.OnSlotSelect (js "slot") 9 [9]].
Proof. by vm_compute. Qed.

(** C3: confirming an invalid selection returns with the error cell
    holding a message, a different one for each cause (the no-slot message
    for the empty selection, the non-consecutive message for a non-empty
    selection that is not contiguous), with the slots, the selection and the
    loading flag as they were, and with no call; the wizard does not move. *)
Theorem handleConfirmSelection_invalid (st : TimeSlotSelection.state) :
  TimeSlotSelection.selectedSlots st = []
  ∨ TimeSlotSelection.areSlotConsecutive st = false →
  ∃ st' msg,
    TimeSlotSelection.handleConfirmSelection st = TimeSlotSelection.Returns st' []
    ∧ TimeSlotSelection.error st' = Some msg
    ∧ TimeSlotSelection.slots st' = TimeSlotSelection.slots st
    ∧ TimeSlotSelection.selectedSlots st' = TimeSlotSelection.selectedSlots st
    ∧ TimeSlotSelection.loading st' = TimeSlotSelection.loading st
    ∧ (TimeSlotSelection.selectedSlots st = [] →
       msg = js "Please select at least one time slot")
    ∧ (TimeSlotSelection.selectedSlots st ≠ [] →
       msg = js "Please select consecutive time slots only")
    ∧ js "Please select at least one time slot"
      ≠ js "Please select consecutive time slots only"
    ∧ ∀ w, CustomerBooking.act (CustomerBooking.ConfirmSlots st) w = w.
Proof.
  intros Hinvalid.
  assert (∃ st' msg,
    TimeSlotSelection.handleConfirmSelection st = TimeSlotSelection.Returns st' []
    ∧ TimeSlotSelection.error st' = Some msg
    ∧ TimeSlotSelection.slots st' = TimeSlotSelection.slots st
    ∧ TimeSlotSelection.selectedSlots st' = TimeSlotSelection.selectedSlots st
    ∧ TimeSlotSelection.loading st' = TimeSlotSelection.loading st
    ∧ (TimeSlotSelection.selectedSlots st = [] →
       msg = js "Please select at least one time slot")
    ∧ (TimeSlotSelection.selectedSlots st ≠ [] →
       msg = js "Please select consecutive time slots only"))
    as (st' & msg & Hrun & Herr & Hslots & Hsel & Hload & Hempty & Hgap).
  { unfold TimeSlotSelection.handleConfirmSelection.
    destruct (Nat.eqb_spec (length (TimeSlotSelection.selectedSlots st)) 0) as [Hlen|Hlen].
    - eexists _, _. split; [reflexivity|]. split; [reflexivity|].
      split_and!; [done..|]. intros Hne.
      by destruct (TimeSlotSelection.selectedSlots st).
    - destruct Hinvalid as [Hnil|Hcons]; [by rewrite Hnil in Hlen|].
      rewrite Hcons. eexists _, _. split; [reflexivity|]. split; [reflexivity|].
      split_and!; [done..| |done]. intros Hnil. by rewrite Hnil in Hlen. }
  exists st', msg. split_and!; [done..|by vm_compute|].
  intros w. unfold CustomerBooking.act. rewrite Hrun. simpl.
  by destruct (CustomerBooking.currentStep w =? 2).
Qed.

Lemma handleConfirmSelection_invalid_witness :
  ∃ st' msg,
    TimeSlotSelection.handleConfirmSelection (selection_of [3; 4; 6])
    = TimeSlotSelection.Returns st' []
    ∧ TimeSlotSelection.error st' = Some msg
    ∧ TimeSlotSelection.slots st' = TimeSlotSelection.slots (selection_of [3; 4; 6])
    ∧ TimeSlotSelection.selectedSlots st'
      = TimeSlotSelection.selectedSlots (selection_of [3; 4; 6])
    ∧ TimeSlotSelection.loading st' = TimeSlotSelection.loading (selection_of [3; 4; 6])
    ∧ (TimeSlotSelection.selectedSlots (selection_of [3; 4; 6]) = [] →
       msg = js "Please select at least one time slot")
    ∧ (TimeSlotSelection.selectedSlots (selection_of [3; 4; 6]) ≠ [] →
       msg = js "Please select consecutive time slots only")
    ∧ js "Please select at least one time slot"
      ≠ js "Please select consecutive time slots only"
    ∧ ∀ w, CustomerBooking.act (CustomerBooking.ConfirmSlots (selection_of [3; 4; 6])) w = w.
Proof.
  apply (handleConfirmSelection_invalid (selection_of [3; 4; 6])).
  right. vm_compute. reflexivity.
Defined.

(** The examples of the specification: the empty selection and {3,4,6},
    with the state they leave written out. *)
Example handleConfirmSelection_invalid_examples :
  TimeSlotSelection.handleConfirmSelection (selection_of [])
  = TimeSlotSelection.Returns
      (TimeSlotSelection.State [] [] false
         (Some (js "Please select at least one time slot"))) []
  ∧ TimeSlotSelection.handleConfirmSelection (selection_of [3; 4; 6])
    = TimeSlotSelection.Returns
        (TimeSlotSelection.State []
           [TimeSlotSelection.Chosen (js "slot") 3;
            TimeSlotSelection.Chosen (js "slot") 4;
            TimeSlotSelection.Chosen (js "slot") 6] false
           (Some (js "Please select consecutive time slots only"))) [].
Proof. by vm_compute. Qed.

(** ** Toggling a slot *)

(** C6: a click on a slot whose [enabled] flag is false returns the state of
    the component as it was, whatever the selection. *)
Theorem handleSlotClick_disabled (st : TimeSlotSelection.state)
    (slotObj : TimeSlotSelection.slotObj) (i : Z) :
  TimeSlotSelection.enabled slotObj = false →
  TimeSlotSelection.handleSlotClick st slotObj i = st.
Proof.
  intros Hdisabled. unfold TimeSlotSelection.handleSlotClick.
  by rewrite Hdisabled.
Qed.

Lemma handleSlotClick_disabled_witness :
  TimeSlotSelection.handleSlotClick (selection_of [12; 13])
    (TimeSlotSelection.SlotObj (js "2:00 PM to 3:00 PM") false) 14
  = selection_of [12; 13].
Proof.
  apply (handleSlotClick_disabled (selection_of [12; 13])
           (TimeSlotSelection.SlotObj (js "2:00 PM to 3:00 PM") false) 14).
  reflexivity.
Defined.

Lemma existsb_index_elem_of (i : Z) (l : list TimeSlotSelection.chosen) :
  existsb (λ s, TimeSlotSelection.index s =? i) l = true
  ↔ i ∈ List.map TimeSlotSelection.index l.
Proof.
  rewrite existsb_exists, list_elem_of_In, in_map_iff.
  split; intros (s & H1 & H2); exists s.
  - apply Z.eqb_eq in H2. done.
  - by rewrite H1, Z.eqb_refl.
Qed.

Lemma filter_index_absent (i : Z) (l : list TimeSlotSelection.chosen) :
  i ∉ List.map TimeSlotSelection.index l →
  List.filter (λ s, negb (TimeSlotSelection.index s =? i)) l = l.
Proof.
  induction l as [|c l IH]; simpl; [done|]. intros Hnot.
  apply not_elem_of_cons in Hnot as [Hne Hnot].
  destruct (Z.eqb_spec (TimeSlotSelection.index c) i); [done|].
  simpl. by rewrite IH.
Qed.

Lemma filter_index_hours (i : Z) (l : list TimeSlotSelection.chosen) (h : Z) :
  h ∈ List.map TimeSlotSelection.index
        (List.filter (λ s, negb (TimeSlotSelection.index s =? i)) l)
  ↔ h ∈ List.map TimeSlotSelection.index l ∧ h ≠ i.
Proof.
  rewrite !list_elem_of_In, !in_map_iff. split.
  - intros (s & <- & Hs). apply filter_In in Hs as [Hs Hne].
    split; [eauto|]. apply negb_true_iff, Z.eqb_neq in Hne. done.
  - intros [(s & <- & Hs) Hne]. exists s. split; [done|].
    apply filter_In. split; [done|]. by apply negb_true_iff, Z.eqb_neq.
Qed.

Lemma handleSlotClick_frame st slotObj i :
  TimeSlotSelection.slots (TimeSlotSelection.handleSlotClick st slotObj i)
  = TimeSlotSelection.slots st
  ∧ TimeSlotSelection.loading (TimeSlotSelection.handleSlotClick st slotObj i)
    = TimeSlotSelection.loading st
  ∧ TimeSlotSelection.error (TimeSlotSelection.handleSlotClick st slotObj i)
    = TimeSlotSelection.error st.
Proof.
  unfold TimeSlotSelection.handleSlotClick.
  destruct (negb _); [done|]. by destruct (existsb _ _).
Qed.

Lemma handleSlotClick_twice st slotObj i :
  let st2 :=
    TimeSlotSelection.handleSlotClick
      (TimeSlotSelection.handleSlotClick st slotObj i) slotObj i in
  (list_to_set (chosenHours st2) : gset Z) = list_to_set (chosenHours st)
  ∧ (i ∉ chosenHours st → st2 = st).
Proof.
  cbv zeta. unfold TimeSlotSelection.handleSlotClick.
  destruct (TimeSlotSelection.enabled slotObj) eqn:Hen; cbn [negb]; [|done].
  destruct st as [sl sel ld er]. unfold chosenHours.
  cbn [TimeSlotSelection.selectedSlots].
  destruct (existsb _ sel) eqn:Hsel;
    unfold TimeSlotSelection.setSelectedSlots;
    cbn [TimeSlotSelection.selectedSlots TimeSlotSelection.slots
         TimeSlotSelection.loading TimeSlotSelection.error].
  - apply existsb_index_elem_of in Hsel.
    assert (existsb (λ s, TimeSlotSelection.index s =? i)
              (List.filter (λ s, negb (TimeSlotSelection.index s =? i)) sel)
            = false) as ->.
    { apply not_true_is_false. rewrite existsb_index_elem_of, filter_index_hours. tauto. }
    split; [|done].
    apply set_eq. intros h.
    rewrite !elem_of_list_to_set. cbn [TimeSlotSelection.selectedSlots]. rewrite List.map_app, elem_of_app, filter_index_hours.
    simpl. rewrite list_elem_of_singleton.
    destruct (decide (h = i)) as [->|]; tauto.
  - assert (i ∉ List.map TimeSlotSelection.index sel) as Hnot.
    { rewrite <- existsb_index_elem_of. by rewrite Hsel. }
    rewrite existsb_app. simpl. rewrite Z.eqb_refl, orb_true_r.
    rewrite List.filter_app. simpl. rewrite Z.eqb_refl. simpl.
    rewrite app_nil_r, filter_index_absent by done. done.
Qed.

Lemma filter_index_NoDup (i : Z) (l : list TimeSlotSelection.chosen) :
  NoDup (List.map TimeSlotSelection.index l) →
  NoDup (List.map TimeSlotSelection.index
           (List.filter (λ s, negb (TimeSlotSelection.index s =? i)) l)).
Proof.
  induction l as [|c l IH]; simpl; [done|].
  intros [Hc Hl]%NoDup_cons.
  destruct (negb _); simpl; [|auto].
  apply NoDup_cons. split; [|auto].
  rewrite filter_index_hours. tauto.
Qed.

Lemma filter_index_readd (i : Z) (l : list TimeSlotSelection.chosen) c :
  NoDup (List.map TimeSlotSelection.index l) →
  c ∈ l → TimeSlotSelection.index c = i →
  List.filter (λ s, negb (TimeSlotSelection.index s =? i)) l ++ [c] ≡ₚ l.
Proof.
  intros Hnodup Hin Hi. induction l as [|x l IH]; [by apply elem_of_nil in Hin|].
  simpl in Hnodup. apply NoDup_cons in Hnodup as [Hx Hl].
  apply elem_of_cons in Hin as [->|Hin]; simpl.
  - rewrite Hi, Z.eqb_refl. simpl. rewrite filter_index_absent by (by rewrite <- Hi).
    by rewrite Permutation_app_comm.
  - destruct (Z.eqb_spec (TimeSlotSelection.index x) i) as [Heq|Hne]; simpl.
    + destruct Hx. rewrite Heq, <- Hi. apply list_elem_of_fmap. eauto.
    + by rewrite IH.
Qed.

Lemma handleSlotClick_twice_perm st slotObj i :
  NoDup (chosenHours st) →
  (∀ c, c ∈ TimeSlotSelection.selectedSlots st → TimeSlotSelection.index c = i →
        TimeSlotSelection.c_slot c = TimeSlotSelection.slot slotObj) →
  TimeSlotSelection.selectedSlots
    (TimeSlotSelection.handleSlotClick
       (TimeSlotSelection.handleSlotClick st slotObj i) slotObj i)
  ≡ₚ TimeSlotSelection.selectedSlots st.
Proof.
  intros Hnodup Hlabel.
  destruct (decide (i ∈ chosenHours st)) as [Hin|Hnot].
  2:{ by rewrite (proj2 (handleSlotClick_twice st slotObj i) Hnot). }
  unfold TimeSlotSelection.handleSlotClick.
  destruct (TimeSlotSelection.enabled slotObj); cbn [negb]; [|done].
  destruct st as [sl sel ld er]. unfold chosenHours in *.
  cbn [TimeSlotSelection.selectedSlots] in *.
  rewrite (proj2 (existsb_index_elem_of i sel) Hin).
  unfold TimeSlotSelection.setSelectedSlots.
  cbn [TimeSlotSelection.selectedSlots].
  assert (existsb (λ s, TimeSlotSelection.index s =? i)
            (List.filter (λ s, negb (TimeSlotSelection.index s =? i)) sel)
          = false) as ->.
  { apply not_true_is_false. rewrite existsb_index_elem_of, filter_index_hours. tauto. }
  cbn [TimeSlotSelection.selectedSlots].
  apply list_elem_of_fmap in Hin as (c & Hc & Hin).
  apply filter_index_readd; [done| |done].
  specialize (Hlabel c Hin (eq_sym Hc)). destruct c as [lbl idx].
  simpl in *. by subst.
Qed.

(** The click handler keeps selections well formed, starting from the empty
    selection of a fresh component. *)
Lemma well_formed_click st i : well_formed st → well_formed (TimeSlotSelection.click st i).
Proof.
  intros [Hnodup Hlabels]. unfold TimeSlotSelection.click.
  destruct (TimeSlotSelection.slots st !! i) as [slotObj|] eqn:Hslot; [|done].
  unfold TimeSlotSelection.handleSlotClick.
  destruct (TimeSlotSelection.enabled slotObj); cbn [negb]; [|done].
  destruct st as [sl sel ld er]. unfold well_formed, chosenHours in *.
  cbn [TimeSlotSelection.selectedSlots TimeSlotSelection.slots] in *.
  destruct (existsb _ sel) eqn:Hsel;
    unfold TimeSlotSelection.setSelectedSlots;
    cbn [TimeSlotSelection.selectedSlots TimeSlotSelection.slots].
  - split; [by apply filter_index_NoDup|].
    intros c Hc. apply Hlabels.
    apply list_elem_of_In, filter_In in Hc as [Hc _]. by apply list_elem_of_In.
  - assert (Z.of_nat i ∉ List.map TimeSlotSelection.index sel) as Hnot.
    { rewrite <- existsb_index_elem_of. by rewrite Hsel. }
    split.
    + rewrite List.map_app. simpl. rewrite Permutation_app_comm. simpl.
      by apply NoDup_cons.
    + intros c [Hc| ->%list_elem_of_singleton]%elem_of_app; [auto|]. eauto.
Qed.

Lemma well_formed_empty sl ld er : well_formed (TimeSlotSelection.State sl [] ld er).
Proof.
  split; [constructor|]. intros c Hc. by apply elem_of_nil in Hc.
Qed.

(** C7: two clicks in a row on a slot of the current list give back the set
    of chosen hours the component had before, and leave every other cell
    alone; when the hour was not chosen before, the array itself is back, and
    for a selection built by clicks the entries are back up to their order. *)
Theorem click_twice (st : TimeSlotSelection.state) (i : nat)
    (slotObj : TimeSlotSelection.slotObj) :
  TimeSlotSelection.slots st !! i = Some slotObj →
  let st2 := TimeSlotSelection.click (TimeSlotSelection.click st i) i in
  (list_to_set (chosenHours st2) : gset Z) = list_to_set (chosenHours st)
  ∧ TimeSlotSelection.slots st2 = TimeSlotSelection.slots st
  ∧ TimeSlotSelection.loading st2 = TimeSlotSelection.loading st
  ∧ TimeSlotSelection.error st2 = TimeSlotSelection.error st
  ∧ (Z.of_nat i ∉ chosenHours st → st2 = st)
  ∧ (well_formed st →
     TimeSlotSelection.selectedSlots st2 ≡ₚ TimeSlotSelection.selectedSlots st).
Proof.
  intros Hslot.
  assert (TimeSlotSelection.click st i
          = TimeSlotSelection.handleSlotClick st slotObj (Z.of_nat i)) as Hfirst.
  { unfold TimeSlotSelection.click. by rewrite Hslot. }
  destruct (handleSlotClick_frame st slotObj (Z.of_nat i)) as (Hsl & Hld & Her).
  assert (TimeSlotSelection.click (TimeSlotSelection.click st i) i
          = TimeSlotSelection.handleSlotClick
              (TimeSlotSelection.handleSlotClick st slotObj (Z.of_nat i))
              slotObj (Z.of_nat i)) as Hsecond.
  { rewrite Hfirst. unfold TimeSlotSelection.click. by rewrite Hsl, Hslot. }
  cbv zeta. rewrite Hsecond.
  destruct (handleSlotClick_twice st slotObj (Z.of_nat i)) as [Hset Hsame].
  destruct (handleSlotClick_frame
              (TimeSlotSelection.handleSlotClick st slotObj (Z.of_nat i))
              slotObj (Z.of_nat i)) as (Hsl2 & Hld2 & Her2).
  split_and!; [done|congruence|congruence|congruence|done|].
  intros [Hnodup Hlabels]. apply handleSlotClick_twice_perm; [done|].
  intros c Hc Hi. destruct (Hlabels c Hc) as (j & so & Hj & Hso & ->).
  rewrite Hi in Hj. apply Nat2Z.inj in Hj as <-. congruence.
Qed.

Lemma click_twice_witness :
  let st := TimeSlotSelection.State
              [TimeSlotSelection.SlotObj (js "12 AM") true;
               TimeSlotSelection.SlotObj (js "1 AM") true]
              [TimeSlotSelection.Chosen (js "1 AM") 1;
               TimeSlotSelection.Chosen (js "12 AM") 0] false None in
  let st2 := TimeSlotSelection.click (TimeSlotSelection.click st 1) 1 in
  (list_to_set (chosenHours st2) : gset Z) = list_to_set (chosenHours st)
  ∧ TimeSlotSelection.slots st2 = TimeSlotSelection.slots st
  ∧ TimeSlotSelection.loading st2 = TimeSlotSelection.loading st
  ∧ TimeSlotSelection.error st2 = TimeSlotSelection.error st
  ∧ (Z.of_nat 1 ∉ chosenHours st → st2 = st)
  ∧ (well_formed st →
     TimeSlotSelection.selectedSlots st2 ≡ₚ TimeSlotSelection.selectedSlots st).
Proof.
  intros st.
  apply (click_twice st 1 (TimeSlotSelection.SlotObj (js "1 AM") true)).
  reflexivity.
Defined.

(** Removing and adding again moves the hour to the end of the array. *)
Example click_twice_reorders :
  TimeSlotSelection.selectedSlots
    (TimeSlotSelection.click
       (TimeSlotSelection.click
          (TimeSlotSelection.State
             [TimeSlotSelection.SlotObj (js "12 AM") true;
              TimeSlotSelection.SlotObj (js "1 AM") true]
             [TimeSlotSelection.Chosen (js "12 AM") 0;
              TimeSlotSelection.Chosen (js "1 AM") 1] false None) 0) 0)
  = [TimeSlotSelection.Chosen (js "1 AM") 1; TimeSlotSelection.Chosen (js "12 AM") 0].
Proof. reflexivity. Qed.

(** ** The step wizard *)

Lemma back_changes_step_only (w : CustomerBooking.state) (back : CustomerBooking.state → CustomerBooking.state) :
  back = CustomerBooking.onBack_TimeSlotSelection
  ∨ back = CustomerBooking.onBack_GroundSelection
  ∨ back = CustomerBooking.onBack_BookingForm →
  CustomerBooking.selectedDate (back w) = CustomerBooking.selectedDate w
  ∧ CustomerBooking.selectedSlot (back w) = CustomerBooking.selectedSlot w
  ∧ CustomerBooking.selectedGround (back w) = CustomerBooking.selectedGround w
  ∧ CustomerBooking.bookingConfirmation (back w) = CustomerBooking.bookingConfirmation w.
Proof. by intros [->|[->| ->]]. Qed.

(** C4, as the code has it: after date, slots, back, back the wizard is on
    the date step again, no ground is stored, and the date and the confirmed
    slot selection are still stored: a back action sets [currentStep] and
    nothing else. *)
Theorem there_and_back_keeps_slot (date : jsstring) (sel : TimeSlotSelection.state) :
  TimeSlotSelection.selectedSlots sel ≠ [] →
  TimeSlotSelection.areSlotConsecutive sel = true →
  ∃ first hs,
    TimeSlotSelection.handleConfirmSelection sel
    = TimeSlotSelection.Returns sel
        [TimeSlotSelection.OnSlotSelect (TimeSlotSelection.c_slot first)
           (TimeSlotSelection.index first) hs]
    ∧ CustomerBooking.run (there_and_back date sel) CustomerBooking.initial
      = CustomerBooking.State 1 (Some date)
          (Some (CustomerBooking.SlotSelection (TimeSlotSelection.c_slot first)
                   (TimeSlotSelection.index first) hs))
          None None
    ∧ CustomerBooking.render
        (CustomerBooking.run (there_and_back date sel) CustomerBooking.initial)
      = [CustomerBooking.DateSelectionView]
    ∧ ∀ w, CustomerBooking.onBack_TimeSlotSelection w = CustomerBooking.setCurrentStep 1 w
           ∧ CustomerBooking.selectedSlot (CustomerBooking.onBack_TimeSlotSelection w)
             = CustomerBooking.selectedSlot w.
Proof.
  intros Hne Hcons.
  destruct (confirm_valid_selection sel Hne Hcons) as (first & rest & _ & Hrun).
  exists first, (sort cmp_num (chosenHours sel)). split; [done|].
  assert (CustomerBooking.run (there_and_back date sel) CustomerBooking.initial
      = CustomerBooking.State 1 (Some date)
          (Some (CustomerBooking.SlotSelection (TimeSlotSelection.c_slot first)
                   (TimeSlotSelection.index first) (sort cmp_num (chosenHours sel))))
          None None) as Hfinal.
  { unfold CustomerBooking.run, there_and_back. cbn [fold_left].
    change (CustomerBooking.act (CustomerBooking.ChooseDate date) CustomerBooking.initial)
      with (CustomerBooking.State 2 (Some date) None None None).
    unfold CustomerBooking.act at 3. cbn [CustomerBooking.currentStep Z.eqb Pos.eqb].
    rewrite Hrun. reflexivity. }
  rewrite Hfinal. done.
Qed.

Lemma there_and_back_keeps_slot_witness :
  ∃ first hs,
    TimeSlotSelection.handleConfirmSelection (selection_of [12; 13])
    = TimeSlotSelection.Returns (selection_of [12; 13])
        [TimeSlotSelection.OnSlotSelect (TimeSlotSelection.c_slot first)
           (TimeSlotSelection.index first) hs]
    ∧ CustomerBooking.run (there_and_back (js "2026-02-10") (selection_of [12; 13]))
        CustomerBooking.initial
      = CustomerBooking.State 1 (Some (js "2026-02-10"))
          (Some (CustomerBooking.SlotSelection (TimeSlotSelection.c_slot first)
                   (TimeSlotSelection.index first) hs))
          None None
    ∧ CustomerBooking.render
        (CustomerBooking.run (there_and_back (js "2026-02-10") (selection_of [12; 13]))
           CustomerBooking.initial)
      = [CustomerBooking.DateSelectionView]
    ∧ ∀ w, CustomerBooking.onBack_TimeSlotSelection w = CustomerBooking.setCurrentStep 1 w
           ∧ CustomerBooking.selectedSlot (CustomerBooking.onBack_TimeSlotSelection w)
             = CustomerBooking.selectedSlot w.
Proof.
  apply (there_and_back_keeps_slot (js "2026-02-10") (selection_of [12; 13])).
  - discriminate.
  - vm_compute. reflexivity.
Defined.

(** C4, as stated, fails: after choosing 2026-02-10, confirming {12,13} and
    going back twice, the slot selection is still stored. *)
Lemma there_and_back_slot_not_unset :
  let w := CustomerBooking.run
             (there_and_back (js "2026-02-10") (selection_of [12; 13]))
             CustomerBooking.initial in
  CustomerBooking.currentStep w = 1
  ∧ CustomerBooking.selectedGround w = None
  ∧ CustomerBooking.selectedSlot w
    = Some (CustomerBooking.SlotSelection (js "slot") 12 [12; 13])
  ∧ ¬ (CustomerBooking.currentStep w = 1
       ∧ CustomerBooking.selectedSlot w = None
       ∧ CustomerBooking.selectedGround w = None).
Proof.
  cbv zeta. split_and!; [by vm_compute..|].
  intros (_ & Hslot & _). vm_compute in Hslot. discriminate.
Qed.

(** ** The payment handler *)

(** No action on the date, slot, ground or form step stores a confirmation:
    only the booking-complete callback does. *)
Lemma on_slot_calls_no_confirmation calls w :
  CustomerBooking.bookingConfirmation
    (fold_left (λ w c, CustomerBooking.on_slot_call c w) calls w)
  = CustomerBooking.bookingConfirmation w.
Proof.
  revert w. induction calls as [|c calls IH]; intros w; simpl; [done|].
  rewrite IH. by destruct c.
Qed.

Lemma act_no_confirmation a w :
  CustomerBooking.bookingConfirmation w = None →
  CustomerBooking.bookingConfirmation (CustomerBooking.act a w) = None.
Proof.
  intros Hnone. destruct a; simpl.
  - by destruct (CustomerBooking.currentStep w =? 1).
  - destruct (CustomerBooking.currentStep w =? 2); [|done].
    destruct (TimeSlotSelection.handleConfirmSelection sel); [|done].
    by rewrite on_slot_calls_no_confirmation.
  - by destruct (CustomerBooking.currentStep w =? 3).
  - destruct (CustomerBooking.currentStep w =? 2); [done|].
    destruct (CustomerBooking.currentStep w =? 3); [done|].
    by destruct (_ && _).
  - by destruct (bool_decide _).
Qed.

Lemma run_no_confirmation actions w :
  CustomerBooking.bookingConfirmation w = None →
  CustomerBooking.bookingConfirmation (CustomerBooking.run actions w) = None.
Proof.
  revert w. induction actions as [|a actions IH]; intros w Hnone; simpl; [done|].
  by apply IH, act_no_confirmation.
Qed.

Lemma confirmation_rendered (w : CustomerBooking.state) :
  CustomerBooking.ConfirmationView ∈ CustomerBooking.render w
  ↔ is_Some (CustomerBooking.bookingConfirmation w).
Proof.
  unfold CustomerBooking.render, CustomerBooking.when.
  destruct (decide (is_Some (CustomerBooking.bookingConfirmation w))) as [Hsome|Hnone].
  - rewrite !(bool_decide_eq_true_2 _ Hsome). split; [done|]. intros _.
    rewrite !elem_of_app. do 4 right. simpl. left.
  - rewrite !(bool_decide_eq_false_2 _ Hnone). split; [|done].
    destruct (CustomerBooking.currentStep w =? 1),
      (CustomerBooking.currentStep w =? 2),
      (CustomerBooking.currentStep w =? 3),
      (CustomerBooking.currentStep w =? 4);
      simpl; rewrite ?elem_of_cons, ?elem_of_nil; intuition discriminate.
Qed.

(** C5, as the code has it: [onBookingComplete] is called exactly when
    [verifyPayment] resolves to a result whose [success] is truthy (for a
    boolean: true), and the confirmation is rendered only if that result also
    carries a booking; when [success] is falsy the form goes back to its form
    step with the contact-support message; when [verifyPayment] throws the
    form goes back to its form step with the message of the exception, and
    with the contact-support message only if the exception has no message;
    in every case [verifyPayment] is called once and the wizard does not
    move unless the callback is called. *)
Theorem payment_handler_confirms_only_verified
    (orderBookingId : Z) (response : BookingForm.razorpayResponse)
    (verified : BookingForm.awaited BookingForm.verifyResultT)
    (w : CustomerBooking.state) (st : BookingForm.state) :
  CustomerBooking.bookingConfirmation w = None →
  let st' := (BookingForm.handler orderBookingId response verified st).1 in
  let effects := (BookingForm.handler orderBookingId response verified st).2 in
  let w' := (BookingForm.payment_succeeded orderBookingId response verified w st).1 in
  (∀ c, BookingForm.OnBookingComplete c ∈ effects ↔
        ∃ r, verified = BookingForm.Resolved r
             ∧ BookingForm.truthy (BookingForm.success r) = true
             ∧ c = BookingForm.booking r)
  ∧ (∀ r b, verified = BookingForm.Resolved r →
            BookingForm.success r = BookingForm.JBool b →
            (BookingForm.OnBookingComplete (BookingForm.booking r) ∈ effects ↔ b = true))
  ∧ (CustomerBooking.ConfirmationView ∈ CustomerBooking.render w' ↔
     ∃ r b, verified = BookingForm.Resolved r
            ∧ BookingForm.truthy (BookingForm.success r) = true
            ∧ BookingForm.booking r = Some b
            ∧ CustomerBooking.bookingConfirmation w' = Some b)
  ∧ (∀ r, verified = BookingForm.Resolved r →
          BookingForm.truthy (BookingForm.success r) = false →
          w' = w
          ∧ BookingForm.paymentStep st' = BookingForm.Form
          ∧ BookingForm.loading st' = false
          ∧ BookingForm.error st' = Some BookingForm.contact_support)
  ∧ (∀ e, verified = BookingForm.Rejected e →
          w' = w
          ∧ BookingForm.paymentStep st' = BookingForm.Form
          ∧ BookingForm.loading st' = false
          ∧ BookingForm.error st'
            = Some (BookingForm.or_else (BookingForm.message e) BookingForm.contact_support)
          ∧ (BookingForm.message e = None ∨ BookingForm.message e = Some [] →
             BookingForm.error st' = Some BookingForm.contact_support)
          ∧ (∀ c m, BookingForm.message e = Some (c :: m) →
             BookingForm.error st' = Some (c :: m)))
  ∧ length (List.filter is_verify effects) = 1%nat
  ∧ BookingForm.formData st' = BookingForm.formData st.
Proof.
  intros Hnone. cbv zeta. rewrite confirmation_rendered.
  unfold BookingForm.payment_succeeded, BookingForm.handler.
  destruct verified as [r|e].
  - destruct (BookingForm.truthy (BookingForm.success r)) eqn:Htruthy;
      cbn [fst snd fold_left BookingForm.on_effect].
    + split_and!; try done.
      * intros c. rewrite !elem_of_cons, elem_of_nil. split.
        -- intros [?|[[= ->]|[]]]; [done|]. eauto.
        -- intros (r' & [= <-] & _ & ->). auto.
      * intros r' b [= <-] Hb. rewrite Hb in Htruthy. simpl in Htruthy. subst b.
        split; [done|]. intros _. set_solver.
      * simpl. split.
        -- intros [b Hb]. eauto 10.
        -- intros (r' & b & [= <-] & _ & Hb & _). rewrite Hb. eauto.
      * intros r' [= <-]. congruence.
    + split_and!; try done.
      * intros c. rewrite elem_of_cons, elem_of_nil. split; [by intros [?|[]]|].
        intros (r' & [= <-] & ? & _). congruence.
      * intros r' b [= <-] Hb. rewrite Hb in Htruthy. simpl in Htruthy. subst b.
        rewrite elem_of_cons, elem_of_nil. split; [by intros [?|[]]|done].
      * rewrite Hnone. split; [by intros [? ?]|].
        intros (r' & b & [= <-] & ? & _). congruence.
  - cbn [fst snd fold_left BookingForm.on_effect]. split_and!; try done.
    + intros c. rewrite !elem_of_cons, elem_of_nil. split; [by intros [?|[?|[]]]|].
      by intros (r' & ? & _).
    + rewrite Hnone. split; [by intros [? ?]|]. by intros (r' & b & ? & _).
    + intros e' [= <-]. split_and!; [done..| |].
      * simpl. by intros [->| ->].
      * simpl. by intros c m ->.
Qed.

Lemma payment_handler_confirms_only_verified_witness :
  CustomerBooking.bookingConfirmation sample_wizard = None
  ∧ CustomerBooking.ConfirmationView
    ∈ CustomerBooking.render
        (BookingForm.payment_succeeded 7 sample_response
           (BookingForm.Resolved
              (BookingForm.VerifyResult (BookingForm.JBool true) (Some sample_booking)))
           sample_wizard sample_form).1
  ∧ BookingForm.error
      (BookingForm.handler 7 sample_response
         (BookingForm.Resolved
            (BookingForm.VerifyResult (BookingForm.JBool false) None))
         sample_form).1
    = Some BookingForm.contact_support.
Proof.
  split; [reflexivity|]. split.
  - pose proof (payment_handler_confirms_only_verified 7 sample_response
      (BookingForm.Resolved
         (BookingForm.VerifyResult (BookingForm.JBool true) (Some sample_booking)))
      sample_wizard sample_form eq_refl) as H.
    cbv zeta in H. destruct H as (_ & _ & Hview & _).
    apply Hview. eexists _, _. split_and!; reflexivity.
  - pose proof (payment_handler_confirms_only_verified 7 sample_response
      (BookingForm.Resolved
         (BookingForm.VerifyResult (BookingForm.JBool false) None))
      sample_wizard sample_form eq_refl) as H.
    cbv zeta in H. destruct H as (_ & _ & _ & Hfail & _).
    by destruct (Hfail _ eq_refl eq_refl) as (_ & _ & _ & Herr).
Defined.

(** C5, as stated, fails twice.  When [verifyPayment] throws (as it does on
    a response that is not ok) the form shows the message of the exception,
    which says nothing about support; and a [success] that is truthy without
    being [true] completes the booking. *)
Lemma payment_handler_not_always_support :
  (let st' := (BookingForm.handler 7 sample_response
                 (BookingForm.Rejected
                    (BookingForm.JsError (Some (js "HTTP error! status: 500"))))
                 sample_form).1 in
   BookingForm.error st' = Some (js "HTTP error! status: 500")
   ∧ BookingForm.error st' ≠ Some BookingForm.contact_support
   ∧ includes (js "HTTP error! status: 500") (js "support") = false)
  ∧ (let effects := (BookingForm.handler 7 sample_response
                       (BookingForm.Resolved
                          (BookingForm.VerifyResult (BookingForm.JNumber 1)
                             (Some sample_booking)))
                       sample_form).2 in
     BookingForm.OnBookingComplete (Some sample_booking) ∈ effects
     ∧ BookingForm.JNumber 1 ≠ BookingForm.JBool true).
Proof.
  cbv zeta. split.
  - split_and!; [by vm_compute| |by vm_compute].
    intros H. vm_compute in H. discriminate.
  - split; [|discriminate]. vm_compute. set_solver.
Qed.

(** ** The validators *)

Section Matcher.
Variables (p : N → bool) (k : jsstring → bool).

Lemma match_exactly_true n s :
  Helpers.match_exactly p n k s = true ↔
  ∃ a b, s = a ++ b ∧ length a = n ∧ (∀ c, c ∈ a → p c = true) ∧ k b = true.
Proof.
  revert s. induction n as [|n IH]; intros s; simpl.
  - split.
    + intros Hk. exists [], s. split_and!; [done..|set_solver|done].
    + intros (a & b & -> & Hlen & _ & Hk). by destruct a.
  - destruct s as [|c s].
    + split; [done|]. intros (a & b & Hs & Hlen & _).
      symmetry in Hs. apply app_eq_nil in Hs as [-> _]. done.
    + rewrite andb_true_iff, IH. split.
      * intros (Hc & a & b & -> & Hlen & Ha & Hk).
        exists (c :: a), b. split_and!; [done|by simpl; f_equal| |done].
        intros c' [->|Hc']%elem_of_cons; auto.
      * intros (a & b & Hs & Hlen & Ha & Hk).
        destruct a as [|c' a]; [done|]. simplify_eq/=.
        split; [apply Ha; left|]. exists a, b. split_and!; [done..| |done].
        intros c Hc. apply Ha. by right.
Qed.

Lemma match_plus_true s :
  Helpers.match_plus p k s = true ↔
  ∃ a b, s = a ++ b ∧ a ≠ [] ∧ (∀ c, c ∈ a → p c = true) ∧ k b = true.
Proof.
  induction s as [|c s IH]; simpl.
  - split; [done|]. intros (a & b & Hs & Hne & _).
    symmetry in Hs. apply app_eq_nil in Hs as [-> _]. done.
  - rewrite andb_true_iff, orb_true_iff, IH. split.
    + intros [Hc [(a & b & -> & _ & Ha & Hk)|Hk]].
      * exists (c :: a), b. split_and!; [done..| |done].
        intros c' [->|Hc']%elem_of_cons; auto.
      * exists [c], s. split_and!; [done..| |done].
        intros c' ->%list_elem_of_singleton. done.
    + intros (a & b & Hs & Hne & Ha & Hk).
      destruct a as [|c' a]; [done|]. simplify_eq/=.
      split; [apply Ha; left|].
      destruct a as [|c'' a]; [by right|]. left.
      exists (c'' :: a), b. split_and!; [done..| |done].
      intros c Hc. apply Ha. by right.
Qed.
End Matcher.

Lemma at_end_true s : Helpers.at_end s = true ↔ s = [].
Proof. by destruct s. Qed.

Lemma is_digit_range c :
  Helpers.is_digit c = true ↔ (Helpers.code "0" ≤ c ≤ Helpers.code "9")%N.
Proof.
  unfold Helpers.is_digit. rewrite andb_true_iff, !N.leb_le.
  change (Helpers.code "0") with 48%N. change (Helpers.code "9") with 57%N. done.
Qed.

(** C8: [isValidPhone] returns true exactly for the strings of ten
    characters that are all digits 0 to 9; so it rejects a string with any
    other character, with fewer than ten or with more than ten characters. *)
Theorem isValidPhone_iff (phone : jsstring) :
  Helpers.isValidPhone phone = true ↔
  length phone = 10%nat
  ∧ ∀ c, c ∈ phone → (Helpers.code "0" ≤ c ≤ Helpers.code "9")%N.
Proof.
  unfold Helpers.isValidPhone, Helpers.test, Helpers.phoneRegex.
  cbn [Helpers.match_terms Helpers.match_term Helpers.quant Helpers.cls
       Helpers.class_matches].
  rewrite match_exactly_true. split.
  - intros (a & b & -> & Hlen & Ha & ->%at_end_true). rewrite app_nil_r.
    split; [done|]. intros c Hc. by apply is_digit_range, Ha.
  - intros [Hlen Hdigits]. exists phone, []. rewrite app_nil_r.
    split_and!; [done..| |done]. intros c Hc. by apply is_digit_range, Hdigits.
Qed.

Example isValidPhone_examples :
  Helpers.isValidPhone (js "9876543210") = true
  ∧ Helpers.isValidPhone (js "98765abc10") = false
  ∧ Helpers.isValidPhone (js "987654321") = false
  ∧ Helpers.isValidPhone (js "98765432100") = false
  ∧ Helpers.isValidPhone (js "9876543210 ") = false.
Proof. by vm_compute. Qed.

Lemma email_class_matches c :
  Helpers.class_matches
    (Helpers.NoneOf [Helpers.Whitespace; Helpers.Char (Helpers.code "@")]) c = true
  ↔ Helpers.is_whitespace c = false ∧ c ≠ Helpers.code "@".
Proof.
  cbn [Helpers.class_matches existsb Helpers.atom_matches].
  rewrite orb_false_r, negb_true_iff, orb_false_iff.
  rewrite (N.eqb_neq (Helpers.code "@") c).
  split; intros [? ?]; split; congruence.
Qed.

Lemma match_email_part k s :
  Helpers.match_plus
    (Helpers.class_matches
       (Helpers.NoneOf [Helpers.Whitespace; Helpers.Char (Helpers.code "@")])) k s = true
  ↔ ∃ a b, s = a ++ b ∧ email_part a ∧ k b = true.
Proof.
  rewrite match_plus_true. unfold email_part.
  split; intros (a & b & Hs & H); exists a, b; (split; [done|]).
  - destruct H as (Hne & Ha & Hk). split_and!; [done| |done].
    intros c Hc. by apply email_class_matches, Ha.
  - destruct H as ((Hne & Ha) & Hk). split_and!; [done| |done].
    intros c Hc. by apply email_class_matches, Ha.
Qed.

Lemma match_literal x k s :
  Helpers.match_exactly (Helpers.class_matches (Helpers.Literal x)) 1 k s = true
  ↔ ∃ b, s = x :: b ∧ k b = true.
Proof.
  destruct s as [|c s]; simpl.
  - split; [done|]. by intros (b & ? & _).
  - rewrite andb_true_iff, N.eqb_eq. split.
    + intros [-> Hk]. eauto.
    + intros (b & [= -> ->] & Hk). done.
Qed.

(** C9, as the code has it: [isValidEmail] returns true exactly for the
    strings made of a local part, [@], a middle part, [.] and a last part,
    where each part is one or more characters that are neither whitespace nor
    [@]; it accepts a@b.co and rejects a@b and a.com. *)
Theorem isValidEmail_iff (email : jsstring) :
  (Helpers.isValidEmail email = true ↔ email_shape email)
  ∧ Helpers.isValidEmail (js "a@b.co") = true
  ∧ Helpers.isValidEmail (js "a@b") = false
  ∧ Helpers.isValidEmail (js "a.com") = false.
Proof.
  split; [|by vm_compute].
  unfold Helpers.isValidEmail, Helpers.test, Helpers.emailRegex, email_shape.
  cbn [Helpers.match_terms Helpers.match_term Helpers.quant Helpers.cls].
  rewrite match_email_part. split.
  - intros (l & r1 & -> & Hl & H).
    apply match_literal in H as (r2 & -> & H).
    apply match_email_part in H as (d & r3 & -> & Hd & H).
    apply match_literal in H as (r4 & -> & H).
    apply match_email_part in H as (t & r5 & -> & Ht & ->%at_end_true).
    exists l, d, t. rewrite app_nil_r. done.
  - intros (l & d & t & -> & Hl & Hd & Ht).
    exists l, ([Helpers.code "@"] ++ d ++ [Helpers.code "."] ++ t).
    split_and!; [done..|].
    apply match_literal. eexists. split; [done|].
    apply match_email_part. exists d, ([Helpers.code "."] ++ t).
    split_and!; [done..|].
    apply match_literal. eexists. split; [done|].
    apply match_email_part. exists t, []. by rewrite app_nil_r.
Qed.

(** C9, as stated, fails: a@@b.co has the shape the specification gives
    (non-whitespace, [@], non-whitespace, [.], non-whitespace) and is
    rejected. *)
Lemma isValidEmail_rejects_second_at :
  spec_email_shape (js "a@@b.co")
  ∧ Helpers.isValidEmail (js "a@@b.co") = false.
Proof.
  split; [|by vm_compute].
  exists (js "a"), (js "@b"), (js "co"). split; [by vm_compute|].
  unfold spec_email_part.
  split_and!; try (by vm_compute);
    intros c Hc; vm_compute in Hc;
    repeat (apply elem_of_cons in Hc as [->|Hc]; [by vm_compute|]);
    by apply elem_of_nil in Hc.
Qed.

(** ** Time display *)

(** Every hour from 12 on that is a multiple of 12 is shown as 12:00 PM. *)
Lemma formatTime_multiple_of_12 (hour : Z) :
  Z.rem hour 12 = 0 → 12 <= hour → Helpers.formatTime hour = js "12:00 PM".
Proof.
  intros Hrem Hge. unfold Helpers.formatTime. rewrite Hrem. simpl.
  destruct (Z.ltb_spec hour 12); [lia|]. by vm_compute.
Qed.

Lemma sort_ends (hours : list Z) :
  hours ≠ [] →
  ∃ lo hi,
    sort cmp_num hours !! 0%nat = Some lo
    ∧ sort cmp_num hours !! (length (sort cmp_num hours) - 1)%nat = Some hi
    ∧ is_minimum lo hours ∧ is_maximum hi hours.
Proof.
  intros Hne.
  pose proof (sort_sorted hours) as Hs. pose proof (sort_perm cmp_num hours) as Hp.
  assert (sort cmp_num hours ≠ []) as Hne'.
  { intros Hnil. rewrite Hnil in Hp. by apply Permutation_nil in Hp. }
  destruct (proj2 (last_is_Some _) Hne') as [hi Hhi].
  destruct (sort cmp_num hours) as [|lo rest] eqn:Hsort; [done|].
  exists lo, hi. split; [done|]. split.
  { by rewrite <- Hhi, last_lookup, Nat.sub_1_r. }
  split; [by eapply sorted_head_minimum|].
  apply last_Some in Hhi as [front Hfront]. rewrite Hfront in Hs, Hp.
  by eapply sorted_last_maximum.
Qed.

(** C10: for every array of hours whose greatest element is 23,
    [formatTimeRange] shows the range from its least hour to
    [formatTime(24)], which is 12:00 PM and not 12:00 AM. *)
Theorem formatTimeRange_ends_12_PM (hours : list Z) :
  is_maximum 23 hours →
  ∃ start,
    is_minimum start hours
    ∧ Helpers.formatTimeRange hours
      = Helpers.formatTime start ++ js " to " ++ Helpers.formatTime 24
    ∧ Helpers.formatTimeRange hours
      = Helpers.formatTime start ++ js " to " ++ js "12:00 PM"
    ∧ Helpers.formatTime 24 = js "12:00 PM"
    ∧ Helpers.formatTime 24 ≠ js "12:00 AM".
Proof.
  intros Hmax.
  assert (hours ≠ []) as Hne.
  { intros ->. destruct Hmax as [Hin _]. by apply elem_of_nil in Hin. }
  assert (∃ start, is_minimum start hours
    ∧ Helpers.formatTimeRange hours
      = Helpers.formatTime start ++ js " to " ++ Helpers.formatTime 24)
    as (start & Hmin & Hfmt).
  { unfold Helpers.formatTimeRange.
    destruct hours as [|h [|h' rest]]; [done| |].
    - assert (h = 23) as ->.
      { destruct Hmax as [Hin _]. by apply list_elem_of_singleton in Hin. }
      exists 23. split; [|done]. split; [set_solver|].
      intros h ->%list_elem_of_singleton. lia.
    - destruct (sort_ends (h :: h' :: rest) Hne) as (lo & hi & Hlo & Hhi & Hmin & Hmax').
      rewrite (maximum_unique _ _ _ Hmax' Hmax) in Hhi.
      exists lo. split; [done|].
      cbn [length Nat.eqb]. cbv zeta. rewrite Hlo, Hhi. done. }
  exists start. split_and!; [done|done| |by vm_compute|].
  - rewrite Hfmt. by rewrite (formatTime_multiple_of_12 24).
  - intros H. vm_compute in H. discriminate.
Qed.

Lemma formatTimeRange_ends_12_PM_witness :
  ∃ start,
    is_minimum start [22; 23; 21]
    ∧ Helpers.formatTimeRange [22; 23; 21]
      = Helpers.formatTime start ++ js " to " ++ Helpers.formatTime 24
    ∧ Helpers.formatTimeRange [22; 23; 21]
      = Helpers.formatTime start ++ js " to " ++ js "12:00 PM"
    ∧ Helpers.formatTime 24 = js "12:00 PM"
    ∧ Helpers.formatTime 24 ≠ js "12:00 AM".
Proof.
  apply (formatTimeRange_ends_12_PM [22; 23; 21]).
  split.
  - right. left.
  - intros h Hh.
    repeat (apply elem_of_cons in Hh as [->|Hh]; [lia|]).
    by apply elem_of_nil in Hh.
Defined.

Example formatTimeRange_examples :
  Helpers.formatTimeRange [22; 23; 21] = js "9:00 PM to 12:00 PM"
  ∧ Helpers.formatTimeRange [23] = js "11:00 PM to 12:00 PM"
  ∧ Helpers.formatTimeRange [14; 15; 16] = js "2:00 PM to 5:00 PM"
  ∧ Helpers.formatTime 0 = js "12:00 AM".
Proof. by vm_compute. Qed.

(** ** More on the slot page *)

Lemma areSlotConsecutive_sort_run (st : TimeSlotSelection.state) :
  TimeSlotSelection.areSlotConsecutive st = true
  ↔ is_run (sort cmp_num (chosenHours st)).
Proof.
  unfold TimeSlotSelection.areSlotConsecutive.
  destruct (Nat.leb_spec (length (TimeSlotSelection.selectedSlots st)) 1) as [Hle|Hgt].
  - split; [|done]. intros _. apply is_run_short.
    by rewrite sort_length, chosenHours_length.
  - cbv zeta. rewrite consecutive_from_true by done. by rewrite <- is_run_lookup.
Qed.

Lemma sort_permutation (l l' : list Z) :
  l ≡ₚ l' → sort cmp_num l = sort cmp_num l'.
Proof.
  intros Hp. apply sort_unique; [apply sort_sorted|].
  by rewrite sort_perm.
Qed.

(** X5: the order in which the hours were clicked does not matter to the
    contiguity check. *)
Theorem areSlotConsecutive_order_irrelevant (st st' : TimeSlotSelection.state) :
  chosenHours st ≡ₚ chosenHours st' →
  TimeSlotSelection.areSlotConsecutive st = TimeSlotSelection.areSlotConsecutive st'.
Proof.
  intros Hp. apply eq_true_iff_eq.
  by rewrite !areSlotConsecutive_sort_run, (sort_permutation _ _ Hp).
Qed.

Lemma areSlotConsecutive_order_irrelevant_witness :
  TimeSlotSelection.areSlotConsecutive (selection_of [7; 5; 6])
  = TimeSlotSelection.areSlotConsecutive (selection_of [5; 6; 7]).
Proof.
  apply (areSlotConsecutive_order_irrelevant (selection_of [7; 5; 6])
           (selection_of [5; 6; 7])).
  change (chosenHours (selection_of [7; 5; 6])) with [7; 5; 6].
  change (chosenHours (selection_of [5; 6; 7])) with [5; 6; 7].
  apply (Permutation_app_comm [7] [5; 6]).
Defined.

Lemma is_run_cons x y l : is_run (x :: y :: l) ↔ y = x + 1 ∧ is_run (y :: l).
Proof.
  unfold is_run. split.
  - intros Hrun. split; [by apply (Hrun 0%nat)|].
    intros i a b Ha Hb. by apply (Hrun (S i)).
  - intros [-> Hrun] [|i] a b Ha Hb; simplify_eq/=; [done|].
    by apply (Hrun i).
Qed.

Lemma is_run_run_from x l : is_run (x :: l) ↔ x :: l = run_from x (S (length l)).
Proof.
  revert x. induction l as [|y l IH]; intros x.
  - split; [done|]. intros _. by apply is_run_short.
  - rewrite is_run_cons, IH. simpl. split.
    + intros [-> Heq]. by f_equal.
    + intros [= Hy Heq]. subst y. split; [done|]. by f_equal.
Qed.

Lemma confirmed_hours_run (st : TimeSlotSelection.state) first rest :
  TimeSlotSelection.areSlotConsecutive st = true →
  sort (λ a b, TimeSlotSelection.index a - TimeSlotSelection.index b)
    (TimeSlotSelection.selectedSlots st) = first :: rest →
  sort cmp_num (chosenHours st)
  = run_from (TimeSlotSelection.index first)
      (length (TimeSlotSelection.selectedSlots st)).
Proof.
  intros Hcons Hsort.
  pose proof (sort_by_index_hours st) as Hhours. rewrite Hsort in Hhours.
  apply areSlotConsecutive_sort_run in Hcons. rewrite <- Hhours in Hcons |- *.
  simpl in Hcons |- *. apply is_run_run_from in Hcons. rewrite Hcons at 1.
  f_equal. rewrite length_map.
  change (length (first :: rest) = length (TimeSlotSelection.selectedSlots st)).
  by rewrite <- Hsort, sort_length.
Qed.

(** X4: confirming a valid selection reports the start hour and, as hours, the
    start hour and the hours right after it, as many as were chosen. *)
Theorem handleConfirmSelection_reports_run (st : TimeSlotSelection.state) :
  TimeSlotSelection.selectedSlots st ≠ [] →
  TimeSlotSelection.areSlotConsecutive st = true →
  ∃ first,
    first ∈ TimeSlotSelection.selectedSlots st
    ∧ TimeSlotSelection.handleConfirmSelection st
      = TimeSlotSelection.Returns st
          [TimeSlotSelection.OnSlotSelect (TimeSlotSelection.c_slot first)
             (TimeSlotSelection.index first)
             (run_from (TimeSlotSelection.index first)
                (length (TimeSlotSelection.selectedSlots st)))].
Proof.
  intros Hne Hcons.
  destruct (confirm_valid_selection st Hne Hcons) as (first & rest & Hsort & Hrun).
  exists first. split.
  - rewrite <- (sort_perm (λ a b, TimeSlotSelection.index a - TimeSlotSelection.index b)).
    rewrite Hsort. left.
  - rewrite Hrun. by rewrite (confirmed_hours_run st first rest Hcons Hsort).
Qed.

Lemma handleConfirmSelection_reports_run_witness :
  ∃ first,
    first ∈ TimeSlotSelection.selectedSlots (selection_of [15; 14; 16])
    ∧ TimeSlotSelection.handleConfirmSelection (selection_of [15; 14; 16])
      = TimeSlotSelection.Returns (selection_of [15; 14; 16])
          [TimeSlotSelection.OnSlotSelect (TimeSlotSelection.c_slot first)
             (TimeSlotSelection.index first)
             (run_from (TimeSlotSelection.index first)
                (length (TimeSlotSelection.selectedSlots (selection_of [15; 14; 16]))))].
Proof.
  apply (handleConfirmSelection_reports_run (selection_of [15; 14; 16])).
  - discriminate.
  - vm_compute. reflexivity.
Defined.

Lemma strictly_sorted_span x l y :
  StronglySorted Z.le (x :: l) → NoDup (x :: l) → last (x :: l) = Some y →
  Z.of_nat (length l) <= y - x
  ∧ (is_run (x :: l) ↔ y - x = Z.of_nat (length l)).
Proof.
  revert x. induction l as [|z l IH]; intros x Hs Hnd Hlast.
  - simpl in Hlast. simplify_eq. split; [simpl; lia|].
    split; [simpl; lia|]. intros _. by apply is_run_short.
  - apply StronglySorted_inv in Hs as [Hs Hx].
    apply NoDup_cons in Hnd as [Hnotin Hnd].
    apply Forall_cons in Hx as [Hxz _].
    assert (x ≠ z) by (intros ->; apply Hnotin; left).
    destruct (IH z Hs Hnd Hlast) as [Hspan Hiff].
    rewrite is_run_cons, Hiff. simpl length. split; lia.
Qed.

(** X6: a selection without a repeated hour is contiguous exactly when its
    latest hour minus its earliest hour, plus one, is the number of chosen
    slots. *)
Theorem areSlotConsecutive_iff_span (st : TimeSlotSelection.state) (lo hi : Z) :
  NoDup (chosenHours st) →
  is_minimum lo (chosenHours st) →
  is_maximum hi (chosenHours st) →
  TimeSlotSelection.areSlotConsecutive st = true
  ↔ hi - lo + 1 = Z.of_nat (length (TimeSlotSelection.selectedSlots st)).
Proof.
  intros Hnd Hlo Hhi.
  assert (chosenHours st ≠ []) as Hne.
  { intros Hnil. destruct Hlo as [Hin _]. rewrite Hnil in Hin. by apply elem_of_nil in Hin. }
  destruct (sort_ends (chosenHours st) Hne) as (lo' & hi' & Hfirst & Hlast & Hlo' & Hhi').
  rewrite (minimum_unique _ _ _ Hlo' Hlo) in Hfirst.
  rewrite (maximum_unique _ _ _ Hhi' Hhi) in Hlast.
  rewrite areSlotConsecutive_sort_run.
  pose proof (sort_sorted (chosenHours st)) as Hs.
  pose proof (sort_perm cmp_num (chosenHours st)) as Hp.
  pose proof (sort_length cmp_num (chosenHours st)) as Hlen.
  rewrite chosenHours_length in Hlen.
  destruct (sort cmp_num (chosenHours st)) as [|x l]; [done|].
  simpl in Hfirst. simplify_eq.
  assert (last (lo :: l) = Some hi) as Hl.
  { rewrite last_lookup. simpl. simpl in Hlast. by rewrite Nat.sub_0_r in Hlast. }
  assert (NoDup (lo :: l)) as Hnd' by (by rewrite Hp).
  destruct (strictly_sorted_span lo l hi Hs Hnd' Hl) as [_ Hiff].
  rewrite Hiff. simpl in Hlen. lia.
Qed.

Lemma areSlotConsecutive_iff_span_witness :
  TimeSlotSelection.areSlotConsecutive (selection_of [6; 4; 5]) = true
  ↔ 6 - 4 + 1
    = Z.of_nat (length (TimeSlotSelection.selectedSlots (selection_of [6; 4; 5]))).
Proof.
  apply (areSlotConsecutive_iff_span (selection_of [6; 4; 5]) 4 6).
  - change (chosenHours (selection_of [6; 4; 5])) with [6; 4; 5].
    repeat (apply NoDup_cons; split;
            [rewrite ?elem_of_cons, elem_of_nil; intros H; intuition discriminate|]).
    apply NoDup_nil. done.
  - change (chosenHours (selection_of [6; 4; 5])) with [6; 4; 5]. split.
    + right. left.
    + intros h Hh. repeat (apply elem_of_cons in Hh as [->|Hh]; [lia|]).
      by apply elem_of_nil in Hh.
  - change (chosenHours (selection_of [6; 4; 5])) with [6; 4; 5]. split.
    + left.
    + intros h Hh. repeat (apply elem_of_cons in Hh as [->|Hh]; [lia|]).
      by apply elem_of_nil in Hh.
Defined.

(** X1: a click on an enabled slot of the list changes whether that hour is
    chosen and nothing else about which hours are chosen: an hour that was
    not chosen is added at the end under the label of the slot, a chosen one
    is removed. *)
Theorem click_toggles_hour (st : TimeSlotSelection.state) (i : nat)
    (slotObj : TimeSlotSelection.slotObj) :
  TimeSlotSelection.slots st !! i = Some slotObj →
  TimeSlotSelection.enabled slotObj = true →
  (∀ h, h ∈ chosenHours (TimeSlotSelection.click st i)
        ↔ (h ≠ Z.of_nat i ∧ h ∈ chosenHours st)
          ∨ (h = Z.of_nat i ∧ Z.of_nat i ∉ chosenHours st))
  ∧ (Z.of_nat i ∉ chosenHours st →
     TimeSlotSelection.selectedSlots (TimeSlotSelection.click st i)
     = TimeSlotSelection.selectedSlots st
       ++ [TimeSlotSelection.Chosen (TimeSlotSelection.slot slotObj) (Z.of_nat i)])
  ∧ (Z.of_nat i ∈ chosenHours st →
     ∀ c, c ∈ TimeSlotSelection.selectedSlots (TimeSlotSelection.click st i)
          ↔ c ∈ TimeSlotSelection.selectedSlots st
            ∧ TimeSlotSelection.index c ≠ Z.of_nat i).
Proof.
  intros Hslot Hen. unfold TimeSlotSelection.click. rewrite Hslot.
  unfold TimeSlotSelection.handleSlotClick. rewrite Hen. cbn [negb]. cbv zeta.
  destruct st as [sl sel ld er]. unfold chosenHours.
  cbn [TimeSlotSelection.selectedSlots].
  destruct (existsb _ sel) eqn:Hsel;
    unfold TimeSlotSelection.setSelectedSlots;
    cbn [TimeSlotSelection.selectedSlots].
  - apply existsb_index_elem_of in Hsel. split_and!.
    + intros h. rewrite filter_index_hours. tauto.
    + done.
    + intros _ c. rewrite !list_elem_of_In, filter_In, negb_true_iff, Z.eqb_neq. done.
  - assert (Z.of_nat i ∉ List.map TimeSlotSelection.index sel) as Hnot.
    { rewrite <- existsb_index_elem_of. by rewrite Hsel. }
    split_and!; [|done..].
    intros h. rewrite List.map_app, elem_of_app. simpl.
    rewrite list_elem_of_singleton.
    destruct (decide (h = Z.of_nat i)) as [->|]; tauto.
Qed.

Lemma click_toggles_hour_witness :
  let st := TimeSlotSelection.State
              [TimeSlotSelection.SlotObj (js "12 AM") true;
               TimeSlotSelection.SlotObj (js "1 AM") true]
              [TimeSlotSelection.Chosen (js "12 AM") 0] false None in
  (∀ h, h ∈ chosenHours (TimeSlotSelection.click st 1)
        ↔ (h ≠ Z.of_nat 1 ∧ h ∈ chosenHours st)
          ∨ (h = Z.of_nat 1 ∧ Z.of_nat 1 ∉ chosenHours st))
  ∧ (Z.of_nat 1 ∉ chosenHours st →
     TimeSlotSelection.selectedSlots (TimeSlotSelection.click st 1)
     = TimeSlotSelection.selectedSlots st
       ++ [TimeSlotSelection.Chosen
             (TimeSlotSelection.slot (TimeSlotSelection.SlotObj (js "1 AM") true))
             (Z.of_nat 1)])
  ∧ (Z.of_nat 1 ∈ chosenHours st →
     ∀ c, c ∈ TimeSlotSelection.selectedSlots (TimeSlotSelection.click st 1)
          ↔ c ∈ TimeSlotSelection.selectedSlots st
            ∧ TimeSlotSelection.index c ≠ Z.of_nat 1).
Proof.
  intros st.
  apply (click_toggles_hour st 1 (TimeSlotSelection.SlotObj (js "1 AM") true));
    reflexivity.
Defined.

(** *** What the page keeps, whatever is clicked *)

Lemma click_keeps_enabled st i :
  NoDup (chosenHours st) → all_enabled st →
  NoDup (chosenHours (TimeSlotSelection.click st i))
  ∧ all_enabled (TimeSlotSelection.click st i).
Proof.
  intros Hnodup Hlabels. unfold TimeSlotSelection.click.
  destruct (TimeSlotSelection.slots st !! i) as [slotObj|] eqn:Hslot; [|done].
  unfold TimeSlotSelection.handleSlotClick.
  destruct (TimeSlotSelection.enabled slotObj) eqn:Hen; cbn [negb]; [|done].
  destruct st as [sl sel ld er]. unfold all_enabled, chosenHours in *.
  cbn [TimeSlotSelection.selectedSlots TimeSlotSelection.slots] in *.
  destruct (existsb _ sel) eqn:Hsel;
    unfold TimeSlotSelection.setSelectedSlots;
    cbn [TimeSlotSelection.selectedSlots TimeSlotSelection.slots].
  - split; [by apply filter_index_NoDup|].
    intros c Hc. apply Hlabels.
    apply list_elem_of_In, filter_In in Hc as [Hc _]. by apply list_elem_of_In.
  - assert (Z.of_nat i ∉ List.map TimeSlotSelection.index sel) as Hnot.
    { rewrite <- existsb_index_elem_of. by rewrite Hsel. }
    split.
    + rewrite List.map_app. simpl. rewrite Permutation_app_comm. simpl.
      by apply NoDup_cons.
    + intros c [Hc| ->%list_elem_of_singleton]%elem_of_app; [auto|]. eauto 10.
Qed.

Lemma click_keeps_frame st i :
  TimeSlotSelection.slots (TimeSlotSelection.click st i) = TimeSlotSelection.slots st
  ∧ TimeSlotSelection.loading (TimeSlotSelection.click st i) = TimeSlotSelection.loading st
  ∧ TimeSlotSelection.error (TimeSlotSelection.click st i) = TimeSlotSelection.error st.
Proof.
  unfold TimeSlotSelection.click.
  destruct (TimeSlotSelection.slots st !! i); [|done]. apply handleSlotClick_frame.
Qed.

(** The confirm button, when it is on the page and enabled, stands for a
    valid selection. *)
Lemma confirm_button_enabled st cards f :
  TimeSlotSelection.render st = TimeSlotSelection.SelectionView cards (Some f) →
  TimeSlotSelection.confirm_disabled f = false →
  TimeSlotSelection.selectedSlots st ≠ []
  ∧ TimeSlotSelection.areSlotConsecutive st = true.
Proof.
  unfold TimeSlotSelection.render. intros Hrender Hdis.
  destruct (TimeSlotSelection.loading st); [done|].
  assert (Some f =
    if (0 <? length (TimeSlotSelection.selectedSlots st))%nat then
      Some (TimeSlotSelection.Footer (length (TimeSlotSelection.selectedSlots st))
              (negb (TimeSlotSelection.areSlotConsecutive st))
              (negb (TimeSlotSelection.areSlotConsecutive st)))
    else None) as Hf.
  { destruct (TimeSlotSelection.error st) as [[|c m]|]; by simplify_eq. }
  destruct (Nat.ltb_spec 0 (length (TimeSlotSelection.selectedSlots st))) as [Hlen|];
    [|done].
  simplify_eq. simpl in Hdis. apply negb_false_iff in Hdis.
  split; [|done]. intros Hnil. rewrite Hnil in Hlen. simpl in Hlen. lia.
Qed.

Lemma handle_keeps_invariant e st :
  page_invariant st →
  ∃ st' calls,
    TimeSlotSelection.handle e st = TimeSlotSelection.Returns st' calls
    ∧ page_invariant st'
    ∧ Forall reports_run calls.
Proof.
  intros (Hnd & Hen & Herr). unfold TimeSlotSelection.handle.
  destruct (TimeSlotSelection.render st) as [|msg|cards foot] eqn:Hrender.
  - eexists _, _. by split_and!.
  - assert (TimeSlotSelection.selectedSlots st = []) as Hnil.
    { unfold TimeSlotSelection.render in Hrender.
      destruct (TimeSlotSelection.loading st); [done|].
      destruct Herr as [Hnone|[_ Hnil]]; [by rewrite Hnone in Hrender|done]. }
    destruct e as [i| |response|]; try (eexists _, _; by split_and!).
    eexists _, _. split; [done|]. split; [|done].
    unfold page_invariant, all_enabled, chosenHours.
    destruct st as [sl sel ld er]. simpl in Hnil. subst sel.
    destruct response as [data|]; simpl.
    + split_and!; [constructor| |by left]. intros c Hc. by apply elem_of_nil in Hc.
    + split_and!; [constructor| |by right]. intros c Hc. by apply elem_of_nil in Hc.
  - destruct e as [i| |response|].
    + eexists _, _. split; [done|].
      destruct (click_keeps_enabled st i Hnd Hen) as [Hnd' Hen'].
      destruct (click_keeps_frame st i) as (_ & _ & Herr').
      split; [|done]. split_and!; [done..|].
      rewrite Herr'. destruct Herr as [?|[Hfetch Hnil]]; [by left|].
      unfold TimeSlotSelection.render in Hrender.
      destruct (TimeSlotSelection.loading st); [done|]. by rewrite Hfetch in Hrender.
    + destruct foot as [f|]; [|eexists _, _; by split_and!].
      destruct (TimeSlotSelection.confirm_disabled f) eqn:Hdis;
        [eexists _, _; by split_and!|].
      destruct (confirm_button_enabled st cards f Hrender Hdis) as [Hne Hcons].
      destruct (confirm_valid_selection st Hne Hcons) as (first & rest & Hsort & Hrun).
      rewrite (confirmed_hours_run st first rest Hcons Hsort) in Hrun.
      assert (first ∈ TimeSlotSelection.selectedSlots st) as Hin.
      { rewrite <- (sort_perm (λ a b, TimeSlotSelection.index a - TimeSlotSelection.index b)).
        rewrite Hsort. left. }
      eexists _, _. split; [exact Hrun|]. split; [done|].
      constructor; [|done]. simpl. split.
      * destruct (Hen first Hin) as (j & so & Hj & _). lia.
      * destruct (TimeSlotSelection.selectedSlots st); [done|]. simpl. eauto.
    + eexists _, _. by split_and!.
    + eexists _, _. split; [done|]. split; [done|]. by constructor.
Qed.

Lemma mount_invariant selectedDate response :
  page_invariant (TimeSlotSelection.mount selectedDate response).
Proof.
  unfold TimeSlotSelection.mount, page_invariant, all_enabled, chosenHours.
  destruct selectedDate as [|c d]; [|destruct response as [data|]]; simpl;
    (split_and!; [constructor|intros c' Hc'; by apply elem_of_nil in Hc'|auto]).
Qed.

Lemma run_keeps_invariant events st :
  page_invariant st →
  ∃ st' calls,
    TimeSlotSelection.run events st = Some (st', calls)
    ∧ page_invariant st'
    ∧ Forall reports_run calls.
Proof.
  revert st. induction events as [|e events IH]; intros st Hinv; simpl.
  - eexists _, _. by split_and!.
  - destruct (handle_keeps_invariant e st Hinv) as (st1 & calls1 & -> & Hinv1 & Hcalls1).
    destruct (IH st1 Hinv1) as (st2 & calls2 & -> & Hinv2 & Hcalls2).
    eexists _, _. split; [done|]. split; [done|]. by apply Forall_app.
Qed.

(** X2: whatever is clicked on the slot page from the moment it is mounted, no
    handler throws, no hour is ever chosen twice, every chosen entry is an
    enabled slot of the list under its label, the only error ever shown is
    the one of a failed fetch (never a validation message), and every call
    of [onSlotSelect] reports a start hour that is not negative with that
    hour and the hours right after it. *)
Theorem slot_page_invariant (selectedDate : jsstring)
    (response : option (list TimeSlotSelection.slotObj))
    (events : list TimeSlotSelection.event) :
  ∃ st calls,
    TimeSlotSelection.run events (TimeSlotSelection.mount selectedDate response)
    = Some (st, calls)
    ∧ page_invariant st
    ∧ Forall reports_run calls.
Proof. apply run_keeps_invariant, mount_invariant. Qed.

(** X3: on a page whose state satisfies the invariant of the slot page, a
    click on the confirm button sets no error and changes nothing: either it does nothing (the button is not there or
    is disabled) or it calls [onSlotSelect] once, with a chosen entry's label
    and hour as start and, as hours, that hour and the ones after it, as many
    as are chosen, all of them enabled slots of the list. *)
Theorem confirm_click_reports_enabled_run (st st' : TimeSlotSelection.state)
    (calls : list TimeSlotSelection.call) :
  page_invariant st →
  TimeSlotSelection.handle TimeSlotSelection.ClickConfirm st
  = TimeSlotSelection.Returns st' calls →
  st' = st
  ∧ (calls = []
     ∨ ∃ first,
         first ∈ TimeSlotSelection.selectedSlots st
         ∧ calls = [TimeSlotSelection.OnSlotSelect (TimeSlotSelection.c_slot first)
                      (TimeSlotSelection.index first)
                      (run_from (TimeSlotSelection.index first)
                         (length (TimeSlotSelection.selectedSlots st)))]
         ∧ ∀ h, h ∈ run_from (TimeSlotSelection.index first)
                      (length (TimeSlotSelection.selectedSlots st)) →
             ∃ (i : nat) slotObj,
               h = Z.of_nat i
               ∧ TimeSlotSelection.slots st !! i = Some slotObj
               ∧ TimeSlotSelection.enabled slotObj = true).
Proof.
  intros (Hnd & Hen & Herr). unfold TimeSlotSelection.handle.
  destruct (TimeSlotSelection.render st) as [|msg|cards foot] eqn:Hrender;
    [intros [= <- <-]; auto..|].
  destruct foot as [f|]; [|intros [= <- <-]; auto].
  destruct (TimeSlotSelection.confirm_disabled f) eqn:Hdis; [intros [= <- <-]; auto|].
  destruct (confirm_button_enabled st cards f Hrender Hdis) as [Hne Hcons].
  destruct (confirm_valid_selection st Hne Hcons) as (first & rest & Hsort & Hrun).
  pose proof (confirmed_hours_run st first rest Hcons Hsort) as Hhours.
  rewrite Hrun, Hhours. intros [= <- <-]. split; [done|]. right.
  exists first. split_and!; [|done|].
  - rewrite <- (sort_perm (λ a b, TimeSlotSelection.index a - TimeSlotSelection.index b)).
    rewrite Hsort. left.
  - intros h Hh. rewrite <- Hhours, sort_perm in Hh.
    apply list_elem_of_fmap in Hh as (c & -> & Hc).
    destruct (Hen c Hc) as (i & so & Hi & Hso & Henabled & _). eauto.
Qed.

Lemma confirm_click_reports_enabled_run_witness :
  let st := TimeSlotSelection.State
              [TimeSlotSelection.SlotObj (js "12 AM") true;
               TimeSlotSelection.SlotObj (js "1 AM") true]
              [TimeSlotSelection.Chosen (js "1 AM") 1] false None in
  st = st
  ∧ ([TimeSlotSelection.OnSlotSelect (js "1 AM") 1 [1]] = []
     ∨ ∃ first,
         first ∈ TimeSlotSelection.selectedSlots st
         ∧ [TimeSlotSelection.OnSlotSelect (js "1 AM") 1 [1]]
           = [TimeSlotSelection.OnSlotSelect (TimeSlotSelection.c_slot first)
                (TimeSlotSelection.index first)
                (run_from (TimeSlotSelection.index first)
                   (length (TimeSlotSelection.selectedSlots st)))]
         ∧ ∀ h, h ∈ run_from (TimeSlotSelection.index first)
                      (length (TimeSlotSelection.selectedSlots st)) →
             ∃ (i : nat) slotObj,
               h = Z.of_nat i
               ∧ TimeSlotSelection.slots st !! i = Some slotObj
               ∧ TimeSlotSelection.enabled slotObj = true).
Proof.
  intros st.
  apply (confirm_click_reports_enabled_run st st
           [TimeSlotSelection.OnSlotSelect (js "1 AM") 1 [1]]).
  - split_and!.
    + apply NoDup_singleton.
    + intros c ->%list_elem_of_singleton.
      exists 1%nat, (TimeSlotSelection.SlotObj (js "1 AM") true). by split_and!.
    + by left.
  - reflexivity.
Defined.

Lemma areSlotConsecutive_ext st st' :
  TimeSlotSelection.selectedSlots st = TimeSlotSelection.selectedSlots st' →
  TimeSlotSelection.areSlotConsecutive st = TimeSlotSelection.areSlotConsecutive st'.
Proof. intros Heq. unfold TimeSlotSelection.areSlotConsecutive. by rewrite Heq. Qed.

(** X7: a refetch of the slot list leaves the selection alone and ends the
    loading state, and confirming after it makes the same calls as
    confirming before it, whatever the new list says about the chosen
    hours. *)
Theorem refetch_keeps_selection (response : option (list TimeSlotSelection.slotObj))
    (st : TimeSlotSelection.state) :
  let st' := TimeSlotSelection.fetchAvailableSlots response st in
  TimeSlotSelection.selectedSlots st' = TimeSlotSelection.selectedSlots st
  ∧ TimeSlotSelection.loading st' = false
  ∧ match TimeSlotSelection.handleConfirmSelection st with
    | TimeSlotSelection.Returns _ calls =>
        ∃ st'', TimeSlotSelection.handleConfirmSelection st'
                = TimeSlotSelection.Returns st'' calls
    | TimeSlotSelection.ThrowsTypeError =>
        TimeSlotSelection.handleConfirmSelection st' = TimeSlotSelection.ThrowsTypeError
    end.
Proof.
  cbv zeta.
  assert (TimeSlotSelection.selectedSlots (TimeSlotSelection.fetchAvailableSlots response st)
          = TimeSlotSelection.selectedSlots st) as Hsel by (by destruct response).
  split; [done|]. split; [by destruct response|].
  unfold TimeSlotSelection.handleConfirmSelection.
  rewrite Hsel, (areSlotConsecutive_ext _ st Hsel).
  destruct (length _ =? 0)%nat; [eauto|].
  destruct (negb _); [eauto|]. cbv zeta.
  destruct (sort _ _); eauto.
Qed.

(** ** More on the helpers *)

Lemma day_hours_elem h : 0 <= h < 24 → h ∈ day_hours.
Proof.
  intros Hh. unfold day_hours. apply list_elem_of_In, in_map_iff.
  exists (Z.to_nat h). split; [lia|]. apply in_seq. lia.
Qed.

(** X8: two different hours of a day are never displayed alike. *)
Theorem formatTime_injective_on_day (h1 h2 : Z) :
  0 <= h1 < 24 → 0 <= h2 < 24 →
  Helpers.formatTime h1 = Helpers.formatTime h2 → h1 = h2.
Proof.
  intros H1%day_hours_elem%list_elem_of_In H2%day_hours_elem%list_elem_of_In Heq.
  assert (displayed_apart day_hours = true) as Hcheck by (by vm_compute).
  unfold displayed_apart in Hcheck.
  rewrite forallb_forall in Hcheck. specialize (Hcheck h1 H1).
  rewrite forallb_forall in Hcheck. specialize (Hcheck h2 H2).
  rewrite (bool_decide_eq_true_2 _ Heq) in Hcheck. simpl in Hcheck.
  by apply Z.eqb_eq.
Qed.

Lemma formatTime_injective_on_day_witness : 13 = 13.
Proof.
  apply (formatTime_injective_on_day 13 13); [lia|lia|reflexivity].
Defined.

Lemma run_from_elem h start n :
  h ∈ run_from start n ↔ start <= h < start + Z.of_nat n.
Proof.
  revert start. induction n as [|n IH]; intros start; simpl.
  - rewrite elem_of_nil. lia.
  - rewrite elem_of_cons, IH. lia.
Qed.

Lemma run_from_length start n : length (run_from start n) = n.
Proof. revert start. induction n as [|n IH]; intros start; simpl; [done|]. by rewrite IH. Qed.

(** X9: for every array of hours that is not empty [formatTimeRange] shows the
    range from the least hour to the hour after the greatest one, in
    whatever order the hours come; the text is never built from a missing
    array element. *)
Theorem formatTimeRange_min_to_max (hours : list Z) :
  hours ≠ [] →
  ∃ lo hi,
    is_minimum lo hours ∧ is_maximum hi hours
    ∧ Helpers.formatTimeRange hours
      = Helpers.formatTime lo ++ js " to " ++ Helpers.formatTime (hi + 1).
Proof.
  intros Hne. unfold Helpers.formatTimeRange.
  destruct hours as [|h [|h' rest]]; [done| |].
  - exists h, h. split_and!; [| |done].
    + split; [left|]. intros x ->%list_elem_of_singleton. lia.
    + split; [left|]. intros x ->%list_elem_of_singleton. lia.
  - destruct (sort_ends (h :: h' :: rest) Hne) as (lo & hi & Hlo & Hhi & Hmin & Hmax).
    exists lo, hi. split_and!; [done..|].
    cbn [length Nat.eqb]. cbv zeta. by rewrite Hlo, Hhi.
Qed.

Lemma formatTimeRange_min_to_max_witness :
  ∃ lo hi,
    is_minimum lo [15; 14; 16] ∧ is_maximum hi [15; 14; 16]
    ∧ Helpers.formatTimeRange [15; 14; 16]
      = Helpers.formatTime lo ++ js " to " ++ Helpers.formatTime (hi + 1).
Proof.
  apply (formatTimeRange_min_to_max [15; 14; 16]). discriminate.
Defined.

(** X10: for the hours a confirmed selection reports, a start hour and the
    hours right after it, the range shown goes from the start hour to the
    start hour plus the number of hours. *)
Theorem formatTimeRange_of_run (start : Z) (n : nat) :
  Helpers.formatTimeRange (run_from start (S n))
  = Helpers.formatTime start ++ js " to "
      ++ Helpers.formatTime (start + Z.of_nat (S n)).
Proof.
  assert (run_from start (S n) ≠ []) as Hne by done.
  destruct (sort_ends _ Hne) as (lo & hi & Hlo & Hhi & [Hlo1 Hlo2] & [Hhi1 Hhi2]).
  assert (lo = start) as ->.
  { apply run_from_elem in Hlo1. specialize (Hlo2 start).
    rewrite run_from_elem in Hlo2. lia. }
  assert (hi = start + Z.of_nat n) as ->.
  { apply run_from_elem in Hhi1. specialize (Hhi2 (start + Z.of_nat n)).
    rewrite run_from_elem in Hhi2. lia. }
  unfold Helpers.formatTimeRange. rewrite run_from_length.
  destruct n as [|n].
  - reflexivity.
  - cbn [Nat.eqb]. cbv zeta. rewrite Hlo, Hhi. simpl Helpers.plus_one.
    cbn [Helpers.formatTime_read]. do 3 f_equal. lia.
Qed.

Lemma isValidEmail_shape (email : jsstring) :
  Helpers.isValidEmail email = true ↔ email_shape email.
Proof.
  unfold Helpers.isValidEmail, Helpers.test, Helpers.emailRegex, email_shape.
  cbn [Helpers.match_terms Helpers.match_term Helpers.quant Helpers.cls].
  rewrite match_email_part. split.
  - intros (l & r1 & -> & Hl & H).
    apply match_literal in H as (r2 & -> & H).
    apply match_email_part in H as (d & r3 & -> & Hd & H).
    apply match_literal in H as (r4 & -> & H).
    apply match_email_part in H as (t & r5 & -> & Ht & ->%at_end_true).
    exists l, d, t. by rewrite app_nil_r.
  - intros (l & d & t & -> & Hl & Hd & Ht).
    exists l, ([Helpers.code "@"] ++ d ++ [Helpers.code "."] ++ t).
    split_and!; [done..|].
    apply match_literal. eexists. split; [done|].
    apply match_email_part. exists d, ([Helpers.code "."] ++ t).
    split_and!; [done..|].
    apply match_literal. eexists. split; [done|].
    apply match_email_part. exists t, []. by rewrite app_nil_r.
Qed.

Lemma isValidPhone_digits (phone : jsstring) :
  Helpers.isValidPhone phone = true ↔
  length phone = 10%nat
  ∧ ∀ c, c ∈ phone → (Helpers.code "0" ≤ c ≤ Helpers.code "9")%N.
Proof.
  unfold Helpers.isValidPhone, Helpers.test, Helpers.phoneRegex.
  cbn [Helpers.match_terms Helpers.match_term Helpers.quant Helpers.cls
       Helpers.class_matches].
  rewrite match_exactly_true. split.
  - intros (a & b & -> & Hlen & Ha & ->%at_end_true). rewrite app_nil_r.
    split; [done|]. intros c Hc. by apply is_digit_range, Ha.
  - intros [Hlen Hdigits]. exists phone, []. rewrite app_nil_r.
    split_and!; [done..| |done]. intros c Hc. by apply is_digit_range, Hdigits.
Qed.

Lemma count_at_app a b : count_at (a ++ b) = (count_at a + count_at b)%nat.
Proof. unfold count_at. by rewrite List.filter_app, length_app. Qed.

Lemma count_at_email_part p : email_part p → count_at p = 0%nat.
Proof.
  intros [_ Hp]. unfold count_at. induction p as [|c p IH]; [done|].
  cbn [List.filter].
  destruct (N.eqb_spec (Helpers.code "@") c) as [<-|_].
  - destruct (Hp (Helpers.code "@")) as [_ Hne]; [left|done].
  - apply IH. intros c' Hc'. apply Hp. by right.
Qed.

(** X11: an address [isValidEmail] accepts holds exactly one [@], no whitespace
    anywhere, a [.] somewhere after the [@], and at least five characters. *)
Theorem isValidEmail_necessary (email : jsstring) :
  Helpers.isValidEmail email = true →
  count_at email = 1%nat
  ∧ (∀ c, c ∈ email → Helpers.is_whitespace c = false)
  ∧ (5 ≤ length email)%nat
  ∧ ∃ l r, email = l ++ [Helpers.code "@"] ++ r ∧ l ≠ [] ∧ Helpers.code "." ∈ r.
Proof.
  intros (l & d & t & -> & Hl & Hd & Ht)%isValidEmail_shape.
  split_and!.
  - rewrite !count_at_app, (count_at_email_part l), (count_at_email_part d),
      (count_at_email_part t) by done. reflexivity.
  - intros c. rewrite !elem_of_app, !list_elem_of_singleton.
    destruct Hl as [_ Hl], Hd as [_ Hd], Ht as [_ Ht].
    intros [?|[->|[?|[->|?]]]]; [by apply Hl|done|by apply Hd|done|by apply Ht].
  - destruct Hl as [Hl _], Hd as [Hd _], Ht as [Ht _].
    rewrite !length_app. simpl.
    destruct l; [done|]. destruct d; [done|]. destruct t; [done|]. simpl. lia.
  - exists l, (d ++ [Helpers.code "."] ++ t). split_and!; [done|by destruct Hl|].
    set_solver.
Qed.

Lemma isValidEmail_necessary_witness :
  count_at (js "a@b.co") = 1%nat
  ∧ (∀ c, c ∈ js "a@b.co" → Helpers.is_whitespace c = false)
  ∧ (5 ≤ length (js "a@b.co"))%nat
  ∧ ∃ l r, js "a@b.co" = l ++ [Helpers.code "@"] ++ r ∧ l ≠ [] ∧ Helpers.code "." ∈ r.
Proof.
  apply (isValidEmail_necessary (js "a@b.co")). vm_compute. reflexivity.
Defined.

(** ** The booking form *)

Lemma prop_get_set_eq key v o :
  BookingForm.prop_get key (BookingForm.prop_set key v o) = Some v.
Proof.
  induction o as [|[k v'] o IH]; simpl.
  - by rewrite bool_decide_eq_true_2.
  - case_bool_decide as Hk; simpl.
    + by rewrite bool_decide_eq_true_2.
    + by rewrite bool_decide_eq_false_2.
Qed.

Lemma prop_get_set_ne key key' v o :
  key ≠ key' →
  BookingForm.prop_get key' (BookingForm.prop_set key v o) = BookingForm.prop_get key' o.
Proof.
  intros Hne. induction o as [|[k v'] o IH]; simpl.
  - by rewrite bool_decide_eq_false_2.
  - case_bool_decide as Hk; simpl.
    + subst k. by rewrite !bool_decide_eq_false_2.
    + by rewrite IH.
Qed.

Lemma field_name_inj f f' : BookingForm.field_name f = BookingForm.field_name f' → f = f'.
Proof. destruct f, f'; intros H; try done; by vm_compute in H. Qed.

(** What [validateForm] leaves under the key of a field, from the value of
    that field alone. *)
Lemma field_error_value f st :
  field_error f st =
  let value := BookingForm.get_field f (BookingForm.formData st) in
  if BookingForm.is_empty_string (trim value) then Some (Some (required_message f))
  else
    match f with
    | BookingForm.FName =>
        if (length (trim value) <? 2)%nat
        then Some (Some (js "Name must be at least 2 characters")) else None
    | BookingForm.FPhone =>
        if negb (Helpers.isValidPhone (trim value))
        then Some (Some (js "Phone number must be 10 digits")) else None
    | BookingForm.FEmail =>
        if negb (Helpers.isValidEmail (trim value))
        then Some (Some (js "Please enter a valid email address")) else None
    end.
Proof.
  unfold field_error, BookingForm.validateForm. cbv zeta.
  cbn [fst BookingForm.validationErrors BookingForm.setValidationErrors].
  destruct st as [[nm ph em] ld er ve ps bt]. cbn [BookingForm.formData
    BookingForm.name BookingForm.phone BookingForm.email BookingForm.get_field].
  destruct f; cbn [BookingForm.get_field BookingForm.name BookingForm.phone
    BookingForm.email BookingForm.field_name required_message];
    destruct (BookingForm.is_empty_string (trim nm));
    destruct (length (trim nm) <? 2)%nat;
    destruct (BookingForm.is_empty_string (trim ph));
    destruct (negb (Helpers.isValidPhone (trim ph)));
    destruct (BookingForm.is_empty_string (trim em));
    destruct (negb (Helpers.isValidEmail (trim em)));
    reflexivity.
Qed.

Lemma field_error_none_iff f st :
  field_error f st = None ↔ field_valid f (BookingForm.get_field f (BookingForm.formData st)).
Proof.
  rewrite field_error_value. cbv zeta.
  set (value := BookingForm.get_field f (BookingForm.formData st)).
  destruct (trim value) as [|c t] eqn:Htrim; simpl.
  - split; [done|]. unfold field_valid. rewrite Htrim.
    destruct f; simpl.
    + lia.
    + by intros [? _].
    + intros (l & d & r & Heq & [Hl _] & _). by destruct l.
  - unfold field_valid. rewrite Htrim. destruct f.
    + simpl length. destruct (Nat.ltb_spec (S (length t)) 2); split; try done; lia.
    + rewrite <- isValidPhone_digits.
      destruct (Helpers.isValidPhone (c :: t)); simpl; split; done.
    + rewrite <- isValidEmail_shape.
      destruct (Helpers.isValidEmail (c :: t)); simpl; split; done.
Qed.

Lemma validateForm_result st :
  (BookingForm.validateForm st).2 = true
  ↔ BookingForm.validationErrors (BookingForm.validateForm st).1 = [].
Proof.
  unfold BookingForm.validateForm. cbv zeta.
  cbn [fst snd BookingForm.validationErrors BookingForm.setValidationErrors].
  rewrite Nat.eqb_eq. split.
  - intros Hlen. by apply nil_length_inv.
  - by intros ->.
Qed.

Lemma validateForm_errors_nil_iff st :
  BookingForm.validationErrors (BookingForm.validateForm st).1 = []
  ↔ ∀ f, field_error f st = None.
Proof.
  split.
  - intros Hnil f. unfold field_error. by rewrite Hnil.
  - intros Hall.
    pose proof (Hall BookingForm.FName) as Hn.
    pose proof (Hall BookingForm.FPhone) as Hp.
    pose proof (Hall BookingForm.FEmail) as He.
    rewrite field_error_value in Hn, Hp, He. cbv zeta in Hn, Hp, He.
    unfold BookingForm.validateForm. cbv zeta.
    cbn [fst BookingForm.validationErrors BookingForm.setValidationErrors].
    cbn [BookingForm.get_field] in Hn, Hp, He.
    destruct (BookingForm.is_empty_string (trim (BookingForm.name (BookingForm.formData st))));
      [done|].
    destruct (length (trim (BookingForm.name (BookingForm.formData st))) <? 2)%nat; [done|].
    destruct (BookingForm.is_empty_string (trim (BookingForm.phone (BookingForm.formData st))));
      [done|].
    destruct (negb (Helpers.isValidPhone (trim (BookingForm.phone (BookingForm.formData st)))));
      [done|].
    destruct (BookingForm.is_empty_string (trim (BookingForm.email (BookingForm.formData st))));
      [done|].
    destruct (negb (Helpers.isValidEmail (trim (BookingForm.email (BookingForm.formData st)))));
      [done|].
    done.
Qed.

(** X12: [validateForm] returns true exactly when, after trimming, the name has
    at least two characters, the phone number is ten digits and the e-mail
    address has the shape the validator asks for; exactly then it leaves no
    message at all, and it touches nothing but the messages. *)
Theorem validateForm_accepts_iff (st : BookingForm.state) :
  ((BookingForm.validateForm st).2 = true
   ↔ ∀ f, field_valid f (BookingForm.get_field f (BookingForm.formData st)))
  ∧ ((BookingForm.validateForm st).2 = true
     ↔ BookingForm.validationErrors (BookingForm.validateForm st).1 = [])
  ∧ (BookingForm.validateForm st).1
    = BookingForm.setValidationErrors
        (BookingForm.validationErrors (BookingForm.validateForm st).1) st.
Proof.
  split_and!.
  - rewrite validateForm_result, validateForm_errors_nil_iff.
    split; intros H f; by apply field_error_none_iff.
  - apply validateForm_result.
  - reflexivity.
Qed.

(** X13: the message [validateForm] leaves for a field depends on the value of
    that field alone: there is none exactly when the field is valid, and it
    is the required-field message exactly when the field is empty after
    trimming. *)
Theorem validateForm_fields_independent (f : BookingForm.field)
    (st st' : BookingForm.state) :
  BookingForm.get_field f (BookingForm.formData st)
  = BookingForm.get_field f (BookingForm.formData st') →
  field_error f st = field_error f st'
  ∧ (field_error f st = None
     ↔ field_valid f (BookingForm.get_field f (BookingForm.formData st)))
  ∧ (field_error f st = Some (Some (required_message f))
     ↔ trim (BookingForm.get_field f (BookingForm.formData st)) = []).
Proof.
  intros Heq. split_and!.
  - by rewrite !field_error_value, Heq.
  - apply field_error_none_iff.
  - rewrite field_error_value. cbv zeta.
    destruct (trim (BookingForm.get_field f (BookingForm.formData st))) as [|c t];
      simpl; [done|].
    split; [|done]. destruct f.
    + destruct (_ <? _)%nat; [|done]. intros H. by vm_compute in H.
    + destruct (negb _); [|done]. intros H. by vm_compute in H.
    + destruct (negb _); [|done]. intros H. by vm_compute in H.
Qed.

Lemma validateForm_fields_independent_witness :
  field_error BookingForm.FPhone sample_form
  = field_error BookingForm.FPhone
      (BookingForm.setFormData
         (BookingForm.FormData [] (js "9876543210") (js "nobody")) sample_form)
  ∧ (field_error BookingForm.FPhone sample_form = None
     ↔ field_valid BookingForm.FPhone
         (BookingForm.get_field BookingForm.FPhone (BookingForm.formData sample_form)))
  ∧ (field_error BookingForm.FPhone sample_form
     = Some (Some (required_message BookingForm.FPhone))
     ↔ trim (BookingForm.get_field BookingForm.FPhone (BookingForm.formData sample_form))
       = []).
Proof.
  apply (validateForm_fields_independent BookingForm.FPhone sample_form
           (BookingForm.setFormData
              (BookingForm.FormData [] (js "9876543210") (js "nobody")) sample_form)).
  reflexivity.
Defined.

Lemma prop_set_keys key v o :
  truthy_prop_present key o →
  List.map fst (BookingForm.prop_set key v o) = List.map fst o.
Proof.
  unfold truthy_prop_present. induction o as [|[k v'] o IH]; simpl; [done|].
  destruct (bool_decide (k = key)); simpl; [done|].
  intros Hpresent. by rewrite IH.
Qed.

(** X15: typing into a field stores the value in that field and in no other,
    and makes the message of that field, if there was one, [null]; the
    messages of the other fields, the keys of the messages and their order,
    and the rest of the form stay as they were. *)
Theorem handleInputChange_clears_own_error (f : BookingForm.field)
    (value : jsstring) (st : BookingForm.state) :
  let st' := BookingForm.handleInputChange f value st in
  BookingForm.get_field f (BookingForm.formData st') = value
  ∧ (∀ f', f' ≠ f →
       BookingForm.get_field f' (BookingForm.formData st')
       = BookingForm.get_field f' (BookingForm.formData st))
  ∧ BookingForm.truthy_prop
      (BookingForm.prop_get (BookingForm.field_name f) (BookingForm.validationErrors st'))
    = false
  ∧ (∀ key, key ≠ BookingForm.field_name f →
       BookingForm.prop_get key (BookingForm.validationErrors st')
       = BookingForm.prop_get key (BookingForm.validationErrors st))
  ∧ List.map fst (BookingForm.validationErrors st')
    = List.map fst (BookingForm.validationErrors st)
  ∧ BookingForm.loading st' = BookingForm.loading st
  ∧ BookingForm.error st' = BookingForm.error st
  ∧ BookingForm.paymentStep st' = BookingForm.paymentStep st.
Proof.
  cbv zeta. unfold BookingForm.handleInputChange. cbv zeta.
  destruct (BookingForm.truthy_prop _) eqn:Htruthy;
    cbn [BookingForm.formData BookingForm.validationErrors BookingForm.loading
         BookingForm.error BookingForm.paymentStep BookingForm.setFormData
         BookingForm.setValidationErrors].
  - split_and!; try done.
    + by destruct f.
    + intros f' Hne. by destruct f, f'.
    + by rewrite prop_get_set_eq.
    + intros key Hne. by rewrite prop_get_set_ne.
    + by apply prop_set_keys.
  - split_and!; try done.
    + by destruct f.
    + intros f' Hne. by destruct f, f'.
Qed.

Lemma or_else_nonempty a b : b ≠ [] → BookingForm.or_else a b ≠ [].
Proof. intros Hb. by destruct a as [[|c m]|]. Qed.

Lemma submit_error_message_nonempty JSON_parse err :
  BookingForm.submit_error_message JSON_parse err ≠ [].
Proof.
  unfold BookingForm.submit_error_message.
  destruct (BookingForm.message err) as [[|c m]|]; [by vm_compute|
    |by vm_compute].
  destruct (JSON_parse (c :: m)); [|done]. by do 2 apply or_else_nonempty.
Qed.

Lemma submit_failed_idle JSON_parse err st :
  form_idle (BookingForm.submit_failed JSON_parse err st)
  ∧ shows_error (BookingForm.submit_failed JSON_parse err st).
Proof.
  split; [done|]. unfold shows_error. simpl.
  pose proof (submit_error_message_nonempty JSON_parse err) as Hne.
  destruct (BookingForm.submit_error_message JSON_parse err) as [|c m]; [done|]. eauto.
Qed.

(** X16: [handleSubmit] on an invalid form only stores the messages and asks
    nothing of anyone.  On a valid form it asks once for a payment order,
    with the trimmed fields and the ground, date, start hour and hours of
    the wizard; it opens the payment widget exactly when the order resolved
    with a truthy [success], an order and a booking, and then the form stays
    loading on its processing step without an error; in every other case
    the form is back on its form step, not loading, and shows an error.  It
    never completes the booking itself. *)
Theorem handleSubmit_outcomes (JSON_parse : jsstring → option BookingForm.errorDataT)
    (engine_type_error : BookingForm.jserror) (p : BookingForm.props)
    (order : BookingForm.awaited BookingForm.orderDataT) (st : BookingForm.state) :
  let st' := (BookingForm.handleSubmit JSON_parse engine_type_error p order st).1 in
  let requests := (BookingForm.handleSubmit JSON_parse engine_type_error p order st).2 in
  let opened :=
    ∃ od o b, order = BookingForm.Resolved od
      ∧ BookingForm.truthy (BookingForm.o_success od) = true
      ∧ BookingForm.o_order od = Some o ∧ BookingForm.o_booking od = Some b in
  List.filter is_from_handler requests = []
  ∧ if (BookingForm.validateForm st).2 then
      head requests
      = Some (BookingForm.CreatePaymentOrder
                (BookingForm.BookingData
                   (trim (BookingForm.name (BookingForm.formData st)))
                   (trim (BookingForm.phone (BookingForm.formData st)))
                   (trim (BookingForm.email (BookingForm.formData st)))
                   (CustomerBooking.ground_id (BookingForm.selectedGround p))
                   (BookingForm.selectedDate p)
                   (CustomerBooking.hour (BookingForm.selectedSlot p))
                   (CustomerBooking.hours (BookingForm.selectedSlot p))))
      ∧ length (List.filter is_create requests) = 1%nat
      ∧ (List.filter is_checkout requests ≠ [] ↔ opened)
      ∧ (opened →
         BookingForm.paymentStep st' = BookingForm.Processing
         ∧ BookingForm.loading st' = true
         ∧ BookingForm.error st' = None)
      ∧ (¬ opened → form_idle st' ∧ shows_error st')
    else
      st' = (BookingForm.validateForm st).1 ∧ requests = [].
Proof.
  cbv zeta. unfold BookingForm.handleSubmit.
  destruct (BookingForm.validateForm st) as [st1 valid] eqn:Hvalidate.
  cbn [snd]. destruct valid; cbn [negb]; [|done]. cbv zeta.
  destruct order as [od|err].
  2:{ cbn [fst snd]. split_and!; try done.
      - split; [done|]. by intros (od & o & b & ? & _).
      - by intros (od & o & b & ? & _).
      - intros _. apply submit_failed_idle. }
  destruct (BookingForm.truthy (BookingForm.o_success od)) eqn:Htruthy; cbn [negb].
  2:{ cbn [fst snd]. split_and!; try done.
      - split; [done|]. intros (od' & o & b & [= <-] & ? & _). congruence.
      - intros (od' & o & b & [= <-] & ? & _). congruence.
      - intros _. apply submit_failed_idle. }
  destruct (BookingForm.o_order od) as [o|] eqn:Ho;
    destruct (BookingForm.o_booking od) as [b|] eqn:Hb;
    try destruct (BookingForm.ob_totalAmount b) as [total|]; cbn [fst snd].
  - split_and!; try done.
    + split; [eauto 10|done].
    + intros Hnot. destruct Hnot. eauto 10.
  - split_and!; try done.
    + split; [eauto 10|done].
    + intros Hnot. destruct Hnot. eauto 10.
  - split_and!; try done.
    + split; [done|]. intros (od' & o' & b & [= <-] & _ & _ & ?). congruence.
    + intros (od' & o' & b & [= <-] & _ & _ & ?). congruence.
    + intros _. apply submit_failed_idle.
  - split_and!; try done.
    + split; [done|]. intros (od' & o' & b' & [= <-] & _ & ? & _). congruence.
    + intros (od' & o' & b' & [= <-] & _ & ? & _). congruence.
    + intros _. apply submit_failed_idle.
  - split_and!; try done.
    + split; [done|]. intros (od' & o' & b' & [= <-] & _ & ? & _). congruence.
    + intros (od' & o' & b' & [= <-] & _ & ? & _). congruence.
    + intros _. apply submit_failed_idle.
  - split_and!; try done.
    + split; [done|]. intros (od' & o' & b' & [= <-] & _ & ? & _). congruence.
    + intros (od' & o' & b' & [= <-] & _ & ? & _). congruence.
    + intros _. apply submit_failed_idle.
Qed.

(** X17: when the user closes the payment widget or a payment fails, the form
    is back on its form step, not loading, the failure is reported once to
    the API before anything else, and the booking is never completed.  On a
    closed widget the pending booking is cancelled exactly when reporting the
    failure went through, and the cancelled message is shown exactly when the
    cancellation went through too; otherwise the error stays as it was.  A
    failed payment always shows an error and never cancels the booking. *)
Theorem payment_not_completed (orderBookingId : Z) (err : BookingForm.razorpayError)
    (failureAck cancelAck : BookingForm.awaited unit) (st : BookingForm.state) :
  let dismissed := BookingForm.ondismiss orderBookingId failureAck cancelAck st in
  let failed := BookingForm.payment_failed orderBookingId err failureAck st in
  (form_idle dismissed.1
   ∧ head dismissed.2
     = Some (BookingForm.HandlePaymentFailure orderBookingId
               (BookingForm.RazorpayError (Some (js "Payment cancelled by user")) None))
   ∧ length (List.filter is_record_failure dismissed.2) = 1%nat
   ∧ List.filter is_from_handler dismissed.2 = []
   ∧ (BookingForm.CancelBooking orderBookingId ∈ dismissed.2
      ↔ ∃ u, failureAck = BookingForm.Resolved u)
   ∧ ((∃ u u', failureAck = BookingForm.Resolved u ∧ cancelAck = BookingForm.Resolved u') →
      BookingForm.error dismissed.1
      = Some (js "Payment was cancelled. The slot is still available for booking."))
   ∧ (¬ (∃ u u', failureAck = BookingForm.Resolved u ∧ cancelAck = BookingForm.Resolved u') →
      BookingForm.error dismissed.1 = BookingForm.error st))
  ∧ (form_idle failed.1
     ∧ shows_error failed.1
     ∧ head failed.2 = Some (BookingForm.HandlePaymentFailure orderBookingId err)
     ∧ length (List.filter is_record_failure failed.2) = 1%nat
     ∧ List.filter is_from_handler failed.2 = []
     ∧ List.filter is_cancel failed.2 = []).
Proof.
  cbv zeta. split.
  - unfold BookingForm.ondismiss. cbv zeta.
    destruct failureAck as [u|e]; [destruct cancelAck as [u'|e']|]; cbn [fst snd];
      (split_and!; try done).
    + split; [eauto|]. intros _. rewrite !elem_of_cons. auto.
    + intros Hnot. destruct Hnot. eauto.
    + split; [eauto|]. intros _. rewrite !elem_of_cons. auto.
    + by intros (? & ? & _ & ?).
    + split; [|by intros [? ?]].
      rewrite !elem_of_cons, elem_of_nil. intros [?|[?|[]]]; done.
    + by intros (? & ? & ? & _).
  - unfold BookingForm.payment_failed. cbv zeta. cbn [fst snd].
    split_and!; try done.
    + unfold shows_error. simpl. eauto.
    + by destruct failureAck.
    + by destruct failureAck.
    + by destruct failureAck.
Qed.

(** ** The booking flow *)








(** The callback of the payment widget arriving after the back button of
    the form: the confirmation is stored on step 3, and the ground page and
    the confirmation are both rendered. *)
Example late_payment_callback :
  let w :=
    BookingFlow.run
      [BookingFlow.ClickDate (DateSelection.DateObj (js "2026-02-10") true);
       BookingFlow.SlotPage
         (TimeSlotSelection.State [] [TimeSlotSelection.Chosen (js "slot") 12] false None)
         TimeSlotSelection.ClickConfirm;
       BookingFlow.ClickGround (CustomerBooking.Ground 1 (js "G1") true 1200);
       BookingFlow.FormBack;
       BookingFlow.PaymentSucceeded 7 sample_response
         (BookingForm.Resolved
            (BookingForm.VerifyResult (BookingForm.JBool true) (Some sample_booking)))
         sample_form]
      CustomerBooking.initial in
  CustomerBooking.currentStep w = 3
  ∧ CustomerBooking.bookingConfirmation w = Some sample_booking
  ∧ CustomerBooking.render w
    = [CustomerBooking.GroundSelectionView; CustomerBooking.ConfirmationView].
Proof. by vm_compute. Qed.

Lemma step_confirmation e w b :
  CustomerBooking.bookingConfirmation (BookingFlow.step e w) = Some b →
  CustomerBooking.bookingConfirmation w = Some b ∨ verified_payment b e.
Proof.
  destruct e as [d|sel e|g| | |id response verified form|]; simpl.
  - destruct (_ =? _); [|auto]. unfold DateSelection.handleDateClick.
    destruct (DateSelection.enabled d); simpl; auto.
  - destruct (_ =? _); [|auto].
    destruct (TimeSlotSelection.handle e sel); [|auto].
    rewrite on_slot_calls_no_confirmation. auto.
  - destruct (_ =? _); [|auto]. unfold GroundSelection.handleGroundClick.
    destruct (CustomerBooking.available g); simpl; auto.
  - destruct (_ =? _); simpl; auto.
  - destruct (BookingFlow.shows_form w); simpl; auto.
  - unfold BookingForm.payment_succeeded, BookingForm.handler.
    destruct verified as [r|err]; [|simpl; auto].
    destruct (BookingForm.truthy (BookingForm.success r)) eqn:Htruthy; [|simpl; auto].
    simpl. intros Hb. right. unfold verified_payment. eauto 10.
  - destruct (BookingFlow.shows_confirmation w); simpl; [done|auto].
Qed.

(** X19: the wizard stores a confirmation, and so renders the confirmation
    page, only if the payment widget reported a payment that
    [verifyPayment] confirmed with a truthy [success] and with that very
    booking. *)
Theorem confirmation_only_after_verified_payment
    (events : list BookingFlow.event) (b : CustomerBooking.booking) :
  CustomerBooking.bookingConfirmation
    (BookingFlow.run events CustomerBooking.initial) = Some b →
  ∃ e, e ∈ events ∧ verified_payment b e.
Proof.
  assert (∀ w, CustomerBooking.bookingConfirmation (BookingFlow.run events w) = Some b →
               CustomerBooking.bookingConfirmation w = Some b
               ∨ ∃ e, e ∈ events ∧ verified_payment b e) as Hgen.
  { induction events as [|e events IH]; intros w; simpl; [auto|].
    intros Hb. destruct (IH _ Hb) as [Hstep|(e' & Hin & Hv)].
    - destruct (step_confirmation e w b Hstep) as [?|Hv]; [auto|].
      right. exists e. split; [left|done].
    - right. exists e'. split; [by right|done]. }
  intros Hb. by destruct (Hgen _ Hb) as [?|?].
Qed.

Lemma confirmation_only_after_verified_payment_witness :
  ∃ e,
    e ∈ [BookingFlow.ClickDate (DateSelection.DateObj (js "2026-02-10") true);
         BookingFlow.SlotPage
           (TimeSlotSelection.State [] [TimeSlotSelection.Chosen (js "slot") 12] false None)
           TimeSlotSelection.ClickConfirm;
         BookingFlow.ClickGround (CustomerBooking.Ground 1 (js "G1") true 1200);
         BookingFlow.PaymentSucceeded 7 sample_response
           (BookingForm.Resolved
              (BookingForm.VerifyResult (BookingForm.JBool true) (Some sample_booking)))
           sample_form]
    ∧ verified_payment sample_booking e.
Proof.
  apply (confirmation_only_after_verified_payment
           [BookingFlow.ClickDate (DateSelection.DateObj (js "2026-02-10") true);
            BookingFlow.SlotPage
              (TimeSlotSelection.State [] [TimeSlotSelection.Chosen (js "slot") 12] false None)
              TimeSlotSelection.ClickConfirm;
            BookingFlow.ClickGround (CustomerBooking.Ground 1 (js "G1") true 1200);
            BookingFlow.PaymentSucceeded 7 sample_response
              (BookingForm.Resolved
                 (BookingForm.VerifyResult (BookingForm.JBool true) (Some sample_booking)))
              sample_form]
           sample_booking).
  vm_compute. reflexivity.
Defined.

(** ** The admin session *)

Lemma number_to_string_nonempty n : Helpers.number_to_string n ≠ [].
Proof.
  unfold Helpers.number_to_string.
  by destruct (Z.to_int n) as [d|d]; destruct d.
Qed.

(** [String(v)] of a truthy value is empty only for an object or array. *)
Lemma to_string_truthy v :
  AdminApi.truthy_value v = true →
  (∀ text, v ≠ AdminApi.Object text) →
  AdminApi.to_string v ≠ [].
Proof.
  destruct v as [| |[|]|n|s|text]; simpl; try done.
  - intros _ _. apply number_to_string_nonempty.
  - intros Hs _ ->. by rewrite bool_decide_eq_true_2 in Hs.
  - intros _ Hobj. by destruct (Hobj text).
Qed.

(** X20: when the response is ok, [success] is truthy and the token is
    truthy, [adminLogin] stores [String(token)] under [adminToken] and
    returns the body; the admin then counts as logged in, and the protected
    route shows its children, exactly when that string is not empty, which
    is so for every truthy token that is not an object or array. The storage
    differs from what it was only in that case: after a rejection, a [null]
    body, a response that is not ok, a falsy [success], a missing [data] or
    a falsy token it is exactly as before, so a failed attempt neither logs
    in nor logs out. No other key is ever touched. A response that is not
    ok throws [data.message || 'Login failed']. *)
Theorem adminLogin_stores_token_only_on_success (r : AdminApi.loginResponse)
    (s : AdminApi.storage) :
  let s' := (AdminApi.adminLogin r s).1 in
  let result := (AdminApi.adminLogin r s).2 in
  (∀ data token,
     r = AdminApi.Responded true (Some data) →
     AdminApi.truthy_value (AdminApi.login_success data) = true →
     AdminApi.login_data data = Some token →
     AdminApi.truthy_value token = true →
     s' = <[AdminApi.adminToken := AdminApi.to_string token]> s
     ∧ AdminApi.getAdminToken s' = Some (AdminApi.to_string token)
     ∧ result = AdminApi.LoginReturns (Some data)
     ∧ (AdminApi.isAdminLoggedIn s' = true ↔ AdminApi.to_string token ≠ [])
     ∧ (AdminApi.ProtectedRoute s' = AdminApi.Children ↔ AdminApi.to_string token ≠ [])
     ∧ ((∀ text, token ≠ AdminApi.Object text) →
        AdminApi.isAdminLoggedIn s' = true
        ∧ AdminApi.ProtectedRoute s' = AdminApi.Children))
  ∧ (s' ≠ s →
     ∃ data token,
       r = AdminApi.Responded true (Some data)
       ∧ AdminApi.truthy_value (AdminApi.login_success data) = true
       ∧ AdminApi.login_data data = Some token
       ∧ AdminApi.truthy_value token = true)
  ∧ (∀ key, key ≠ AdminApi.adminToken → s' !! key = s !! key)
  ∧ (∀ data, r = AdminApi.Responded false (Some data) →
       result = AdminApi.LoginThrows
                  (if AdminApi.truthy_value (AdminApi.login_message data)
                   then AdminApi.to_string (AdminApi.login_message data)
                   else js "Login failed")
       ∧ s' = s).
Proof.
  cbv zeta. split_and!.
  - intros data token -> Hsuccess Hdata Htoken.
    unfold AdminApi.adminLogin. cbn [negb]. rewrite Hsuccess, Hdata, Htoken.
    cbn [fst snd].
    assert (AdminApi.getAdminToken
              (AdminApi.setAdminToken (AdminApi.to_string token) s)
            = Some (AdminApi.to_string token)) as Hstored by apply lookup_insert_eq.
    assert (AdminApi.isAdminLoggedIn
              (AdminApi.setAdminToken (AdminApi.to_string token) s) = true
            ↔ AdminApi.to_string token ≠ []) as Hlogged.
    { unfold AdminApi.isAdminLoggedIn. rewrite Hstored.
      by destruct (AdminApi.to_string token). }
    assert (AdminApi.ProtectedRoute
              (AdminApi.setAdminToken (AdminApi.to_string token) s) = AdminApi.Children
            ↔ AdminApi.to_string token ≠ []) as Hroute.
    { rewrite <- Hlogged. unfold AdminApi.ProtectedRoute.
      by destruct (AdminApi.isAdminLoggedIn _). }
    split_and!; [done..|].
    intros Hobj. pose proof (to_string_truthy token Htoken Hobj) as Htext.
    split; [by apply Hlogged|by apply Hroute].
  - unfold AdminApi.adminLogin.
    destruct r as [ok [data|]|e]; [|done..].
    destruct ok; cbn [negb]; [|done].
    destruct (AdminApi.truthy_value (AdminApi.login_success data)) eqn:Hsuccess; [|done].
    destruct (AdminApi.login_data data) as [token|] eqn:Hdata; [|done].
    destruct (AdminApi.truthy_value token) eqn:Htoken; [|done].
    intros _. by exists data, token.
  - intros key Hne. unfold AdminApi.adminLogin.
    destruct r as [ok [data|]|e]; [|done..].
    destruct (negb ok); [done|].
    destruct (AdminApi.truthy_value (AdminApi.login_success data)); [|done].
    destruct (AdminApi.login_data data) as [token|]; [|done].
    destruct (AdminApi.truthy_value token); [|done].
    by apply lookup_insert_ne.
  - by intros data ->.
Qed.

(** A login with the token [abc], and one whose token is the empty array:
    the token is stored as the empty string and the admin is not logged
    in. *)
Example adminLogin_examples :
  let body token :=
    Some (AdminApi.LoginData AdminApi.Undefined (AdminApi.Boolean true) (Some token)) in
  let login token := AdminApi.adminLogin (AdminApi.Responded true (body token)) ∅ in
  AdminApi.getAdminToken (login (AdminApi.Str (js "abc"))).1 = Some (js "abc")
  ∧ (login (AdminApi.Str (js "abc"))).2
    = AdminApi.LoginReturns (body (AdminApi.Str (js "abc")))
  ∧ AdminApi.isAdminLoggedIn (login (AdminApi.Str (js "abc"))).1 = true
  ∧ AdminApi.getAdminToken (login (AdminApi.Object [])).1 = Some []
  ∧ AdminApi.isAdminLoggedIn (login (AdminApi.Object [])).1 = false.
Proof. by vm_compute. Qed.

(** X21: after [adminLogout] the admin is not logged in, the protected route
    redirects to the login page and the [Authorization] header reads
    [Bearer null]; the other keys of the storage are untouched.  In general
    the protected route shows its children exactly when the stored token is
    a non-empty string. *)
Theorem adminLogout_logs_out (s : AdminApi.storage) :
  AdminApi.isAdminLoggedIn (AdminApi.adminLogout s) = false
  ∧ AdminApi.ProtectedRoute (AdminApi.adminLogout s)
    = AdminApi.NavigateTo (js "/admin/login")
  ∧ AdminApi.authorization (AdminApi.adminLogout s) = js "Bearer null"
  ∧ (∀ key, key ≠ AdminApi.adminToken → AdminApi.adminLogout s !! key = s !! key)
  ∧ (AdminApi.ProtectedRoute s = AdminApi.Children
     ↔ ∃ c t, s !! AdminApi.adminToken = Some (c :: t)).
Proof.
  assert (AdminApi.getAdminToken (AdminApi.adminLogout s) = None) as Hnone
    by apply lookup_delete_eq.
  unfold AdminApi.ProtectedRoute, AdminApi.isAdminLoggedIn, AdminApi.authorization.
  rewrite Hnone. split_and!; [done..| |].
  - intros key Hne. by apply lookup_delete_ne.
  - unfold AdminApi.getAdminToken.
    destruct (s !! AdminApi.adminToken) as [[|c t]|]; simpl.
    + split; [done|]. by intros (? & ? & ?).
    + split; [eauto|done].
    + split; [done|]. by intros (? & ? & ?).
Qed.

(** ** Trimming *)

Lemma trimStart_blank a s : blank a → trimStart (a ++ s) = trimStart s.
Proof.
  intros Ha. induction a as [|c a IH]; simpl; [done|].
  rewrite (Ha c) by left. apply IH. intros c' Hc'. apply Ha. by right.
Qed.

Lemma trimStart_blank_nil a : blank a → trimStart a = [].
Proof. intros Ha. rewrite <- (app_nil_r a). by rewrite trimStart_blank. Qed.

Lemma trimStart_app s b :
  trimStart (s ++ b) = if decide (trimStart s = []) then trimStart b else trimStart s ++ b.
Proof.
  induction s as [|c s IH]; cbn [trimStart app].
  - by rewrite decide_True.
  - destruct (Helpers.is_whitespace c); [done|]. by rewrite decide_False.
Qed.

Lemma trimEnd_blank s b : blank b → trimEnd (s ++ b) = trimEnd s.
Proof.
  intros Hb. unfold trimEnd. rewrite rev_app_distr, trimStart_blank; [done|].
  intros c Hc. apply Hb. by apply list_elem_of_In, in_rev, list_elem_of_In.
Qed.

Lemma trimEnd_blank_nil b : blank b → trimEnd b = [].
Proof. intros Hb. rewrite <- (app_nil_l b). by rewrite trimEnd_blank. Qed.

(** Whitespace around a value does not survive trimming. *)
Lemma trim_padding a s b : blank a → blank b → trim (a ++ s ++ b) = trim s.
Proof.
  intros Ha Hb. unfold trim. rewrite trimStart_blank by done.
  rewrite trimStart_app. case_decide as Hs.
  - rewrite Hs, trimStart_blank_nil by done. done.
  - by rewrite trimEnd_blank.
Qed.

Lemma padded_field f a b st f' :
  blank a → blank b →
  trim (BookingForm.get_field f' (BookingForm.formData (padded f a b st)))
  = trim (BookingForm.get_field f' (BookingForm.formData st)).
Proof.
  intros Ha Hb. unfold padded. cbn [BookingForm.formData BookingForm.setFormData].
  destruct f, f'; simpl; try done; by apply trim_padding.
Qed.

Lemma validateForm_trimmed st st' :
  (∀ f, trim (BookingForm.get_field f (BookingForm.formData st'))
        = trim (BookingForm.get_field f (BookingForm.formData st))) →
  BookingForm.validationErrors (BookingForm.validateForm st').1
  = BookingForm.validationErrors (BookingForm.validateForm st).1
  ∧ (BookingForm.validateForm st').2 = (BookingForm.validateForm st).2.
Proof.
  intros Htrim.
  pose proof (Htrim BookingForm.FName) as Hn.
  pose proof (Htrim BookingForm.FPhone) as Hp.
  pose proof (Htrim BookingForm.FEmail) as He.
  cbn [BookingForm.get_field] in Hn, Hp, He.
  unfold BookingForm.validateForm. cbv zeta.
  cbn [fst snd BookingForm.validationErrors BookingForm.setValidationErrors].
  by rewrite Hn, Hp, He.
Qed.

(** X14: whitespace typed before or after the value of a field changes nothing
    of what the form does with it: [validateForm] leaves the same messages
    and gives the same answer, and [handleSubmit] makes the same requests,
    with the same trimmed values in the order. *)
Theorem form_ignores_padding (JSON_parse : jsstring → option BookingForm.errorDataT)
    (engine_type_error : BookingForm.jserror) (p : BookingForm.props)
    (order : BookingForm.awaited BookingForm.orderDataT)
    (f : BookingForm.field) (before after : jsstring) (st : BookingForm.state) :
  blank before → blank after →
  BookingForm.validationErrors (BookingForm.validateForm (padded f before after st)).1
  = BookingForm.validationErrors (BookingForm.validateForm st).1
  ∧ (BookingForm.validateForm (padded f before after st)).2
    = (BookingForm.validateForm st).2
  ∧ (BookingForm.handleSubmit JSON_parse engine_type_error p order
       (padded f before after st)).2
    = (BookingForm.handleSubmit JSON_parse engine_type_error p order st).2.
Proof.
  intros Ha Hb.
  destruct (validateForm_trimmed st (padded f before after st)) as [Herrors Hvalid].
  { intros f'. by apply padded_field. }
  split_and!; [done..|].
  unfold BookingForm.handleSubmit.
  destruct (BookingForm.validateForm (padded f before after st)) as [st1' valid'] eqn:Hv'.
  destruct (BookingForm.validateForm st) as [st1 valid] eqn:Hv.
  simpl in Hvalid. subst valid'. destruct valid; cbn [negb]; [|done]. cbv zeta.
  pose proof (padded_field f before after st BookingForm.FName Ha Hb) as Hn.
  pose proof (padded_field f before after st BookingForm.FPhone Ha Hb) as Hp.
  pose proof (padded_field f before after st BookingForm.FEmail Ha Hb) as He.
  cbn [BookingForm.get_field] in Hn, Hp, He. rewrite Hn, Hp, He.
  destruct order as [od|err]; [|done].
  destruct (negb _); [done|].
  destruct (BookingForm.o_booking od) as [b|];
    [destruct (BookingForm.ob_totalAmount b)|];
    by destruct (BookingForm.o_order od).
Qed.

Lemma form_ignores_padding_witness :
  BookingForm.validationErrors
    (BookingForm.validateForm (padded BookingForm.FPhone (js " ") (js "  ") sample_form)).1
  = BookingForm.validationErrors (BookingForm.validateForm sample_form).1
  ∧ (BookingForm.validateForm (padded BookingForm.FPhone (js " ") (js "  ") sample_form)).2
    = (BookingForm.validateForm sample_form).2
  ∧ (BookingForm.handleSubmit (λ _, None) (BookingForm.JsError None)
       (BookingForm.Props (js "2026-02-10")
          (CustomerBooking.SlotSelection (js "slot") 12 [12; 13])
          (CustomerBooking.Ground 1 (js "G1") true 1200))
       (BookingForm.Rejected (BookingForm.JsError None))
       (padded BookingForm.FPhone (js " ") (js "  ") sample_form)).2
    = (BookingForm.handleSubmit (λ _, None) (BookingForm.JsError None)
         (BookingForm.Props (js "2026-02-10")
            (CustomerBooking.SlotSelection (js "slot") 12 [12; 13])
            (CustomerBooking.Ground 1 (js "G1") true 1200))
         (BookingForm.Rejected (BookingForm.JsError None)) sample_form).2.
Proof.
  apply (form_ignores_padding (λ _, None) (BookingForm.JsError None)
           (BookingForm.Props (js "2026-02-10")
              (CustomerBooking.SlotSelection (js "slot") 12 [12; 13])
              (CustomerBooking.Ground 1 (js "G1") true 1200))
           (BookingForm.Rejected (BookingForm.JsError None))
           BookingForm.FPhone (js " ") (js "  ") sample_form).
  - intros c Hc. vm_compute in Hc. apply list_elem_of_singleton in Hc as ->. reflexivity.
  - intros c Hc. vm_compute in Hc.
    repeat (apply elem_of_cons in Hc as [->|Hc]; [reflexivity|]).
    by apply elem_of_nil in Hc.
Defined.

(** ** Editing the pricing of a ground *)

Lemma type_all_frame groundId typed st :
  AdminDashboard.editingRow (AdminDashboard.type_all groundId typed st)
  = AdminDashboard.editingRow st
  ∧ (∀ g, g ≠ groundId →
       AdminDashboard.pricingEdit (AdminDashboard.type_all groundId typed st) !! g
       = AdminDashboard.pricingEdit st !! g).
Proof.
  revert st. induction typed as [|[k v] typed IH]; intros st; simpl; [done|].
  destruct (IH (AdminDashboard.handlePricingChange groundId k v st)) as [Hrow Hother].
  split; [by rewrite Hrow|].
  intros g Hne. rewrite (Hother g Hne). simpl. by apply lookup_insert_ne.
Qed.

(** X23: typing a price shows that value in that input and leaves the inputs of
    the other keys and of the other grounds as they were. *)
Theorem handlePricingChange_shows_value (groundId : Z) (k : AdminDashboard.priceKey)
    (value : BookingForm.jsval) (st : AdminDashboard.state) :
  let st' := AdminDashboard.handlePricingChange groundId k value st in
  AdminDashboard.input_value groundId k st' = AdminDashboard.or_empty value
  ∧ (∀ k', k' ≠ k →
       AdminDashboard.input_value groundId k' st'
       = AdminDashboard.input_value groundId k' st)
  ∧ (∀ g k', g ≠ groundId →
       AdminDashboard.input_value g k' st' = AdminDashboard.input_value g k' st)
  ∧ AdminDashboard.editingRow st' = AdminDashboard.editingRow st.
Proof.
  cbv zeta. unfold AdminDashboard.input_value, AdminDashboard.handlePricingChange.
  simpl. split_and!; [| | |done].
  - rewrite lookup_insert_eq. by destruct k.
  - intros k' Hne. rewrite lookup_insert_eq.
    destruct (AdminDashboard.pricingEdit st !! groundId); by destruct k, k'.
  - intros g k' Hne. by rewrite lookup_insert_ne.
Qed.

(** X22: cancelling the edit of a row, after whatever was typed into it, leaves
    the row not in edit mode and without an entry of typed prices, and the
    entries of the other grounds untouched; if the row had no entry before
    the edit began, the typed prices are as before it; and a new edit of the
    row starts from the prices of the ground, not from what was typed. *)
Theorem cancel_discards_typed_prices (g : AdminDashboard.ground)
    (typed : list (AdminDashboard.priceKey * BookingForm.jsval))
    (st : AdminDashboard.state) :
  let st' :=
    AdminDashboard.handleCancelEdit (AdminDashboard.id g)
      (AdminDashboard.type_all (AdminDashboard.id g) typed
         (AdminDashboard.handleEditRow g st)) in
  AdminDashboard.isEditing (AdminDashboard.id g) st' = false
  ∧ AdminDashboard.pricingEdit st' !! AdminDashboard.id g = None
  ∧ (∀ g', g' ≠ AdminDashboard.id g →
       AdminDashboard.pricingEdit st' !! g' = AdminDashboard.pricingEdit st !! g'
       ∧ AdminDashboard.isEditing g' st' = AdminDashboard.isEditing g' st)
  ∧ (AdminDashboard.pricingEdit st !! AdminDashboard.id g = None →
     AdminDashboard.pricingEdit st' = AdminDashboard.pricingEdit st)
  ∧ (∀ k, AdminDashboard.input_value (AdminDashboard.id g) k
            (AdminDashboard.handleEditRow g st')
          = AdminDashboard.or_empty (AdminDashboard.ground_price k g)).
Proof.
  cbv zeta.
  destruct (type_all_frame (AdminDashboard.id g) typed (AdminDashboard.handleEditRow g st))
    as [Hrow Hother].
  assert (∀ g', g' ≠ AdminDashboard.id g →
    AdminDashboard.pricingEdit
      (AdminDashboard.handleCancelEdit (AdminDashboard.id g)
         (AdminDashboard.type_all (AdminDashboard.id g) typed
            (AdminDashboard.handleEditRow g st))) !! g'
    = AdminDashboard.pricingEdit st !! g') as Hsame.
  { intros g' Hne. simpl. rewrite lookup_delete_ne by done.
    rewrite (Hother g' Hne). simpl. by apply lookup_insert_ne. }
  split_and!.
  - unfold AdminDashboard.isEditing. simpl. by rewrite lookup_insert_eq.
  - simpl. apply lookup_delete_eq.
  - intros g' Hne. split; [by apply Hsame|].
    unfold AdminDashboard.isEditing. simpl. rewrite lookup_insert_ne by done.
    rewrite Hrow. simpl. by rewrite lookup_insert_ne.
  - intros Hnone. apply map_eq. intros g'.
    destruct (decide (g' = AdminDashboard.id g)) as [->|Hne]; [|by apply Hsame].
    rewrite Hnone. simpl. apply lookup_delete_eq.
  - intros k. unfold AdminDashboard.input_value. simpl. rewrite lookup_insert_eq.
    destruct k; cbn [AdminDashboard.get_price AdminDashboard.weekday_first
      AdminDashboard.weekday_second AdminDashboard.weekend_first
      AdminDashboard.weekend_second];
      by destruct (AdminDashboard.ground_price _ g).
Qed.
